(** * pr_testbot: the webhook-driven deployment orchestrator of [main.py]

    A shallow embedding of [main.py] and the properties of its
    event-to-action pipeline: signature check, credential minting,
    script runners, notifier and the [/webhook] dispatcher.

    Conventions of the embedding.
    - A Python [str] and a Python [bytes] are both a [string]: a sequence
      of 8-bit units.  For [str] the units are code points below 256, which
      is exactly what a WSGI server hands over for a header value (latin-1).
    - A Python [int] is a [Z].  Floating point numbers are not modelled:
      JSON numbers are integers, and the clock is read in whole seconds
      ([int(time.time())]).
    - Everything that leaves the process (HTTP, subprocess, files, SMTP,
      logging, the clock, the JWT and PEM libraries) is a [Call] answered
      by an [Oracle]; a program is a finite tree of calls ([Prog]). *)

From Stdlib Require Import ZArith List String Ascii Bool Lia DecimalString.
From Stdlib Require Import DecimalPos DecimalZ.
Import ListNotations.

Local Open Scope string_scope.
Local Open Scope list_scope.
Local Open Scope Z_scope.

(** Concatenation of Python strings ([+], and the pieces of an f-string). *)
Notation "a +++ b" := (String.append a b) (right associativity, at level 60).

(* ================================================================== *)
(** * Bytes and hexadecimal *)

Definition byte_of_ascii (c : ascii) : Z := Z.of_N (N_of_ascii c).
Definition ascii_of_byte (b : Z) : ascii := ascii_of_N (Z.to_N (b mod 256)).

Fixpoint bytes_of_string (s : string) : list Z :=
  match s with
  | EmptyString => []
  | String c s' => byte_of_ascii c :: bytes_of_string s'
  end.

Fixpoint string_of_bytes (l : list Z) : string :=
  match l with
  | [] => EmptyString
  | b :: l' => String (ascii_of_byte b) (string_of_bytes l')
  end.

Definition hex_digit (d : Z) : ascii :=
  if d <? 10 then ascii_of_byte (48 + d) else ascii_of_byte (87 + d).

(** [bytes.hex()]: two lowercase digits per byte. *)
Fixpoint hex_of_bytes (l : list Z) : string :=
  match l with
  | [] => EmptyString
  | b :: l' =>
      String (hex_digit (b / 16)) (String (hex_digit (b mod 16)) (hex_of_bytes l'))
  end.

(** [str.encode()]: UTF-8 of a string of code points below 256. *)
Fixpoint utf8_encode (s : string) : list Z :=
  match s with
  | EmptyString => []
  | String c s' =>
      let n := byte_of_ascii c in
      if n <? 128 then n :: utf8_encode s'
      else Z.lor 192 (Z.shiftr n 6) :: Z.lor 128 (Z.land n 63) :: utf8_encode s'
  end.

(* ================================================================== *)
(** * [hashlib.sha256] and [hmac.new(key, msg, sha256)] (FIPS 180-4, RFC 2104) *)

Module SHA256.

Definition w32 (x : Z) : Z := x mod 2 ^ 32.
Definition add32 (a b : Z) : Z := w32 (a + b).
Definition rotr (n x : Z) : Z := Z.lor (Z.shiftr x n) (w32 (Z.shiftl x (32 - n))).
Definition not32 (x : Z) : Z := Z.lxor x 4294967295.

Definition Ch (x y z : Z) : Z := Z.lxor (Z.land x y) (Z.land (not32 x) z).
Definition Maj (x y z : Z) : Z :=
  Z.lxor (Z.lxor (Z.land x y) (Z.land x z)) (Z.land y z).
Definition Sigma0 (x : Z) : Z := Z.lxor (Z.lxor (rotr 2 x) (rotr 13 x)) (rotr 22 x).
Definition Sigma1 (x : Z) : Z := Z.lxor (Z.lxor (rotr 6 x) (rotr 11 x)) (rotr 25 x).
Definition sigma0 (x : Z) : Z := Z.lxor (Z.lxor (rotr 7 x) (rotr 18 x)) (Z.shiftr x 3).
Definition sigma1 (x : Z) : Z := Z.lxor (Z.lxor (rotr 17 x) (rotr 19 x)) (Z.shiftr x 10).

(** The round constants: the first 32 bits of the fractional parts of the
    cube roots of the first 64 primes. *)
Definition K : list Z :=
  [
    1116352408; 1899447441; 3049323471; 3921009573; 961987163;
    1508970993; 2453635748; 2870763221; 3624381080; 310598401;
    607225278; 1426881987; 1925078388; 2162078206; 2614888103;
    3248222580; 3835390401; 4022224774; 264347078; 604807628;
    770255983; 1249150122; 1555081692; 1996064986; 2554220882;
    2821834349; 2952996808; 3210313671; 3336571891; 3584528711;
    113926993; 338241895; 666307205; 773529912; 1294757372;
    1396182291; 1695183700; 1986661051; 2177026350; 2456956037;
    2730485921; 2820302411; 3259730800; 3345764771; 3516065817;
    3600352804; 4094571909; 275423344; 430227734; 506948616;
    659060556; 883997877; 958139571; 1322822218; 1537002063;
    1747873779; 1955562222; 2024104815; 2227730452; 2361852424;
    2428436474; 2756734187; 3204031479; 3329325298 ].

(** The initial hash value (square roots of the first 8 primes). *)
Definition H0 : list Z :=
  [
    1779033703; 3144134277; 1013904242; 2773480762;
    1359893119; 2600822924; 528734635; 1541459225 ].

(** Big-endian words of a block, and the bytes of a word. *)
Fixpoint words_of_bytes (l : list Z) : list Z :=
  match l with
  | a :: b :: c :: d :: l' =>
      (((a * 256 + b) * 256 + c) * 256 + d) :: words_of_bytes l'
  | _ => []
  end.

Definition bytes_of_word (w : Z) : list Z :=
  [ (w / 16777216) mod 256; (w / 65536) mod 256; (w / 256) mod 256; w mod 256 ].

(** The message schedule, newest word first while it is extended. *)
Fixpoint extend (n : nat) (rw : list Z) : list Z :=
  match n with
  | O => rw
  | S n' =>
      let w := add32 (add32 (sigma1 (nth 1 rw 0)) (nth 6 rw 0))
                     (add32 (sigma0 (nth 14 rw 0)) (nth 15 rw 0)) in
      extend n' (w :: rw)
  end.

Definition schedule (block : list Z) : list Z :=
  rev (extend 48 (rev (words_of_bytes block))).

Definition round (st : list Z) (kw : Z * Z) : list Z :=
  match st with
  | [a; b; c; d; e; f; g; h] =>
      let t1 := add32 (add32 (add32 h (Sigma1 e)) (add32 (Ch e f g) (fst kw))) (snd kw) in
      let t2 := add32 (Sigma0 a) (Maj a b c) in
      [add32 t1 t2; a; b; c; add32 d t1; e; f; g]
  | _ => st
  end.

Definition compress (h : list Z) (block : list Z) : list Z :=
  map (fun p => add32 (fst p) (snd p))
      (combine h (fold_left round (combine K (schedule block)) h)).

Definition pad (msg : list Z) : list Z :=
  let len := Z.of_nat (List.length msg) in
  let zeros := Z.to_nat ((55 - len) mod 64) in
  let bits := len * 8 in
  msg ++ [128] ++ repeat 0 zeros
      ++ bytes_of_word (w32 (bits / 2 ^ 32)) ++ bytes_of_word (w32 bits).

Fixpoint blocks (fuel : nat) (l : list Z) : list (list Z) :=
  match fuel with
  | O => []
  | S fuel' =>
      match l with
      | [] => []
      | _ => firstn 64 l :: blocks fuel' (skipn 64 l)
      end
  end.

Definition digest (msg : list Z) : list Z :=
  let p := pad msg in
  flat_map bytes_of_word (fold_left compress (blocks (List.length p) p) H0).

End SHA256.

Module HMAC.

Definition block_size : nat := 64.

Definition block_key (key : list Z) : list Z :=
  let k := if (Nat.ltb block_size (List.length key)) then SHA256.digest key else key in
  k ++ repeat 0 (block_size - List.length k).

Definition xor_with (c : Z) (l : list Z) : list Z := map (Z.lxor c) l.

Definition digest (key msg : list Z) : list Z :=
  let k := block_key key in
  SHA256.digest (xor_with 92 k ++ SHA256.digest (xor_with 54 k ++ msg)).

(** [hmac.new(key, msg, hashlib.sha256).hexdigest()] *)
Definition hexdigest (key msg : list Z) : string := hex_of_bytes (digest key msg).

End HMAC.


(* ================================================================== *)
(** * Python values *)

(** The values the handler computes with: what [json.loads] produces,
    plus [VObj] for an object of no further interest (known by its repr). *)
#[warnings="-register-all"]
Inductive value : Type :=
| VNone
| VBool (b : bool)
| VInt (n : Z)
| VStr (s : string)
| VList (l : list value)
| VDict (d : list (string * value))
| VObj (repr : string).

(** Truth value of an object in a condition ([if x:], [not x]). *)
Definition truthy (v : value) : bool :=
  match v with
  | VNone => false
  | VBool b => b
  | VInt n => negb (n =? 0)
  | VStr s => negb (String.eqb s "")
  | VList l => match l with [] => false | _ => true end
  | VDict d => match d with [] => false | _ => true end
  | VObj _ => true
  end.

(** [str(n)] of an integer. *)
Definition dec (n : Z) : string := NilZero.string_of_int (Z.to_int n).

Fixpoint contains_char (c : ascii) (s : string) : bool :=
  match s with
  | EmptyString => false
  | String a s' => Ascii.eqb a c || contains_char c s'
  end.

(** [str.isprintable] on code points below 256. *)
Definition printable (n : Z) : bool :=
  ((32 <=? n) && (n <=? 126)) || ((161 <=? n) && (n <=? 255) && negb (n =? 173)).

Definition escape_char (quote : ascii) (c : ascii) : string :=
  let n := byte_of_ascii c in
  if Ascii.eqb c quote then String "\" (String quote EmptyString)
  else if n =? 92 then "\\"
  else if n =? 9 then "\t"
  else if n =? 10 then "\n"
  else if n =? 13 then "\r"
  else if printable n then String c EmptyString
  else "\x" +++ String (hex_digit (n / 16)) (String (hex_digit (n mod 16)) EmptyString).

Fixpoint escape (quote : ascii) (s : string) : string :=
  match s with
  | EmptyString => EmptyString
  | String c s' => escape_char quote c +++ escape quote s'
  end.

Definition dquote : ascii := "034"%char.

(** [repr(s)] of a string: single quotes unless the string holds a single
    quote and no double quote. *)
Definition repr_str (s : string) : string :=
  let quote :=
    if contains_char "'" s && negb (contains_char dquote s) then dquote else "'"%char in
  String quote (escape quote s) +++ String quote EmptyString.

Fixpoint join (sep : string) (l : list string) : string :=
  match l with
  | [] => ""
  | [x] => x
  | x :: l' => x +++ sep +++ join sep l'
  end.

Fixpoint py_repr (v : value) : string :=
  match v with
  | VNone => "None"
  | VBool true => "True"
  | VBool false => "False"
  | VInt n => dec n
  | VStr s => repr_str s
  | VList l => "[" +++ join ", " (map py_repr l) +++ "]"
  | VDict d =>
      "{" +++ join ", " (map (fun kv => repr_str (fst kv) +++ ": " +++ py_repr (snd kv)) d) +++ "}"
  | VObj r => r
  end.

(** [str(v)], which is also what an f-string field [{v}] renders. *)
Definition py_str (v : value) : string :=
  match v with
  | VStr s => s
  | _ => py_repr v
  end.

(** [type(v).__name__], as error messages quote it.  An object of no
    further interest is never the subject of such a message in this
    program (neither [request.json] nor [response.json()] produces one);
    its class is rendered as [object]. *)
Definition type_name (v : value) : string :=
  match v with
  | VNone => "NoneType"
  | VBool _ => "bool"
  | VInt _ => "int"
  | VStr _ => "str"
  | VList _ => "list"
  | VDict _ => "dict"
  | VObj _ => "object"
  end.

Definition opt_value (o : option string) : value :=
  match o with
  | None => VNone
  | Some s => VStr s
  end.

Fixpoint assoc {A : Type} (k : string) (d : list (string * A)) : option A :=
  match d with
  | [] => None
  | (k', v) :: d' => if String.eqb k k' then Some v else assoc k d'
  end.

(* ================================================================== *)
(** * Exceptions, external calls and programs *)

(** The exceptions the code can see; all derive from [Exception]. *)
Inductive exn : Type :=
| NameError (name : string)
| KeyError (key : string)
| TypeError (msg : string)
| AttributeError (msg : string)
| CalledProcessError (returncode : Z) (stdout stderr : option string)
| HTTPError (status_code : Z)
| OtherError (cls msg : string).

Inductive result (A : Type) : Type :=
| Ok (a : A)
| Err (e : exn).
Arguments Ok {A} a.
Arguments Err {A} e.

(** A [requests.Response]: its status code and what [.json()] gives
    (it raises when the body is not JSON). *)
Record Response : Type := mkResponse {
  status_code : Z;
  json : result value
}.

(** A finished child process ([subprocess.CompletedProcess]); the streams
    are [None] when they were not captured. *)
Record Completed : Type := mkCompleted {
  returncode : Z;
  stdout : option string;
  stderr : option string
}.

(** Where [subprocess.run] sends the child's output. *)
Inductive redirect : Type :=
| CaptureText                (* capture_output=True, text=True *)
| ToFile (path : string).    (* stdout=log_file, stderr=log_file *)

(** The multipart message [send_email] composes. *)
Record Email : Type := mkEmail {
  msg_from : option string;
  msg_to : option string;
  msg_subject : string;
  msg_body : string;                 (* MIMEText(body, 'plain') *)
  attachment_header : string;        (* Content-Disposition *)
  attachment_payload : string        (* base64-encoded on the wire *)
}.

(** A log record: the text, then [str(exc)] of an exception when the
    f-string ends with one. *)
Record LogRecord : Type := mkLog {
  log_text : string;
  log_exc : option exn
}.

(** The key object [serialization.load_pem_private_key] returns. *)
Inductive private_key_t : Type :=
| PrivateKey (id : string).

Inductive Call : Type -> Type :=
(* startup *)
| Getenv (name : string) : Call (option string)
| LoadPem (data : string) : Call (result private_key_t)
(* credential provider *)
| CurrentTime : Call Z
| JwtEncode (payload : list (string * value)) (key : private_key_t)
            (algorithm : string) : Call (result string)
(* requests *)
| HttpPost (url : value) (headers : list (string * string))
           (body : option value) : Call (result Response)
(* files *)
| FileOpen (path mode : string) : Call (result unit)
| FileWrite (path data : string) : Call (result unit)
| FileRead (path : string) : Call (result string)
| FileClose (path : string) : Call (result unit)
(* subprocess *)
| SubprocessRun (argv : list value) (out : redirect) : Call (result Completed)
(* logging *)
| LogInfo (r : LogRecord) : Call unit
| LogError (r : LogRecord) : Call unit
(* email *)
| MimeAsString (m : Email) : Call (result string)
| SmtpConnect (host port : option string) : Call (result unit)
| SmtpStartTls : Call (result unit)
| SmtpLogin (user password : option string) : Call (result unit)
| SmtpSendmail (from_addr to_addr : option string) (text : string) : Call (result unit)
| SmtpQuit : Call (result unit).

(** A program: it returns, raises, or makes a call and goes on with the
    answer. *)
Inductive Prog (A : Type) : Type :=
| Ret (a : A)
| Raise (e : exn)
| Do {R : Type} (c : Call R) (k : R -> Prog A).
Arguments Ret {A} a.
Arguments Raise {A} e.
Arguments Do {A R} c k.

Fixpoint bind {A B : Type} (p : Prog A) (f : A -> Prog B) : Prog B :=
  match p with
  | Ret a => f a
  | Raise e => Raise e
  | Do c k => Do c (fun r => bind (k r) f)
  end.

Notation "x <- p ;; q" := (bind p (fun x => q))
  (at level 61, p at next level, right associativity).
Notation "p ;; q" := (bind p (fun _ => q))
  (at level 61, right associativity).

(** A call that cannot fail, and a call whose failure is raised. *)
Definition perform {R : Type} (c : Call R) : Prog R := Do c Ret.

Definition call {R : Type} (c : Call (result R)) : Prog R :=
  Do c (fun r => match r with Ok a => Ret a | Err e => Raise e end).

(** [try: p  except Exception as e: h e] *)
Fixpoint try_except {A : Type} (p : Prog A) (h : exn -> Prog A) : Prog A :=
  match p with
  | Ret a => Ret a
  | Raise e => h e
  | Do c k => Do c (fun r => try_except (k r) h)
  end.

(** [p] followed by [fin] whether [p] returned or raised (the exit of a
    [with] block); an exception of [fin] replaces the outcome of [p]. *)
Fixpoint finally {A : Type} (p : Prog A) (fin : Prog unit) : Prog A :=
  match p with
  | Ret a => fin ;; Ret a
  | Raise e => fin ;; Raise e
  | Do c k => Do c (fun r => finally (k r) fin)
  end.

(** [with open(path, mode) as f: body] *)
Definition with_open {A : Type} (path mode : string) (body : Prog A) : Prog A :=
  call (FileOpen path mode) ;;
  finally body (call (FileClose path)).

(** ** Running a program against its environment *)

Inductive event : Type :=
| Ev {R : Type} (c : Call R) (r : R).

(** The environment answers a call knowing everything that happened so
    far. *)
Definition Oracle : Type := forall R : Type, list event -> Call R -> R.

Inductive outcome (A : Type) : Type :=
| Returned (a : A)
| Raised (e : exn).
Arguments Returned {A} a.
Arguments Raised {A} e.

(** [run o p hist]: the outcome of [p] started after [hist], and the
    events it adds, oldest first. *)
Fixpoint run {A : Type} (o : Oracle) (p : Prog A) (hist : list event)
  : outcome A * list event :=
  match p with
  | Ret a => (Returned a, [])
  | Raise e => (Raised e, [])
  | Do c k =>
      let r := o _ hist c in
      let res := run o (k r) (hist ++ [Ev c r]) in
      (fst res, Ev c r :: snd res)
  end.

(* ================================================================== *)
(** * Module level of [main.py] (lines 20-45) *)

(** The module globals that hold configuration, after the module body has
    run. *)
Record Globals : Type := mkGlobals {
  WEBHOOK_SECRET : option string;
  APP_ID : option string;
  PRIVATE_KEY_PATH : option string;
  SMTP_SERVER : option string;
  SMTP_PORT : option string;
  SMTP_USERNAME : option string;
  SMTP_PASSWORD : option string;
  RECIPIENT_EMAIL : option string;
  private_key : private_key_t
}.

(** The module body: eight [os.getenv] reads (of the process environment
    as [load_dotenv] left it), then the key file is read and parsed
    once. *)
Definition load_module : Prog Globals :=
  secret <- perform (Getenv "WEBHOOK_SECRET") ;;
  app_id <- perform (Getenv "APP_ID") ;;
  key_path <- perform (Getenv "PRIVATE_KEY_PATH") ;;
  smtp_server <- perform (Getenv "SMTP_SERVER") ;;
  smtp_port <- perform (Getenv "SMTP_PORT") ;;
  smtp_username <- perform (Getenv "SMTP_USERNAME") ;;
  smtp_password <- perform (Getenv "SMTP_PASSWORD") ;;
  recipient <- perform (Getenv "RECIPIENT_EMAIL") ;;
  match key_path with
  | None => Raise (TypeError "expected str, bytes or os.PathLike object, not NoneType")
  | Some path =>
      key <- with_open path "r"
               (pem <- call (FileRead path) ;;
                call (LoadPem (string_of_bytes (utf8_encode pem)))) ;;
      Ret (mkGlobals secret app_id key_path smtp_server smtp_port
                     smtp_username smtp_password recipient key)
  end.

Definition obj (name : string) : value := VObj ("<" +++ name +++ ">").

(** Every name bound at module level, with its value. *)
Definition module_scope (g : Globals) : list (string * value) :=
  map (fun n => (n, obj n))
      [ "Flask"; "request"; "jsonify"; "subprocess"; "requests"; "re"; "jwt";
        "time"; "os"; "hmac"; "hashlib"; "logging"; "serialization";
        "default_backend"; "load_dotenv"; "smtplib"; "MIMEMultipart";
        "MIMEText"; "MIMEBase"; "encoders"; "__name__"; "app"; "logger" ]
  ++ [ ("WEBHOOK_SECRET", opt_value (WEBHOOK_SECRET g));
       ("APP_ID", opt_value (APP_ID g));
       ("PRIVATE_KEY_PATH", opt_value (PRIVATE_KEY_PATH g));
       ("SMTP_SERVER", opt_value (SMTP_SERVER g));
       ("SMTP_PORT", opt_value (SMTP_PORT g));
       ("SMTP_USERNAME", opt_value (SMTP_USERNAME g));
       ("SMTP_PASSWORD", opt_value (SMTP_PASSWORD g));
       ("RECIPIENT_EMAIL", opt_value (RECIPIENT_EMAIL g)) ]
  ++ map (fun n => (n, obj n))
      [ "key_file"; "private_key"; "verify_signature"; "get_jwt_token";
        "get_installation_access_token"; "webhook"; "notify_stakeholders";
        "run_deployment_script"; "run_cleanup_script"; "send_email" ].

(** The builtins the source names. *)
Definition builtins_scope : list (string * value) :=
  map (fun n => (n, obj n)) [ "open"; "int"; "str"; "Exception" ].

(** Reading a name that the function neither takes as a parameter nor
    assigns: the module globals are searched, then the builtins, and
    [NameError] is raised when neither binds it. *)
Definition load_global (g : Globals) (x : string) : Prog value :=
  match assoc x (module_scope g ++ builtins_scope) with
  | Some v => Ret v
  | None => Raise (NameError x)
  end.

(* ================================================================== *)
(** * Signature check (lines 47-52) *)

Definition is_ascii (s : string) : bool :=
  forallb (fun b => b <? 128) (bytes_of_string s).

(** [hmac.compare_digest] on two [str]: it compares ASCII strings only and
    raises [TypeError] otherwise. *)
Definition compare_digest (a b : string) : Prog bool :=
  if is_ascii a && is_ascii b then Ret (String.eqb a b)
  else Raise (TypeError "comparing strings with non-ASCII characters is not supported").

(** The signature header value that GitHub computes for a body. *)
Definition expected_signature (secret payload : string) : string :=
  "sha256=" +++ HMAC.hexdigest (utf8_encode secret) (bytes_of_string payload).

Definition verify_signature (g : Globals) (payload : string)
                            (signature : option string) : Prog bool :=
  match signature with
  | None => Ret false
  | Some sig =>
      if negb (truthy (VStr sig)) then Ret false
      else
        match WEBHOOK_SECRET g with
        | None => Raise (AttributeError "'NoneType' object has no attribute 'encode'")
        | Some secret => compare_digest (expected_signature secret payload) sig
        end
  end.

(* ================================================================== *)
(** * Credential provider (lines 54-77) *)

Definition get_jwt_token (g : Globals) : Prog string :=
  current_time <- perform CurrentTime ;;
  let payload :=
    [ ("iat", VInt current_time);
      ("exp", VInt (current_time + 10 * 60));
      ("iss", opt_value (APP_ID g)) ] in
  call (JwtEncode payload (private_key g) "RS256").

(** [response.raise_for_status()] *)
Definition raise_for_status (r : Response) : Prog unit :=
  if (400 <=? status_code r) && (status_code r <? 600)
  then Raise (HTTPError (status_code r))
  else Ret tt.

(** [response.json()] *)
Definition response_json (r : Response) : Prog value :=
  match json r with
  | Ok v => Ret v
  | Err e => Raise e
  end.

(** [v[k]] with a string key. *)
Definition subscript (v : value) (k : string) : Prog value :=
  match v with
  | VDict d =>
      match assoc k d with
      | Some x => Ret x
      | None => Raise (KeyError k)
      end
  | VList _ => Raise (TypeError "list indices must be integers or slices, not str")
  | VStr _ => Raise (TypeError "string indices must be integers, not 'str'")
  | _ => Raise (TypeError ("'" +++ type_name v +++ "' object is not subscriptable"))
  end.

Definition accept_header : string * string :=
  ("Accept", "application/vnd.github.v3+json").

Definition get_installation_access_token (g : Globals) (installation_id : value)
  : Prog value :=
  jwt_token <- get_jwt_token g ;;
  let headers := [ ("Authorization", "Bearer " +++ jwt_token); accept_header ] in
  response <- call (HttpPost
    (VStr ("https://api.github.com/app/installations/"
           +++ py_str installation_id +++ "/access_tokens"))
    headers None) ;;
  raise_for_status response ;;
  body <- response_json response ;;
  subscript body "token".

(* ================================================================== *)
(** * Notifier: comments (lines 141-154) *)

Definition nl : string := String "010" EmptyString.

(** One entry of the [details] dict: [{'status': ..., 'message': ...}]. *)
Record Detail : Type := mkDetail {
  status : string;
  message : option string
}.

(** The [details] dict, in insertion order. *)
Definition Details : Type := list (string * Detail).

Definition table_row (step : string) (detail : Detail) : string :=
  "| " +++ step +++ " | " +++ status detail +++ " | "
       +++ py_str (opt_value (message detail)) +++ " |" +++ nl.

Definition render_table (details : Details) : string :=
  fold_left (fun table sd => table +++ table_row (fst sd) (snd sd)) details
            ("| Step | Status | Details |" +++ nl
             +++ "|------|--------|---------|" +++ nl).

Definition comment_body (message : string) (details : option Details) : string :=
  match details with
  | Some (d :: ds) => message +++ nl +++ nl +++ render_table (d :: ds)
  | _ => message
  end.

Definition notify_stakeholders (comment_url : value) (message : string)
    (access_token : value) (details : option Details) : Prog unit :=
  let headers := [ ("Authorization", "token " +++ py_str access_token); accept_header ] in
  let data := VDict [ ("body", VStr (comment_body message details)) ] in
  response <- call (HttpPost comment_url headers (Some data)) ;;
  if negb (status_code response =? 201) then
    body <- response_json response ;;
    perform (LogError (mkLog ("Failed to comment on PR: " +++ py_str body) None))
  else Ret tt.

(* ================================================================== *)
(** * Action runner (lines 156-202) *)

(** [\s] of the [re] module on a [str], for code points below 256. *)
Definition is_space (c : ascii) : bool :=
  let n := byte_of_ascii c in
  ((9 <=? n) && (n <=? 13)) || ((28 <=? n) && (n <=? 32)) || (n =? 133) || (n =? 160).

Fixpoint strip_prefix (p s : string) : option string :=
  match p with
  | EmptyString => Some s
  | String a p' =>
      match s with
      | String b s' => if Ascii.eqb a b then strip_prefix p' s' else None
      | EmptyString => None
      end
  end.

Fixpoint take_non_space (s : string) : string :=
  match s with
  | EmptyString => EmptyString
  | String c s' => if is_space c then EmptyString else String c (take_non_space s')
  end.

(** The pattern [lit(glit[^\s]+)] matched at the head of [s]: group 1. *)
Definition match_here (lit glit s : string) : option string :=
  match strip_prefix (lit +++ glit) s with
  | Some rest =>
      match take_non_space rest with
      | EmptyString => None
      | tok => Some (glit +++ tok)
      end
  | None => None
  end.

(** [re.search] for such a pattern: the leftmost match, [None] without
    one. *)
Fixpoint re_search (lit glit s : string) : option string :=
  match match_here lit glit s with
  | Some grp => Some grp
  | None =>
      match s with
      | EmptyString => None
      | String _ s' => re_search lit glit s'
      end
  end.

(** [subprocess.run(argv, check=True, ...)] *)
Definition subprocess_run (argv : list value) (out : redirect) : Prog Completed :=
  result <- call (SubprocessRun argv out) ;;
  if returncode result =? 0 then Ret result
  else Raise (CalledProcessError (returncode result) (stdout result) (stderr result)).

(** [log_file.write(s)]: the argument must be a [str]. *)
Definition file_write (path : string) (s : option string) : Prog unit :=
  match s with
  | Some text => call (FileWrite path text)
  | None => Raise (TypeError "write() argument must be str, not None")
  end.

(** [re.search(pattern, s)]: the subject must be a [str]. *)
Definition search_output (lit glit : string) (s : option string)
  : Prog (option string) :=
  match s with
  | Some text => Ret (re_search lit glit text)
  | None => Raise (TypeError "expected string or bytes-like object")
  end.

(** [try: p  except subprocess.CalledProcessError as e: h e] *)
Definition except_called_process_error {A : Type} (p : Prog A)
    (h : Z -> option string -> option string -> Prog A) : Prog A :=
  try_except p (fun e =>
    match e with
    | CalledProcessError rc out err => h rc out err
    | _ => Raise e
    end).

(** Lines 171-175. *)
Definition deployment_details (branch_name : value)
    (container_name deployment_url : option string) : Details :=
  let success := fun m => mkDetail "Success" (Some m) in
  [ ("Clone repository", success "Repository cloned successfully.");
    ("Checkout branch",
     success ("Checked out branch " +++ py_str branch_name +++ "."));
    ("Pull latest changes",
     success ("Pulled latest changes for branch " +++ py_str branch_name +++ "."));
    ("Build Docker image",
     success ("Docker image built successfully for container "
              +++ py_str (opt_value container_name) +++ "."));
    ("Run Docker container",
     success ("Container " +++ py_str (opt_value container_name) +++ " running at "
              +++ py_str (opt_value deployment_url) +++ ".")) ].

Definition deployment_log_path (branch_name pr_number : value) : string :=
  "/tmp/deployment_log_" +++ py_str branch_name +++ "_" +++ py_str pr_number +++ ".txt".

Definition cleanup_log_path (branch_name pr_number : value) : string :=
  "/tmp/cleanup_log_" +++ py_str branch_name +++ "_" +++ py_str pr_number +++ ".txt".

(** The names [comment_url] and [access_token] are neither parameters of
    the runners nor assigned in them, so both are read as globals. *)
Definition run_deployment_script (g : Globals) (branch_name pr_number : value)
  : Prog (option string * option string * string) :=
  let log_file_path := deployment_log_path branch_name pr_number in
  with_open log_file_path "w"
    (except_called_process_error
       (result <- subprocess_run
                    [VStr "./deploy.sh"; branch_name; VStr (py_str pr_number)]
                    CaptureText ;;
        file_write log_file_path (stdout result) ;;
        perform (LogInfo (mkLog (py_str (opt_value (stdout result))) None)) ;;
        container_name <- search_output "Container name: " "" (stdout result) ;;
        deployment_url <- search_output "Deployment complete: " "http://" (stdout result) ;;
        let details := deployment_details branch_name container_name deployment_url in
        comment_url <- load_global g "comment_url" ;;
        access_token <- load_global g "access_token" ;;
        notify_stakeholders comment_url "Deployment process details:"
                            access_token (Some details) ;;
        Ret (container_name, deployment_url, log_file_path))
       (fun _ _ e_stderr =>
        let text := "Deployment script failed with error: "
                    +++ py_str (opt_value e_stderr) in
        call (FileWrite log_file_path text) ;;
        perform (LogError (mkLog text None)) ;;
        let details := [ ("Deployment script", mkDetail "Failed" e_stderr) ] in
        comment_url <- load_global g "comment_url" ;;
        access_token <- load_global g "access_token" ;;
        notify_stakeholders comment_url "Deployment process details:"
                            access_token (Some details) ;;
        Ret (None, None, log_file_path))).

Definition run_cleanup_script (g : Globals) (branch_name pr_number : value)
  : Prog string :=
  let log_file_path := cleanup_log_path branch_name pr_number in
  with_open log_file_path "w"
    (except_called_process_error
       (subprocess_run
          [VStr "./cleanup.sh"; branch_name; VStr (py_str pr_number)]
          (ToFile log_file_path) ;;
        perform (LogInfo (mkLog "Cleanup script executed successfully." None)) ;;
        let details :=
          [ ("Cleanup script",
             mkDetail "Success" (Some "Cleanup script executed successfully.")) ] in
        comment_url <- load_global g "comment_url" ;;
        access_token <- load_global g "access_token" ;;
        notify_stakeholders comment_url "Cleanup process details:"
                            access_token (Some details) ;;
        Ret log_file_path)
       (fun _ _ e_stderr =>
        let text := "Cleanup script failed with error: "
                    +++ py_str (opt_value e_stderr) in
        call (FileWrite log_file_path text) ;;
        perform (LogError (mkLog text None)) ;;
        let details := [ ("Cleanup script", mkDetail "Failed" e_stderr) ] in
        comment_url <- load_global g "comment_url" ;;
        access_token <- load_global g "access_token" ;;
        notify_stakeholders comment_url "Cleanup process details:"
                            access_token (Some details) ;;
        Ret log_file_path)).

(* ================================================================== *)
(** * Notifier: email (lines 204-225) *)

(** [os.path.basename]: what follows the last slash. *)
Fixpoint basename_from (s acc : string) : string :=
  match s with
  | EmptyString => acc
  | String c s' =>
      if Ascii.eqb c "/" then basename_from s' s' else basename_from s' acc
  end.

Definition basename (path : string) : string := basename_from path path.

Definition send_email (g : Globals) (to_address : option string)
    (subject body attachment_path : string) : Prog unit :=
  let from_address := SMTP_USERNAME g in
  call (FileOpen attachment_path "rb") ;;
  payload <- call (FileRead attachment_path) ;;
  let msg := mkEmail from_address to_address subject body
               ("attachment; filename= " +++ basename attachment_path) payload in
  call (SmtpConnect (SMTP_SERVER g) (SMTP_PORT g)) ;;
  call SmtpStartTls ;;
  call (SmtpLogin from_address (SMTP_PASSWORD g)) ;;
  text <- call (MimeAsString msg) ;;
  call (SmtpSendmail from_address to_address text) ;;
  call SmtpQuit.

(* ================================================================== *)
(** * Webhook dispatcher (lines 79-139) *)

(** What Flask is handed: the signature header, the raw body, and what
    [request.json] gives for it. *)
Record Request : Type := mkRequest {
  signature_header : option string;     (* request.headers.get('X-Hub-Signature-256') *)
  data : string;                        (* request.data *)
  json_body : result value              (* request.json *)
}.

(** [jsonify({'message': m}), code] *)
Record Reply : Type := mkReply {
  code : Z;
  reply_message : string
}.

(** [action in [...]] and [action == '...']: equality with a string. *)
Definition is_str (v : value) (s : string) : bool :=
  match v with
  | VStr a => String.eqb a s
  | _ => false
  end.

Definition among (v : value) (l : list string) : bool := existsb (is_str v) l.

(** [data.get(k)] *)
Definition dict_get (v : value) (k : string) : Prog value :=
  match v with
  | VDict d =>
      match assoc k d with
      | Some x => Ret x
      | None => Ret VNone
      end
  | _ => Raise (AttributeError ("'" +++ type_name v +++ "' object has no attribute 'get'"))
  end.

(** [k in data], reached only after [data.get] succeeded. *)
Definition has_key (v : value) (k : string) : bool :=
  match v with
  | VDict d =>
      match assoc k d with
      | Some _ => true
      | None => false
      end
  | _ => false
  end.

Definition comment_url_of (repo_name pr_number : value) : string :=
  "https://api.github.com/repos/" +++ py_str repo_name +++ "/issues/"
    +++ py_str pr_number +++ "/comments".

Definition deployment_message_of (deployment_link : option string) : string :=
  match deployment_link with
  | Some link =>
      if truthy (VStr link)
      then "Deployment successful. [Deployed application](" +++ link +++ ")."
      else "Deployment failed. Please check the logs."
  | None => "Deployment failed. Please check the logs."
  end.

Definition DeployRunner : Type :=
  value -> value -> Prog (option string * option string * string).
Definition CleanupRunner : Type := value -> value -> Prog string.

(** The body of the first [try] (lines 96-116). *)
Definition deploy_path (deploy : DeployRunner) (g : Globals)
    (repo_name pr_number branch_name installation_id : value) : Prog Reply :=
  access_token <- get_installation_access_token g installation_id ;;
  let comment_url := VStr (comment_url_of repo_name pr_number) in
  notify_stakeholders comment_url "Deployment started for this pull request."
                      access_token None ;;
  res <- deploy branch_name pr_number ;;
  let '(container_name, deployment_link, log_file_path) := res in
  let deployment_message := deployment_message_of deployment_link in
  notify_stakeholders comment_url deployment_message access_token None ;;
  send_email g (RECIPIENT_EMAIL g) "Deployment Log"
             "Please find the attached deployment log." log_file_path ;;
  Ret (mkReply 200 "Deployment processed").

(** The body of the second [try] (lines 123-134). *)
Definition cleanup_path (cleanup : CleanupRunner) (g : Globals)
    (repo_name pr_number branch_name installation_id : value) : Prog Reply :=
  log_file_path <- cleanup branch_name pr_number ;;
  access_token <- get_installation_access_token g installation_id ;;
  let comment_url := VStr (comment_url_of repo_name pr_number) in
  notify_stakeholders comment_url "Cleanup completed for this pull request."
                      access_token None ;;
  send_email g (RECIPIENT_EMAIL g) "Cleanup Log"
             "Please find the attached cleanup log." log_file_path ;;
  Ret (mkReply 200 "Cleanup processed").

(** [except Exception as e: logger.error(f"<what>: {e}"); return ..., 500] *)
Definition blanket (what : string) (p : Prog Reply) : Prog Reply :=
  try_except p (fun e =>
    perform (LogError (mkLog (what +++ ": ") (Some e))) ;;
    Ret (mkReply 500 what)).

(** Lines 94-139: the branch on [action], once the four fields are read. *)
Definition dispatch (deploy : DeployRunner) (cleanup : CleanupRunner)
    (g : Globals) (action pr_number repo_name branch_name installation_id : value)
  : Prog Reply :=
  if among action ["opened"; "synchronize"; "reopened"] then
    blanket "Deployment failed"
      (deploy_path deploy g repo_name pr_number branch_name installation_id)
  else if is_str action "closed" then
    blanket "Cleanup failed"
      (cleanup_path cleanup g repo_name pr_number branch_name installation_id)
  else Ret (mkReply 200 "No action taken").

(** The view function, with the two runners it finds under the global
    names [run_deployment_script] and [run_cleanup_script] when it calls
    them. *)
Definition webhook_with (deploy : DeployRunner) (cleanup : CleanupRunner)
    (g : Globals) (request : Request) : Prog Reply :=
  valid <- verify_signature g (data request) (signature_header request) ;;
  if negb valid then Ret (mkReply 401 "Invalid signature")
  else
    payload <- match json_body request with
               | Ok v => Ret v
               | Err e => Raise e
               end ;;
    action <- dict_get payload "action" ;;
    if has_key payload "pull_request" then
      pr_number <- (pr <- subscript payload "pull_request" ;; subscript pr "number") ;;
      repo_name <- (repo <- subscript payload "repository" ;; subscript repo "full_name") ;;
      branch_name <- (pr <- subscript payload "pull_request" ;;
                      head <- subscript pr "head" ;; subscript head "ref") ;;
      installation_id <- (inst <- subscript payload "installation" ;; subscript inst "id") ;;
      dispatch deploy cleanup g action pr_number repo_name branch_name installation_id
    else Ret (mkReply 200 "No action taken").

(** The view function as the module defines it. *)
Definition webhook (g : Globals) (request : Request) : Prog Reply :=
  webhook_with (run_deployment_script g) (run_cleanup_script g) g request.

(* ================================================================== *)
(** * Observing a trace *)

(** The text of a comment that was submitted, if the event is one. *)
Definition comment_of (ev : event) : option string :=
  match ev with
  | Ev c _ =>
      match c with
      | HttpPost _ _ (Some (VDict [(k, VStr m)])) =>
          if String.eqb k "body" then Some m else None
      | _ => None
      end
  end.

Fixpoint comments (tr : list event) : list string :=
  match tr with
  | [] => []
  | ev :: tr' =>
      match comment_of ev with
      | Some m => m :: comments tr'
      | None => comments tr'
      end
  end.

(** Calls of [send_email]'s mail side: composing the text and SMTP. *)
Definition is_mail (ev : event) : bool :=
  match ev with
  | Ev c _ =>
      match c with
      | MimeAsString _ | SmtpConnect _ _ | SmtpStartTls | SmtpLogin _ _
      | SmtpSendmail _ _ _ | SmtpQuit => true
      | _ => false
      end
  end.

Definition is_sendmail (ev : event) : bool :=
  match ev with
  | Ev c _ =>
      match c with
      | SmtpSendmail _ _ _ => true
      | _ => false
      end
  end.

(** The exception a call answered with, when it failed. *)
Definition failure_of (ev : event) : option exn :=
  match ev with
  | Ev c r =>
      match c in Call R return R -> option exn with
      | Getenv _ => fun _ => None
      | LoadPem _ => fun r => match r with Err e => Some e | Ok _ => None end
      | CurrentTime => fun _ => None
      | JwtEncode _ _ _ => fun r => match r with Err e => Some e | Ok _ => None end
      | HttpPost _ _ _ => fun r => match r with Err e => Some e | Ok _ => None end
      | FileOpen _ _ => fun r => match r with Err e => Some e | Ok _ => None end
      | FileWrite _ _ => fun r => match r with Err e => Some e | Ok _ => None end
      | FileRead _ => fun r => match r with Err e => Some e | Ok _ => None end
      | FileClose _ => fun r => match r with Err e => Some e | Ok _ => None end
      | SubprocessRun _ _ => fun r => match r with Err e => Some e | Ok _ => None end
      | LogInfo _ => fun _ => None
      | LogError _ => fun _ => None
      | MimeAsString _ => fun r => match r with Err e => Some e | Ok _ => None end
      | SmtpConnect _ _ => fun r => match r with Err e => Some e | Ok _ => None end
      | SmtpStartTls => fun r => match r with Err e => Some e | Ok _ => None end
      | SmtpLogin _ _ => fun r => match r with Err e => Some e | Ok _ => None end
      | SmtpSendmail _ _ _ => fun r => match r with Err e => Some e | Ok _ => None end
      | SmtpQuit => fun r => match r with Err e => Some e | Ok _ => None end
      end r
  end.

Definition succeeded (ev : event) : bool :=
  match failure_of ev with
  | Some _ => false
  | None => true
  end.

(** ** Weakest preconditions: a property of every run *)

(** [wp p hist Q]: whatever the environment answers, [p] started after
    [hist] ends with a history and an outcome that satisfy [Q]. *)
Fixpoint wp {A : Type} (p : Prog A) (hist : list event)
    (Q : list event -> outcome A -> Prop) : Prop :=
  match p with
  | Ret a => Q hist (Returned a)
  | Raise e => Q hist (Raised e)
  | Do c k => forall r, wp (k r) (hist ++ [Ev c r]) Q
  end.

(** ** Well-formed pull-request events *)

(** The keys the handler reads from a pull-request payload (section 6 of
    the design): [action], [pull_request.number], [pull_request.head.ref],
    [repository.full_name], [installation.id]. *)
Record PullRequestEvent : Type := mkEvent {
  ev_action : value;
  ev_number : value;
  ev_repo : value;
  ev_branch : value;
  ev_installation : value
}.

Definition lookup (v : value) (k : string) : option value :=
  match v with
  | VDict d => assoc k d
  | _ => None
  end.

Definition opt_bind {A B : Type} (o : option A) (f : A -> option B) : option B :=
  match o with
  | Some a => f a
  | None => None
  end.

(** Reading a payload as a pull-request event; [None] when a key is
    missing. *)
Definition classify (payload : value) : option PullRequestEvent :=
  match payload with
  | VDict d =>
      opt_bind (lookup payload "pull_request") (fun pr =>
      opt_bind (lookup pr "number") (fun number =>
      opt_bind (lookup payload "repository") (fun repo =>
      opt_bind (lookup repo "full_name") (fun full_name =>
      opt_bind (lookup pr "head") (fun head =>
      opt_bind (lookup head "ref") (fun ref =>
      opt_bind (lookup payload "installation") (fun inst =>
      opt_bind (lookup inst "id") (fun id =>
      Some (mkEvent (match assoc "action" d with Some a => a | None => VNone end)
                    number full_name ref id)))))))))
  | _ => None
  end.

(** A request whose signature check passes. *)
Definition validly_signed (g : Globals) (request : Request) : Prop :=
  verify_signature g (data request) (signature_header request) = Ret true.


Fixpoint last_event (tr : list event) : option event :=
  match tr with
  | [] => None
  | [ev] => Some ev
  | _ :: tr' => last_event tr'
  end.

(** The handler ended in its blanket [except]: the reply is the 500 with
    body [what], and the last thing done was to log the exception. *)
Definition blanket_taken (what : string) (tr : list event) (out : outcome Reply) : Prop :=
  out = Returned (mkReply 500 what) /\
  exists e, last_event tr = Some (Ev (LogError (mkLog (what +++ ": ") (Some e))) tt).

(** A run that ended in an exception without submitting a comment or
    touching the mail side. *)
Definition quiet_raise {A : Type} (h tr : list event) (out : outcome A) : Prop :=
  (exists e, out = Raised e) /\
  comments tr = comments h /\
  filter is_mail tr = filter is_mail h.

(** A pull-request payload with the [merged] flag of the pull request set
    to [m]; everything else is kept. *)
Fixpoint set_key (k : string) (v : value) (d : list (string * value))
  : list (string * value) :=
  match d with
  | [] => [(k, v)]
  | (k', v') :: d' =>
      if String.eqb k k' then (k, v) :: d' else (k', v') :: set_key k v d'
  end.

Definition with_merged (m : bool) (payload : value) : value :=
  match payload with
  | VDict d =>
      match assoc "pull_request" d with
      | Some (VDict pr) =>
          VDict (set_key "pull_request" (VDict (set_key "merged" (VBool m) pr)) d)
      | _ => payload
      end
  | _ => payload
  end.

(* ================================================================== *)
(** * Scripted environments and sample requests *)

(** What the outside world answers in a scenario. *)
Record Scenario : Type := mkScenario {
  sc_environ : list (string * string);        (* the process environment *)
  sc_time : Z;                                (* int(time.time()) *)
  sc_token : result Response;                 (* the token exchange *)
  sc_comment : nat -> result Response;        (* the n-th comment submitted *)
  sc_process : result Completed;              (* the deploy or cleanup script *)
  sc_file : string -> string;                 (* the content of each file *)
  sc_sendmail : result unit                   (* SMTP delivery *)
}.

Definition scripted (s : Scenario) : Oracle :=
  fun R hist c =>
    match c in Call R return R with
    | Getenv name => assoc name (sc_environ s)
    | LoadPem pem => Ok (PrivateKey pem)
    | CurrentTime => sc_time s
    | JwtEncode _ _ _ => Ok "jwt.for.app"
    | HttpPost _ _ None => sc_token s
    | HttpPost _ _ (Some _) => sc_comment s (List.length (comments hist))
    | FileOpen _ _ => Ok tt
    | FileWrite _ _ => Ok tt
    | FileRead path => Ok (sc_file s path)
    | FileClose _ => Ok tt
    | SubprocessRun _ _ => sc_process s
    | LogInfo _ => tt
    | LogError _ => tt
    | MimeAsString m => Ok (msg_subject m)
    | SmtpConnect _ _ => Ok tt
    | SmtpStartTls => Ok tt
    | SmtpLogin _ _ => Ok tt
    | SmtpSendmail _ _ _ => sc_sendmail s
    | SmtpQuit => Ok tt
    end.

Definition created : result Response := Ok (mkResponse 201 (Ok (VDict [("id", VInt 1)]))).

Definition token_issued : result Response :=
  Ok (mkResponse 201 (Ok (VDict [("token", VStr "ghs_installation")]))).

(** What the deploy script prints in the end-to-end scenario of the
    design. *)
Definition sample_output : string :=
  "Container name: app-42" +++ nl +++ "Deployment complete: http://host:8042" +++ nl.

(** The end-to-end scenario of the design: the deploy script prints both
    lines and exits 0, and every remote answers as it should. *)
Definition all_well : Scenario :=
  mkScenario
    [ ("WEBHOOK_SECRET", "s3cret"); ("APP_ID", "12345");
      ("PRIVATE_KEY_PATH", "/etc/bot/key.pem"); ("SMTP_SERVER", "smtp.example.org");
      ("SMTP_PORT", "587"); ("SMTP_USERNAME", "bot@example.org");
      ("SMTP_PASSWORD", "hunter2"); ("RECIPIENT_EMAIL", "team@example.org") ]
    1700000000
    token_issued
    (fun _ => created)
    (Ok (mkCompleted 0 (Some sample_output) (Some "")))
    (fun path => if String.eqb path "/etc/bot/key.pem" then "PEM" else "log")
    (Ok tt).

Definition with_process (p : result Completed) (s : Scenario) : Scenario :=
  mkScenario (sc_environ s) (sc_time s) (sc_token s) (sc_comment s) p
             (sc_file s) (sc_sendmail s).

Definition with_comment (r : nat -> result Response) (s : Scenario) : Scenario :=
  mkScenario (sc_environ s) (sc_time s) (sc_token s) r (sc_process s)
             (sc_file s) (sc_sendmail s).

Definition with_sendmail (r : result unit) (s : Scenario) : Scenario :=
  mkScenario (sc_environ s) (sc_time s) (sc_token s) (sc_comment s) (sc_process s)
             (sc_file s) r.

(** The globals of a process started in the environment of [all_well]. *)
Definition sample_globals : Globals :=
  mkGlobals (Some "s3cret") (Some "12345") (Some "/etc/bot/key.pem")
            (Some "smtp.example.org") (Some "587") (Some "bot@example.org")
            (Some "hunter2") (Some "team@example.org") (PrivateKey "PEM").

(** A pull-request payload for repo [org/app], PR 42, branch [feature-x]. *)
Definition sample_payload (action : string) (merged : bool) : value :=
  VDict [ ("action", VStr action);
          ("pull_request",
           VDict [ ("number", VInt 42);
                   ("head", VDict [("ref", VStr "feature-x")]);
                   ("merged", VBool merged) ]);
          ("repository", VDict [("full_name", VStr "org/app")]);
          ("installation", VDict [("id", VInt 7)]) ].

(** A compact JSON text of a value, as the raw body of a delivery. *)
Fixpoint json_escape (s : string) : string :=
  match s with
  | EmptyString => EmptyString
  | String c s' =>
      if Ascii.eqb c dquote || Ascii.eqb c "\"
      then String "\" (String c (json_escape s'))
      else String c (json_escape s')
  end.

Definition json_string (s : string) : string :=
  String dquote (json_escape s) +++ String dquote EmptyString.

Fixpoint json_text (v : value) : string :=
  match v with
  | VNone => "null"
  | VBool true => "true"
  | VBool false => "false"
  | VInt n => dec n
  | VStr s => json_string s
  | VList l => "[" +++ join "," (map json_text l) +++ "]"
  | VDict d =>
      "{" +++ join "," (map (fun kv => json_string (fst kv) +++ ":" +++ json_text (snd kv)) d)
          +++ "}"
  | VObj r => "null"
  end.

(** A delivery of [payload] signed with [secret]. *)
Definition signed_request (secret : string) (payload : value) : Request :=
  let body := json_text payload in
  mkRequest (Some (expected_signature secret body)) body (Ok payload).

(** A gateway answer whose body is not JSON: [.json()] raises. *)
Definition not_json : exn :=
  OtherError "JSONDecodeError" "Expecting value: line 1 column 1 (char 0)".

Definition bad_gateway : Response := mkResponse 502 (Err not_json).

(** Stand-ins for the two runners that return at once. *)
Definition stub_deploy (link : option string) : DeployRunner :=
  fun branch_name pr_number =>
    Ret (None, link, deployment_log_path branch_name pr_number).

Definition stub_cleanup : CleanupRunner :=
  fun branch_name pr_number => Ret (cleanup_log_path branch_name pr_number).

(* ================================================================== *)
(** * Auxiliary notions for the statements *)

(** The keys that [load_pem_private_key] handed out in a trace. *)
Fixpoint loaded_keys (tr : list event) : list private_key_t :=
  match tr with
  | [] => []
  | Ev c r :: tr' =>
      match c in Call R return R -> list private_key_t with
      | LoadPem _ => fun r =>
          match r with
          | Ok k => k :: loaded_keys tr'
          | Err _ => loaded_keys tr'
          end
      | _ => fun _ => loaded_keys tr'
      end r
  end.

(** The deploy path up to and including the final comment (lines 96-111);
    it yields the log file path that [send_email] is given next. *)
Definition deploy_until_mail (deploy : DeployRunner) (g : Globals)
    (repo_name pr_number branch_name installation_id : value) : Prog string :=
  access_token <- get_installation_access_token g installation_id ;;
  let comment_url := VStr (comment_url_of repo_name pr_number) in
  notify_stakeholders comment_url "Deployment started for this pull request."
                      access_token None ;;
  res <- deploy branch_name pr_number ;;
  let '(container_name, deployment_link, log_file_path) := res in
  let deployment_message := deployment_message_of deployment_link in
  notify_stakeholders comment_url deployment_message access_token None ;;
  Ret log_file_path.

(** The cleanup path up to and including its comment (lines 123-129). *)
Definition cleanup_until_mail (cleanup : CleanupRunner) (g : Globals)
    (repo_name pr_number branch_name installation_id : value) : Prog string :=
  log_file_path <- cleanup branch_name pr_number ;;
  access_token <- get_installation_access_token g installation_id ;;
  let comment_url := VStr (comment_url_of repo_name pr_number) in
  notify_stakeholders comment_url "Cleanup completed for this pull request."
                      access_token None ;;
  Ret log_file_path.

(** The comment request that [notify_stakeholders] submits. *)
Definition comment_request (comment_url : value) (access_token : value)
    (text : string) : Call (result Response) :=
  HttpPost comment_url
           [ ("Authorization", "token " +++ py_str access_token); accept_header ]
           (Some (VDict [ ("body", VStr text) ])).

(** The environment seen from a later point of the history. *)
Definition shift (o : Oracle) (h : list event) : Oracle :=
  fun R t c => o R (h ++ t) c.

(* ================================================================== *)
(** * Further observations of a trace *)

(** The Python operation behind an event. *)
Definition call_name (ev : event) : string :=
  match ev with
  | Ev c _ =>
      match c with
      | Getenv _ => "os.getenv"
      | LoadPem _ => "load_pem_private_key"
      | CurrentTime => "time.time"
      | JwtEncode _ _ _ => "jwt.encode"
      | HttpPost _ _ _ => "requests.post"
      | FileOpen _ _ => "open"
      | FileWrite _ _ => "write"
      | FileRead _ => "read"
      | FileClose _ => "close"
      | SubprocessRun _ _ => "subprocess.run"
      | LogInfo _ => "logger.info"
      | LogError _ => "logger.error"
      | MimeAsString _ => "as_string"
      | SmtpConnect _ _ => "smtplib.SMTP"
      | SmtpStartTls => "starttls"
      | SmtpLogin _ _ => "login"
      | SmtpSendmail _ _ _ => "sendmail"
      | SmtpQuit => "quit"
      end
  end.

Definition is_http (ev : event) : bool := String.eqb (call_name ev) "requests.post".

Definition is_subprocess (ev : event) : bool :=
  String.eqb (call_name ev) "subprocess.run".

Definition is_file_access (ev : event) : bool :=
  existsb (String.eqb (call_name ev)) ["open"; "write"; "read"; "close"].

(** What was written to files, in order: path and text. *)
Fixpoint writes (tr : list event) : list (string * string) :=
  match tr with
  | [] => []
  | Ev c _ :: tr' =>
      match c with
      | FileWrite path text => (path, text) :: writes tr'
      | _ => writes tr'
      end
  end.

(** The child processes that ran to completion, in order. *)
Fixpoint process_results (tr : list event) : list Completed :=
  match tr with
  | [] => []
  | Ev c r :: tr' =>
      match c in Call R return R -> list Completed with
      | SubprocessRun _ _ => fun r =>
          match r with
          | Ok p => p :: process_results tr'
          | Err _ => process_results tr'
          end
      | _ => fun _ => process_results tr'
      end r
  end.

(** The command lines that were started, in order. *)
Fixpoint commands (tr : list event) : list (list value * redirect) :=
  match tr with
  | [] => []
  | Ev c _ :: tr' =>
      match c with
      | SubprocessRun argv out => (argv, out) :: commands tr'
      | _ => commands tr'
      end
  end.

(** The answers that HTTP requests received, in order. *)
Fixpoint responses (tr : list event) : list Response :=
  match tr with
  | [] => []
  | Ev c r :: tr' =>
      match c in Call R return R -> list Response with
      | HttpPost _ _ _ => fun r =>
          match r with
          | Ok response => response :: responses tr'
          | Err _ => responses tr'
          end
      | _ => fun _ => responses tr'
      end r
  end.

(** The files that were opened (successfully), and the files that were
    closed, in order. *)
Fixpoint opened (tr : list event) : list string :=
  match tr with
  | [] => []
  | Ev c r :: tr' =>
      match c in Call R return R -> list string with
      | FileOpen path _ => fun r =>
          match r with
          | Ok _ => path :: opened tr'
          | Err _ => opened tr'
          end
      | _ => fun _ => opened tr'
      end r
  end.

Fixpoint closed (tr : list event) : list string :=
  match tr with
  | [] => []
  | Ev c _ :: tr' =>
      match c with
      | FileClose path => path :: closed tr'
      | _ => closed tr'
      end
  end.

(** The environment variables that were read, with what was found. *)
Fixpoint getenvs (tr : list event) : list (string * option string) :=
  match tr with
  | [] => []
  | Ev c r :: tr' =>
      match c in Call R return R -> list (string * option string) with
      | Getenv name => fun r => (name, r) :: getenvs tr'
      | _ => fun _ => getenvs tr'
      end r
  end.

(** No call answered with [CalledProcessError] by itself: that exception
    comes from the exit status check of [subprocess.run] only. *)
Definition is_process_error (e : exn) : bool :=
  match e with
  | CalledProcessError _ _ _ => true
  | _ => false
  end.

Definition no_stray_process_error (tr : list event) : bool :=
  forallb (fun ev => match failure_of ev with
                     | Some e => negb (is_process_error e)
                     | None => true
                     end) tr.

Fixpoint no_space (s : string) : bool :=
  match s with
  | EmptyString => true
  | String c s' => negb (is_space c) && no_space s'
  end.

(** The rows of the progress table, one per entry. *)
Fixpoint table_rows (details : Details) : string :=
  match details with
  | [] => ""
  | (step, detail) :: details' => table_row step detail +++ table_rows details'
  end.

(** The order of the calls of [send_email]. *)
Definition send_email_steps : list string :=
  [ "open"; "read"; "smtplib.SMTP"; "starttls"; "login"; "as_string"; "sendmail"; "quit" ].

(** The eight calls of a [send_email] that goes through, each answered
    without an exception; [payload] is what the attachment held and [text]
    what the message renders as. *)
Definition send_email_events (g : Globals) (to_address : option string)
    (subject body attachment_path payload text : string) : list event :=
  [ Ev (FileOpen attachment_path "rb") (Ok tt);
    Ev (FileRead attachment_path) (Ok payload);
    Ev (SmtpConnect (SMTP_SERVER g) (SMTP_PORT g)) (Ok tt);
    Ev SmtpStartTls (Ok tt);
    Ev (SmtpLogin (SMTP_USERNAME g) (SMTP_PASSWORD g)) (Ok tt);
    Ev (MimeAsString
          (mkEmail (SMTP_USERNAME g) to_address subject body
             ("attachment; filename= " +++ basename attachment_path) payload))
       (Ok text);
    Ev (SmtpSendmail (SMTP_USERNAME g) to_address text) (Ok tt);
    Ev SmtpQuit (Ok tt) ].

(** The same call, answered with the exception [e] (calls that cannot
    raise are left as they are). *)
Definition fail_with (e : exn) (ev : event) : event :=
  match ev with
  | Ev c r =>
      match c in Call R return R -> event with
      | Getenv name => fun r => Ev (Getenv name) r
      | LoadPem pem => fun _ => Ev (LoadPem pem) (Err e)
      | CurrentTime => fun r => Ev CurrentTime r
      | JwtEncode payload key alg => fun _ => Ev (JwtEncode payload key alg) (Err e)
      | HttpPost url headers body => fun _ => Ev (HttpPost url headers body) (Err e)
      | FileOpen path mode => fun _ => Ev (FileOpen path mode) (Err e)
      | FileWrite path text => fun _ => Ev (FileWrite path text) (Err e)
      | FileRead path => fun _ => Ev (FileRead path) (Err e)
      | FileClose path => fun _ => Ev (FileClose path) (Err e)
      | SubprocessRun argv out => fun _ => Ev (SubprocessRun argv out) (Err e)
      | LogInfo rec => fun r => Ev (LogInfo rec) r
      | LogError rec => fun r => Ev (LogError rec) r
      | MimeAsString m => fun _ => Ev (MimeAsString m) (Err e)
      | SmtpConnect host port => fun _ => Ev (SmtpConnect host port) (Err e)
      | SmtpStartTls => fun _ => Ev SmtpStartTls (Err e)
      | SmtpLogin user password => fun _ => Ev (SmtpLogin user password) (Err e)
      | SmtpSendmail a b text => fun _ => Ev (SmtpSendmail a b text) (Err e)
      | SmtpQuit => fun _ => Ev SmtpQuit (Err e)
      end r
  end.

(** An event that neither starts a process nor opens or closes a file. *)
Definition inside_session (ev : event) : bool :=
  negb (is_subprocess ev)
  && negb (String.eqb (call_name ev) "open")
  && negb (String.eqb (call_name ev) "close").

(** The shape of a run that keeps a log file open around one child
    process.  Either opening [path] for writing failed, that exception is
    the outcome and nothing else happened; or [path] was opened, the next
    call started [argv] with its output sent to [out], the last call
    closed [path], and nothing in between started a process or opened or
    closed a file. *)
Definition log_session {A : Type} (path : string) (argv : list value)
    (out : redirect) (tr : list event) (res : outcome A) : Prop :=
  (exists e, tr = [Ev (FileOpen path "w") (Err e)] /\ res = Raised e) \/
  (exists r mid rc,
     tr = Ev (FileOpen path "w") (Ok tt) :: Ev (SubprocessRun argv out) r
            :: mid ++ [Ev (FileClose path) rc] /\
     forallb inside_session mid = true).

(* ################################################################## *)
(** * Properties *)

(** The embedded hash functions agree with the published test vectors. *)
Example sha256_abc :
  hex_of_bytes (SHA256.digest (bytes_of_string "abc")) =
  "ba7816bf8f01cfea414140de5dae2223b00361a396177a9cb410ff61f20015ad".
Proof. vm_compute. reflexivity. Qed.

Example sha256_two_blocks :
  hex_of_bytes (SHA256.digest (bytes_of_string
     "abcdbcdecdefdefgefghfghighijhijkijkljklmklmnlmnomnopnopq")) =
  "248d6a61d20638b8e5c026930c3e6039a33ce45964ff2167f6ecedd419db06c1".
Proof. vm_compute. reflexivity. Qed.

(** RFC 4231, test case 2. *)
Example hmac_rfc4231_2 :
  HMAC.hexdigest (bytes_of_string "Jefe")
                 (bytes_of_string "what do ya want for nothing?") =
  "5bdcc146bf60754e6a042426089575c75a003f089d2739839dec58b964ec3843".
Proof. vm_compute. reflexivity. Qed.

(* ================================================================== *)
(** ** Running composed programs *)

Section RunLemmas.

Context {A B : Type}.
Variable o : Oracle.

Lemma run_bind (p : Prog A) (f : A -> Prog B) (h : list event) :
  run o (bind p f) h =
  match fst (run o p h) with
  | Returned a =>
      (fst (run o (f a) (h ++ snd (run o p h))),
       snd (run o p h) ++ snd (run o (f a) (h ++ snd (run o p h))))
  | Raised e => (Raised e, snd (run o p h))
  end.
Proof.
  revert h; induction p as [a | e | R c k IH]; intros h; simpl.
  - rewrite app_nil_r. destruct (run o (f a) h); reflexivity.
  - reflexivity.
  - rewrite IH. destruct (fst (run o (k (o R h c)) (h ++ [Ev c (o R h c)]))); simpl.
    + rewrite <- app_assoc. reflexivity.
    + reflexivity.
Qed.

Lemma run_bind_returned (p : Prog A) (f : A -> Prog B) (h tr : list event) (a : A) :
  run o p h = (Returned a, tr) ->
  run o (bind p f) h =
  (fst (run o (f a) (h ++ tr)), tr ++ snd (run o (f a) (h ++ tr))).
Proof. intros H. rewrite run_bind, H. reflexivity. Qed.

Lemma run_bind_raised (p : Prog A) (f : A -> Prog B) (h tr : list event) (e : exn) :
  run o p h = (Raised e, tr) ->
  run o (bind p f) h = (Raised e, tr).
Proof. intros H. rewrite run_bind, H. reflexivity. Qed.

End RunLemmas.

Section RunHandlers.

Context {A : Type}.
Variable o : Oracle.

Lemma run_try_except (p : Prog A) (hd : exn -> Prog A) (h : list event) :
  run o (try_except p hd) h =
  match fst (run o p h) with
  | Returned a => (Returned a, snd (run o p h))
  | Raised e =>
      (fst (run o (hd e) (h ++ snd (run o p h))),
       snd (run o p h) ++ snd (run o (hd e) (h ++ snd (run o p h))))
  end.
Proof.
  revert h; induction p as [a | e | R c k IH]; intros h; simpl.
  - reflexivity.
  - rewrite app_nil_r. destruct (run o (hd e) h); reflexivity.
  - rewrite IH. destruct (fst (run o (k (o R h c)) (h ++ [Ev c (o R h c)]))); simpl.
    + reflexivity.
    + rewrite <- app_assoc. reflexivity.
Qed.

(** Soundness of [wp]: what holds of every path holds of the run against
    any environment. *)
Lemma wp_run (p : Prog A) (h : list event) (Q : list event -> outcome A -> Prop) :
  wp p h Q -> Q (h ++ snd (run o p h)) (fst (run o p h)).
Proof.
  revert h; induction p as [a | e | R c k IH]; intros h Hwp; simpl in *.
  - rewrite app_nil_r. exact Hwp.
  - rewrite app_nil_r. exact Hwp.
  - specialize (IH _ _ (Hwp (o R h c))). rewrite <- app_assoc in IH. exact IH.
Qed.

End RunHandlers.

(** ** The calculus of [wp] *)

Lemma wp_conseq {A : Type} (p : Prog A) (h : list event)
    (Q Q' : list event -> outcome A -> Prop) :
  (forall tr out, Q tr out -> Q' tr out) -> wp p h Q -> wp p h Q'.
Proof.
  intros HQ. revert h; induction p as [a | e | R c k IH]; intros h; simpl; auto.
Qed.

Lemma wp_bind {A B : Type} (p : Prog A) (f : A -> Prog B) (h : list event)
    (Q : list event -> outcome B -> Prop) :
  wp p h (fun tr out =>
            match out with
            | Returned a => wp (f a) tr Q
            | Raised e => Q tr (Raised e)
            end) ->
  wp (bind p f) h Q.
Proof.
  revert h; induction p as [a | e | R c k IH]; intros h; simpl; auto.
Qed.

Lemma wp_try_except {A : Type} (p : Prog A) (hd : exn -> Prog A) (h : list event)
    (Q : list event -> outcome A -> Prop) :
  wp p h (fun tr out =>
            match out with
            | Returned a => Q tr (Returned a)
            | Raised e => wp (hd e) tr Q
            end) ->
  wp (try_except p hd) h Q.
Proof.
  revert h; induction p as [a | e | R c k IH]; intros h; simpl; auto.
Qed.

Lemma wp_finally {A : Type} (p : Prog A) (fin : Prog unit) (h : list event)
    (Q : list event -> outcome A -> Prop) :
  wp p h (fun tr out =>
            wp fin tr (fun tr' out' =>
                         match out' with
                         | Returned _ => Q tr' out
                         | Raised e' => Q tr' (Raised e')
                         end)) ->
  wp (finally p fin) h Q.
Proof.
  revert h; induction p as [a | e | R c k IH]; intros h; simpl; auto.
  - intros H. apply wp_bind. eapply wp_conseq; [| exact H].
    intros tr [[] | e'] HQ; exact HQ.
  - intros H. apply wp_bind. eapply wp_conseq; [| exact H].
    intros tr [[] | e'] HQ; exact HQ.
Qed.

(* ================================================================== *)
(** ** Observations distribute over traces *)

Lemma comments_app (a b : list event) :
  comments (a ++ b) = comments a ++ comments b.
Proof.
  induction a as [| ev a IH]; simpl; [reflexivity |].
  destruct (comment_of ev); simpl; rewrite IH; reflexivity.
Qed.

Lemma last_event_snoc (tr : list event) (ev : event) :
  last_event (tr ++ [ev]) = Some ev.
Proof.
  induction tr as [| x tr IH]; [reflexivity |].
  simpl. rewrite IH. destruct (tr ++ [ev]) eqn:E; [| reflexivity].
  destruct tr; discriminate.
Qed.

(** Symbolic execution of a closed program under [wp]. *)
Ltac wp_go :=
  repeat first
    [ progress cbn
    | intro
    | match goal with
      | x : Completed |- _ => destruct x
      | x : Response |- _ => destruct x
      | x : unit |- _ => destruct x
      | |- context [match ?x with _ => _ end] => destruct x
      end ].

Ltac unfold_program :=
  repeat progress unfold blanket, deploy_path, cleanup_path, get_installation_access_token,
    get_jwt_token, raise_for_status, response_json, subscript,
    notify_stakeholders, run_deployment_script, run_cleanup_script, with_open,
    except_called_process_error, subprocess_run, file_write, search_output,
    send_email.

(* ================================================================== *)
(** ** Signature check *)

Lemma byte_of_ascii_of_byte (b : Z) :
  0 <= b < 256 -> byte_of_ascii (ascii_of_byte b) = b.
Proof.
  intros Hb. unfold byte_of_ascii, ascii_of_byte.
  rewrite N_ascii_embedding.
  - rewrite Z2N.id; [apply Z.mod_small; exact Hb | apply Z.mod_pos_bound; lia].
  - apply N2Z.inj_lt. rewrite Z2N.id by (apply Z.mod_pos_bound; lia).
    change (Z.of_N 256) with 256. apply Z.mod_pos_bound; lia.
Qed.

Lemma hex_digit_ascii (d : Z) :
  0 <= d < 16 -> (byte_of_ascii (hex_digit d) <? 128) = true.
Proof.
  intros Hd. unfold hex_digit.
  destruct (d <? 10) eqn:E.
  - apply Z.ltb_lt in E. rewrite byte_of_ascii_of_byte by lia. apply Z.ltb_lt. lia.
  - apply Z.ltb_ge in E. rewrite byte_of_ascii_of_byte by lia. apply Z.ltb_lt. lia.
Qed.

Lemma hex_of_bytes_ascii (l : list Z) :
  Forall (fun b => 0 <= b < 256) l -> is_ascii (hex_of_bytes l) = true.
Proof.
  unfold is_ascii. induction 1 as [| b l Hb _ IH]; [reflexivity |].
  cbn [hex_of_bytes bytes_of_string forallb].
  rewrite !hex_digit_ascii, IH; [reflexivity | |].
  - split; [apply Z.mod_pos_bound; lia | apply Z.mod_pos_bound; lia].
  - split; [apply Z.div_pos; lia | apply Z.div_lt_upper_bound; lia].
Qed.

Lemma sha256_digest_bytes (msg : list Z) :
  Forall (fun b => 0 <= b < 256) (SHA256.digest msg).
Proof.
  unfold SHA256.digest.
  generalize (fold_left SHA256.compress
                (SHA256.blocks (List.length (SHA256.pad msg)) (SHA256.pad msg))
                SHA256.H0).
  intros ws. induction ws as [| w ws IH]; [constructor |].
  cbn [flat_map]. unfold SHA256.bytes_of_word at 1. cbn [app].
  repeat (constructor; [apply Z.mod_pos_bound; lia |]).
  exact IH.
Qed.

Lemma expected_signature_ascii (secret payload : string) :
  is_ascii (expected_signature secret payload) = true.
Proof.
  unfold expected_signature, HMAC.hexdigest, HMAC.digest.
  assert (H := hex_of_bytes_ascii _ (sha256_digest_bytes
    (HMAC.xor_with 92 (HMAC.block_key (utf8_encode secret)) ++
     SHA256.digest (HMAC.xor_with 54 (HMAC.block_key (utf8_encode secret))
                    ++ bytes_of_string payload)))).
  unfold is_ascii in *. cbn [String.append bytes_of_string forallb].
  rewrite H. reflexivity.
Qed.

(** The signature GitHub computes is accepted. *)
Lemma verify_signature_accepts (g : Globals) (secret payload : string) :
  WEBHOOK_SECRET g = Some secret ->
  verify_signature g payload (Some (expected_signature secret payload)) = Ret true.
Proof.
  intros Hs. unfold verify_signature. rewrite Hs.
  cbn [truthy expected_signature String.append String.eqb Ascii.eqb negb].
  change (String "s" (String "h" (String "a" (String "2" (String "5" (String "6"
            (String "=" (HMAC.hexdigest (utf8_encode secret) (bytes_of_string payload)))))))))
    with (expected_signature secret payload).
  unfold compare_digest.
  rewrite expected_signature_ascii, String.eqb_refl. reflexivity.
Qed.

(** A missing or empty header is refused. *)
Lemma verify_signature_missing (g : Globals) (payload : string) :
  verify_signature g payload None = Ret false /\
  verify_signature g payload (Some "") = Ret false.
Proof. split; reflexivity. Qed.

(** An ASCII header that is not the expected signature is refused. *)
Lemma verify_signature_rejects (g : Globals) (secret payload sig : string) :
  WEBHOOK_SECRET g = Some secret ->
  is_ascii sig = true ->
  sig <> expected_signature secret payload ->
  verify_signature g payload (Some sig) = Ret false.
Proof.
  intros Hs Ha Hne. unfold verify_signature. rewrite Hs.
  destruct (negb (truthy (VStr sig))); [reflexivity |].
  unfold compare_digest. rewrite expected_signature_ascii, Ha. cbn [andb].
  destruct (String.eqb_spec (expected_signature secret payload) sig) as [E | E].
  - exfalso. apply Hne. symmetry. exact E.
  - reflexivity.
Qed.

(** A refused request is answered 401 and nothing else happens. *)
Lemma webhook_refused (o : Oracle) (g : Globals) (request : Request) (h : list event) :
  verify_signature g (data request) (signature_header request) = Ret false ->
  run o (webhook g request) h = (Returned (mkReply 401 "Invalid signature"), []).
Proof.
  intros H. unfold webhook, webhook_with. rewrite H. reflexivity.
Qed.

(** A header with a character outside ASCII is not refused: the
    comparison raises. *)
Lemma verify_signature_non_ascii (g : Globals) (secret payload sig : string) :
  WEBHOOK_SECRET g = Some secret ->
  is_ascii sig = false ->
  verify_signature g payload (Some sig) =
  Raise (TypeError "comparing strings with non-ASCII characters is not supported").
Proof.
  intros Hs Ha. unfold verify_signature. rewrite Hs.
  destruct sig as [| c sig]; [discriminate |].
  cbn [truthy String.eqb negb]. unfold compare_digest.
  rewrite Ha, andb_false_r. reflexivity.
Qed.

(** A delivery signed with the configured secret passes the check. *)
Lemma signed_request_valid (g : Globals) (secret : string) (payload : value) :
  WEBHOOK_SECRET g = Some secret ->
  validly_signed g (signed_request secret payload).
Proof.
  intros Hs. unfold validly_signed, signed_request. cbn [data signature_header].
  apply verify_signature_accepts. exact Hs.
Qed.

(** C1 (the defect): a signature header that holds a character outside
    ASCII is not refused with 401: [hmac.compare_digest] raises
    [TypeError], and the exception leaves [verify_signature] and the view
    function, whatever the environment.  On ASCII headers the check is as
    claimed ([verify_signature_accepts], [verify_signature_missing],
    [verify_signature_rejects], [webhook_refused]). *)
Theorem C1_non_ascii_signature_raises :
  let request :=
    mkRequest (Some (String "233" EmptyString))
              (json_text (sample_payload "opened" false))
              (Ok (sample_payload "opened" false)) in
  verify_signature sample_globals (data request) (signature_header request)
    = Raise (TypeError "comparing strings with non-ASCII characters is not supported")
  /\ forall o : Oracle,
       run o (webhook sample_globals request) []
       = (Raised (TypeError "comparing strings with non-ASCII characters is not supported"),
          []).
Proof.
  cbv zeta. cbn [data signature_header].
  assert (H : verify_signature sample_globals (json_text (sample_payload "opened" false))
                (Some (String "233" EmptyString))
              = Raise (TypeError "comparing strings with non-ASCII characters is not supported")).
  { apply verify_signature_non_ascii with (secret := "s3cret"); reflexivity. }
  split; [exact H |].
  intros o. unfold webhook, webhook_with. cbn [data signature_header].
  rewrite H. reflexivity.
Qed.

(* ================================================================== *)
(** ** Classification of the payload *)

Lemma webhook_with_classified (deploy : DeployRunner) (cleanup : CleanupRunner)
    (g : Globals) (request : Request) (payload : value) (ev : PullRequestEvent) :
  validly_signed g request ->
  json_body request = Ok payload ->
  classify payload = Some ev ->
  webhook_with deploy cleanup g request =
  dispatch deploy cleanup g (ev_action ev) (ev_number ev) (ev_repo ev)
           (ev_branch ev) (ev_installation ev).
Proof.
  unfold validly_signed, webhook_with. intros Hsig Hjson Hcls.
  rewrite Hsig, Hjson. cbn [bind negb].
  destruct payload as [| | | | | d |]; try discriminate.
  unfold classify, opt_bind in Hcls. cbn [lookup] in Hcls.
  unfold dict_get, has_key, subscript.
  destruct (assoc "pull_request" d) as [pr |] eqn:Epr; [| discriminate].
  destruct pr as [| | | | | dpr |]; try discriminate. cbn [lookup] in Hcls.
  destruct (assoc "number" dpr) as [number |] eqn:Enumber; [| discriminate].
  destruct (assoc "repository" d) as [repo |] eqn:Erepo; [| discriminate].
  destruct repo as [| | | | | drepo |]; try discriminate. cbn [lookup] in Hcls.
  destruct (assoc "full_name" drepo) as [full_name |] eqn:Efull; [| discriminate].
  destruct (assoc "head" dpr) as [head |] eqn:Ehead; [| discriminate].
  destruct head as [| | | | | dhead |]; try discriminate. cbn [lookup] in Hcls.
  destruct (assoc "ref" dhead) as [ref |] eqn:Eref; [| discriminate].
  destruct (assoc "installation" d) as [inst |] eqn:Einst; [| discriminate].
  destruct inst as [| | | | | dinst |]; try discriminate. cbn [lookup] in Hcls.
  destruct (assoc "id" dinst) as [id |] eqn:Eid; [| discriminate].
  injection Hcls as <-. cbn [ev_action ev_number ev_repo ev_branch ev_installation].
  destruct (assoc "action" d); cbn [bind];
    rewrite Enumber, Efull, Ehead; cbn [bind]; rewrite Eref, Eid; reflexivity.
Qed.

(** The sample deliveries reach the branch on the action with the fields
    of PR 42. *)
Lemma sample_webhook (deploy : DeployRunner) (cleanup : CleanupRunner)
    (action : string) (merged : bool) :
  webhook_with deploy cleanup sample_globals
    (signed_request "s3cret" (sample_payload action merged)) =
  dispatch deploy cleanup sample_globals (VStr action) (VInt 42) (VStr "org/app")
           (VStr "feature-x") (VInt 7).
Proof.
  apply (webhook_with_classified deploy cleanup sample_globals _
           (sample_payload action merged)
           (mkEvent (VStr action) (VInt 42) (VStr "org/app") (VStr "feature-x") (VInt 7))).
  - apply signed_request_valid. reflexivity.
  - reflexivity.
  - reflexivity.
Qed.

(* ================================================================== *)
(** ** The runners read two unbound names *)

Ltac quiet_done :=
  unfold quiet_raise; repeat split;
  [ eexists; reflexivity
  | rewrite ?comments_app; simpl; rewrite ?app_nil_r; reflexivity
  | rewrite ?filter_app; simpl; rewrite ?app_nil_r; reflexivity ].

Lemma run_deployment_script_wp (g : Globals) (b n : value) (h : list event) :
  wp (run_deployment_script g b n) h (quiet_raise h).
Proof. unfold_program. wp_go. all: quiet_done. Qed.

Lemma run_cleanup_script_wp (g : Globals) (b n : value) (h : list event) :
  wp (run_cleanup_script g b n) h (quiet_raise h).
Proof. unfold_program. wp_go. all: quiet_done. Qed.

Lemma deploy_blanket_wp (g : Globals) (repo n b i : value) :
  wp (blanket "Deployment failed"
        (deploy_path (run_deployment_script g) g repo n b i)) []
     (fun tr out =>
        blanket_taken "Deployment failed" tr out /\
        (comments tr = [] \/
         comments tr = ["Deployment started for this pull request."]) /\
        filter is_mail tr = []).
Proof.
  unfold_program. wp_go.
  all: (split; [split; [reflexivity | eexists; reflexivity] |]).
  all: (split; [first [left; reflexivity | right; reflexivity] | reflexivity]).
Qed.

Lemma cleanup_blanket_wp (g : Globals) (repo n b i : value) :
  wp (blanket "Cleanup failed"
        (cleanup_path (run_cleanup_script g) g repo n b i)) []
     (fun tr out =>
        blanket_taken "Cleanup failed" tr out /\
        comments tr = [] /\
        filter is_mail tr = []).
Proof.
  unfold_program. wp_go.
  all: (split; [split; [reflexivity | eexists; reflexivity] |]).
  all: (split; reflexivity).
Qed.

(** C2: in both runners the arguments [comment_url] and [access_token] of
    the call to the notifier are unbound names, so neither runner ever
    returns.  For every validly signed pull-request event whose action is
    [opened], [synchronize], [reopened] or [closed], the handler therefore
    ends in its blanket [except]: the reply is 500 ([Deployment failed] or
    [Cleanup failed]), no final comment is submitted (at most the start
    notice of the deploy path) and no mail call is made. *)
Theorem C2_runners_raise_name_error
    (o : Oracle) (g : Globals) (request : Request) (payload : value)
    (ev : PullRequestEvent) :
  validly_signed g request ->
  json_body request = Ok payload ->
  classify payload = Some ev ->
  among (ev_action ev) ["opened"; "synchronize"; "reopened"] = true
    \/ is_str (ev_action ev) "closed" = true ->
  (load_global g "comment_url" = Raise (NameError "comment_url") /\
   load_global g "access_token" = Raise (NameError "access_token")) /\
  (forall h b n, exists e, fst (run o (run_deployment_script g b n) h) = Raised e) /\
  (forall h b n, exists e, fst (run o (run_cleanup_script g b n) h) = Raised e) /\
  let res := run o (webhook g request) [] in
  (if among (ev_action ev) ["opened"; "synchronize"; "reopened"]
   then blanket_taken "Deployment failed" (snd res) (fst res) /\
        (comments (snd res) = [] \/
         comments (snd res) = ["Deployment started for this pull request."])
   else blanket_taken "Cleanup failed" (snd res) (fst res) /\
        comments (snd res) = []) /\
  filter is_mail (snd res) = [].
Proof.
  intros Hsig Hjson Hcls Hact.
  split; [split; reflexivity |].
  split; [intros h b n;
          destruct (wp_run o _ h _ (run_deployment_script_wp g b n h)) as [He _];
          exact He |].
  split; [intros h b n;
          destruct (wp_run o _ h _ (run_cleanup_script_wp g b n h)) as [He _];
          exact He |].
  cbv zeta. unfold webhook.
  rewrite (webhook_with_classified _ _ g request payload ev Hsig Hjson Hcls).
  unfold dispatch.
  destruct (among (ev_action ev) ["opened"; "synchronize"; "reopened"]) eqn:Ea.
  - pose proof (wp_run o _ _ _
      (deploy_blanket_wp g (ev_repo ev) (ev_number ev) (ev_branch ev)
                         (ev_installation ev))) as H.
    cbn [app] in H. destruct H as (Hb & Hc & Hm). auto.
  - destruct Hact as [Hact | Hact]; [discriminate |]. rewrite Hact.
    pose proof (wp_run o _ _ _
      (cleanup_blanket_wp g (ev_repo ev) (ev_number ev) (ev_branch ev)
                          (ev_installation ev))) as H.
    cbn [app] in H. destruct H as (Hb & Hc & Hm). auto.
Qed.

Lemma C2_runners_raise_name_error_witness :
  let g := sample_globals in
  let request := signed_request "s3cret" (sample_payload "closed" true) in
  let ev := mkEvent (VStr "closed") (VInt 42) (VStr "org/app") (VStr "feature-x") (VInt 7) in
  validly_signed g request /\
  json_body request = Ok (sample_payload "closed" true) /\
  classify (sample_payload "closed" true) = Some ev /\
  (among (ev_action ev) ["opened"; "synchronize"; "reopened"] = true
     \/ is_str (ev_action ev) "closed" = true) /\
  fst (run (scripted all_well) (webhook g request) [])
    = Returned (mkReply 500 "Cleanup failed").
Proof.
  cbv zeta.
  assert (Hsig : validly_signed sample_globals
                   (signed_request "s3cret" (sample_payload "closed" true)))
    by (apply signed_request_valid; reflexivity).
  split; [exact Hsig |]. split; [reflexivity |]. split; [reflexivity |].
  split; [right; reflexivity |].
  pose proof (C2_runners_raise_name_error (scripted all_well) sample_globals
    (signed_request "s3cret" (sample_payload "closed" true))
    (sample_payload "closed" true)
    (mkEvent (VStr "closed") (VInt 42) (VStr "org/app") (VStr "feature-x") (VInt 7))
    Hsig eq_refl eq_refl (or_intror eq_refl)) as H.
  destruct H as (_ & _ & _ & H). cbv zeta in H. cbn [among existsb is_str ev_action String.eqb Ascii.eqb orb] in H.
  destruct H as ((Hb & _) & _). destruct Hb as (Hreply & _). exact Hreply.
Defined.

(* ================================================================== *)
(** ** Runs from a later point of the history *)

Lemma run_shift {A : Type} (o : Oracle) (p : Prog A) (h t : list event) :
  run o p (h ++ t) = run (shift o h) p t.
Proof.
  revert t; induction p as [a | e | R c k IH]; intros t; simpl; try reflexivity.
  unfold shift at 1 2 4. rewrite <- app_assoc, IH. reflexivity.
Qed.

(** A property of every path of [p] from the empty history holds of the
    events and the outcome of any run of [p]. *)
Lemma wp_run_at {A : Type} (o : Oracle) (p : Prog A) (h : list event)
    (Q : list event -> outcome A -> Prop) :
  wp p [] Q -> Q (snd (run o p h)) (fst (run o p h)).
Proof.
  intros H. rewrite <- (app_nil_r h), run_shift.
  apply (wp_run (shift o h) p [] Q H).
Qed.


(* ================================================================== *)
(** ** The blanket handler and the mail step *)

Lemma blanket_converts (o : Oracle) (what : string) (p : Prog Reply)
    (h tr : list event) (e : exn) :
  run o p h = (Raised e, tr) ->
  run o (blanket what p) h =
  (Returned (mkReply 500 what),
   tr ++ [Ev (LogError (mkLog (what +++ ": ") (Some e))) tt]).
Proof.
  intros H. unfold blanket. rewrite run_try_except, H. cbn [fst snd].
  cbn [perform bind run fst snd].
  destruct (o unit (h ++ tr) (LogError (mkLog (what +++ ": ") (Some e)))).
  reflexivity.
Qed.

(** One step of two runs that start with the same call sequence: in the
    hypothesis and in the goal. *)
Ltac run_step H :=
  rewrite run_bind in H; rewrite run_bind;
  match goal with
  | |- context [fst (run ?o ?p ?h)] =>
      let E := fresh "E" in
      destruct (run o p h) as [[? | ?] ?] eqn:E; cbn [fst snd] in H |- *;
      try discriminate H
  end.

Lemma deploy_mail_failure (o : Oracle) (deploy : DeployRunner) (g : Globals)
    (repo n b i : value) (h tr1 tr2 : list event) (lp : string) (e : exn) :
  run o (deploy_until_mail deploy g repo n b i) h = (Returned lp, tr1) ->
  run o (send_email g (RECIPIENT_EMAIL g) "Deployment Log"
           "Please find the attached deployment log." lp) (h ++ tr1) = (Raised e, tr2) ->
  run o (deploy_path deploy g repo n b i) h = (Raised e, tr1 ++ tr2).
Proof.
  intros H1 H2. unfold deploy_until_mail in H1. unfold deploy_path.
  run_step H1. run_step H1. run_step H1.
  match goal with x : (option string * option string * string)%type |- _ =>
    destruct x as [[c link] lp'] end.
  run_step H1. cbn [run fst snd] in H1. injection H1 as -> <-.
  rewrite ?app_nil_r in H2 |- *. rewrite ?app_assoc in H2 |- *.
  rewrite run_bind, H2. cbn [fst snd]. rewrite ?app_assoc. reflexivity.
Qed.

Lemma cleanup_mail_failure (o : Oracle) (cleanup : CleanupRunner) (g : Globals)
    (repo n b i : value) (h tr1 tr2 : list event) (lp : string) (e : exn) :
  run o (cleanup_until_mail cleanup g repo n b i) h = (Returned lp, tr1) ->
  run o (send_email g (RECIPIENT_EMAIL g) "Cleanup Log"
           "Please find the attached cleanup log." lp) (h ++ tr1) = (Raised e, tr2) ->
  run o (cleanup_path cleanup g repo n b i) h = (Raised e, tr1 ++ tr2).
Proof.
  intros H1 H2. unfold cleanup_until_mail in H1. unfold cleanup_path.
  run_step H1. run_step H1. run_step H1.
  cbn [run fst snd] in H1. injection H1 as -> <-.
  rewrite ?app_nil_r in H2 |- *. rewrite ?app_assoc in H2 |- *.
  rewrite run_bind, H2. cbn [fst snd]. rewrite ?app_assoc. reflexivity.
Qed.

(** [send_email] has no handler: it ends in an exception exactly when one
    of its calls failed, and that call is its last. *)
Lemma send_email_wp (g : Globals) (to : option string) (subject body path : string) :
  wp (send_email g to subject body path) []
     (fun tr out =>
        match out with
        | Raised e =>
            (exists ev, last_event tr = Some ev /\ failure_of ev = Some e) /\
            forallb succeeded (removelast tr) = true
        | Returned _ =>
            forallb succeeded tr = true /\ existsb is_sendmail tr = true
        end).
Proof.
  unfold_program. wp_go.
  all: first [ split; reflexivity
             | split; [eexists; split; reflexivity | reflexivity] ].
Qed.

(** C5: a failure inside [send_email] is not handled there: whichever of
    its calls fails (opening or reading the attachment, connecting, TLS,
    login, composing, sending, quitting), the exception is the outcome of
    [send_email], and it is the failure of its last call.  In the handler the
    call sits inside the [try]: once the steps before the mail have
    completed, an exception of [send_email] ends the request with the 500
    of the path ([Deployment failed] or [Cleanup failed]), logged by the
    blanket [except].  The runners are parameters here, as the names
    [run_deployment_script] and [run_cleanup_script] are looked up when
    the handler calls them. *)
Theorem C5_mail_failure_is_fatal
    (o : Oracle) (deploy : DeployRunner) (cleanup : CleanupRunner) (g : Globals)
    (request : Request) (payload : value) (ev : PullRequestEvent)
    (tr1 tr2 : list event) (lp : string) (e : exn) :
  validly_signed g request ->
  json_body request = Ok payload ->
  classify payload = Some ev ->
  (forall to subject body path h,
     match fst (run o (send_email g to subject body path) h) with
     | Raised e' =>
         (exists ev', last_event (snd (run o (send_email g to subject body path) h))
                        = Some ev' /\ failure_of ev' = Some e') /\
         forallb succeeded
           (removelast (snd (run o (send_email g to subject body path) h))) = true
     | Returned _ =>
         forallb succeeded (snd (run o (send_email g to subject body path) h)) = true /\
         existsb is_sendmail (snd (run o (send_email g to subject body path) h)) = true
     end) /\
  (among (ev_action ev) ["opened"; "synchronize"; "reopened"] = true ->
   run o (deploy_until_mail deploy g (ev_repo ev) (ev_number ev) (ev_branch ev)
            (ev_installation ev)) [] = (Returned lp, tr1) ->
   run o (send_email g (RECIPIENT_EMAIL g) "Deployment Log"
            "Please find the attached deployment log." lp) tr1 = (Raised e, tr2) ->
   run o (webhook_with deploy cleanup g request) [] =
   (Returned (mkReply 500 "Deployment failed"),
    (tr1 ++ tr2) ++ [Ev (LogError (mkLog "Deployment failed: " (Some e))) tt])) /\
  (among (ev_action ev) ["opened"; "synchronize"; "reopened"] = false ->
   is_str (ev_action ev) "closed" = true ->
   run o (cleanup_until_mail cleanup g (ev_repo ev) (ev_number ev) (ev_branch ev)
            (ev_installation ev)) [] = (Returned lp, tr1) ->
   run o (send_email g (RECIPIENT_EMAIL g) "Cleanup Log"
            "Please find the attached cleanup log." lp) tr1 = (Raised e, tr2) ->
   run o (webhook_with deploy cleanup g request) [] =
   (Returned (mkReply 500 "Cleanup failed"),
    (tr1 ++ tr2) ++ [Ev (LogError (mkLog "Cleanup failed: " (Some e))) tt])).
Proof.
  intros Hsig Hjson Hcls.
  rewrite (webhook_with_classified deploy cleanup g request payload ev Hsig Hjson Hcls).
  unfold dispatch. split; [| split].
  - intros to subject body path h.
    pose proof (wp_run_at o _ h _ (send_email_wp g to subject body path)) as H.
    cbv beta in H.
    destruct (fst (run o (send_email g to subject body path) h)); exact H.
  - intros Ha H1 H2. rewrite Ha.
    apply (blanket_converts o "Deployment failed" _ [] (tr1 ++ tr2) e).
    apply deploy_mail_failure with (lp := lp); assumption.
  - intros Ha Hc H1 H2. rewrite Ha, Hc.
    apply (blanket_converts o "Cleanup failed" _ [] (tr1 ++ tr2) e).
    apply cleanup_mail_failure with (lp := lp); assumption.
Qed.

Lemma C5_mail_failure_is_fatal_witness :
  let smtp_down := OtherError "SMTPException" "relay down" in
  let o := scripted (with_sendmail (Err smtp_down) all_well) in
  let request := signed_request "s3cret" (sample_payload "opened" false) in
  let deploy := stub_deploy (Some "http://host:8042") in
  let ev := mkEvent (VStr "opened") (VInt 42) (VStr "org/app") (VStr "feature-x")
                    (VInt 7) in
  let lp := "/tmp/deployment_log_feature-x_42.txt" in
  let tr1 := snd (run o (deploy_until_mail deploy sample_globals (ev_repo ev)
                           (ev_number ev) (ev_branch ev) (ev_installation ev)) []) in
  let tr2 := snd (run o (send_email sample_globals (RECIPIENT_EMAIL sample_globals)
                           "Deployment Log" "Please find the attached deployment log."
                           lp) tr1) in
  validly_signed sample_globals request /\
  json_body request = Ok (sample_payload "opened" false) /\
  classify (sample_payload "opened" false) = Some ev /\
  among (ev_action ev) ["opened"; "synchronize"; "reopened"] = true /\
  run o (deploy_until_mail deploy sample_globals (ev_repo ev) (ev_number ev)
           (ev_branch ev) (ev_installation ev)) [] = (Returned lp, tr1) /\
  run o (send_email sample_globals (RECIPIENT_EMAIL sample_globals) "Deployment Log"
           "Please find the attached deployment log." lp) tr1 = (Raised smtp_down, tr2) /\
  run o (webhook_with deploy stub_cleanup sample_globals request) [] =
  (Returned (mkReply 500 "Deployment failed"),
   (tr1 ++ tr2) ++ [Ev (LogError (mkLog "Deployment failed: " (Some smtp_down))) tt]).
Proof.
  intros smtp_down o request deploy ev lp tr1 tr2.
  assert (Hsig : validly_signed sample_globals request)
    by (apply signed_request_valid; reflexivity).
  assert (H1 : run o (deploy_until_mail deploy sample_globals (ev_repo ev) (ev_number ev)
                        (ev_branch ev) (ev_installation ev)) [] = (Returned lp, tr1))
    by (vm_compute; reflexivity).
  assert (H2 : run o (send_email sample_globals (RECIPIENT_EMAIL sample_globals)
                        "Deployment Log" "Please find the attached deployment log." lp)
                 tr1 = (Raised smtp_down, tr2))
    by (vm_compute; reflexivity).
  split; [exact Hsig |]. split; [reflexivity |]. split; [reflexivity |].
  split; [reflexivity |]. split; [exact H1 |]. split; [exact H2 |].
  destruct (C5_mail_failure_is_fatal o deploy stub_cleanup sample_globals request
              (sample_payload "opened" false) ev tr1 tr2 lp smtp_down
              Hsig eq_refl eq_refl) as (_ & H & _).
  exact (H eq_refl H1 H2).
Defined.

(* ================================================================== *)
(** ** The final comment of the deploy path *)

Lemma bind_trace_returned {A B : Type} (o : Oracle) (p : Prog A) (f : A -> Prog B)
    (h tr : list event) (a : A) :
  run o p h = (Returned a, tr) ->
  snd (run o (bind p f) h) = tr ++ snd (run o (f a) (h ++ tr)).
Proof. intros H. rewrite (run_bind_returned o p f h tr a H). reflexivity. Qed.

Lemma bind_trace_prefix {A B : Type} (o : Oracle) (p : Prog A) (f : A -> Prog B)
    (h : list event) :
  exists rest, snd (run o (bind p f) h) = snd (run o p h) ++ rest.
Proof.
  rewrite run_bind. destruct (fst (run o p h)); cbn [snd].
  - eexists. reflexivity.
  - exists []. rewrite app_nil_r. reflexivity.
Qed.

Lemma try_trace_prefix {A : Type} (o : Oracle) (p : Prog A) (hd : exn -> Prog A)
    (h : list event) :
  exists rest, snd (run o (try_except p hd) h) = snd (run o p h) ++ rest.
Proof.
  rewrite run_try_except. destruct (fst (run o p h)); cbn [snd].
  - exists []. rewrite app_nil_r. reflexivity.
  - eexists. reflexivity.
Qed.

(** Whatever follows, [notify_stakeholders] first submits the comment. *)
Lemma notify_first_event (o : Oracle) (url tok : value) (text : string)
    (h : list event) :
  exists r rest,
    snd (run o (notify_stakeholders url text tok None) h) =
    Ev (comment_request url tok text) r :: rest.
Proof.
  unfold notify_stakeholders, call, comment_request. cbn [bind run snd comment_body].
  eexists. eexists. reflexivity.
Qed.

Lemma re_search_nonempty (lit glit s grp : string) :
  re_search lit glit s = Some grp -> truthy (VStr grp) = true.
Proof.
  induction s as [| c s IH]; cbn [re_search]; unfold match_here.
  - destruct (strip_prefix (lit +++ glit) "") as [rest |]; [| discriminate].
    destruct (take_non_space rest) eqn:E; [discriminate |].
    intros H. injection H as <-. destruct glit; reflexivity.
  - destruct (strip_prefix (lit +++ glit) (String c s)) as [rest |].
    + destruct (take_non_space rest) eqn:E.
      * exact IH.
      * intros H. injection H as <-. destruct glit; reflexivity.
    + exact IH.
Qed.

(** C10 (the defect): the deploy script exits 0 and prints no
    [Deployment complete: http://...] line, so the URL pattern finds
    nothing and the deployment URL is null.  The handler would then submit
    the generic failure notice (lines 107-111), but the runner never hands
    the null URL back: submitting its report reads the unbound name
    [comment_url] (line 177), [run_deployment_script] raises [NameError]
    after the output was written to the log, the handler answers 500
    [Deployment failed], and the only comment is the start notice: the
    notice [Deployment failed. Please check the logs.] is not submitted,
    and no mail follows.  Same defect as C3 and C4. *)
Theorem C10_null_link_ends_in_name_error :
  let output := "Container name: app-42" +++ nl in
  let o := scripted (with_process (Ok (mkCompleted 0 (Some output) (Some ""))) all_well) in
  let request := signed_request "s3cret" (sample_payload "opened" false) in
  let path := "/tmp/deployment_log_feature-x_42.txt" in
  re_search "Deployment complete: " "http://" output = None /\
  deployment_message_of None = "Deployment failed. Please check the logs." /\
  run o (run_deployment_script sample_globals (VStr "feature-x") (VInt 42)) [] =
  (Raised (NameError "comment_url"),
   [ Ev (FileOpen path "w") (Ok tt);
     Ev (SubprocessRun [VStr "./deploy.sh"; VStr "feature-x"; VStr "42"] CaptureText)
        (Ok (mkCompleted 0 (Some output) (Some "")));
     Ev (FileWrite path output) (Ok tt);
     Ev (LogInfo (mkLog output None)) tt;
     Ev (FileClose path) (Ok tt) ]) /\
  fst (run o (webhook sample_globals request) [])
    = Returned (mkReply 500 "Deployment failed") /\
  comments (snd (run o (webhook sample_globals request) []))
    = ["Deployment started for this pull request."] /\
  filter is_mail (snd (run o (webhook sample_globals request) [])) = [].
Proof.
  cbv zeta. unfold webhook. rewrite sample_webhook.
  do 5 (split; [vm_compute; reflexivity |]). vm_compute. reflexivity.
Qed.

(* ================================================================== *)
(** ** Events the handler does not act on *)

(** C7 (amended): a validly signed event whose payload is a JSON object
    without a [pull_request] key, or a pull-request event that carries the
    four fields the handler reads ([pull_request.number],
    [repository.full_name], [pull_request.head.ref], [installation.id])
    and whose action is none of [opened], [synchronize], [reopened],
    [closed], is answered 200 with the no-op acknowledgment, and the
    handler makes no external call at all. *)
Theorem C7_other_events_are_acknowledged
    (o : Oracle) (g : Globals) (request : Request) (d : list (string * value)) :
  validly_signed g request ->
  json_body request = Ok (VDict d) ->
  (assoc "pull_request" d = None \/
   exists ev, classify (VDict d) = Some ev /\
              among (ev_action ev) ["opened"; "synchronize"; "reopened"; "closed"] = false) ->
  run o (webhook g request) [] = (Returned (mkReply 200 "No action taken"), []).
Proof.
  intros Hsig Hjson [Hno | (ev & Hcls & Ha)].
  - unfold webhook, webhook_with. unfold validly_signed in Hsig.
    rewrite Hsig, Hjson. cbn [bind negb]. unfold dict_get, has_key.
    rewrite Hno. destruct (assoc "action" d); reflexivity.
  - unfold webhook.
    rewrite (webhook_with_classified _ _ g request (VDict d) ev Hsig Hjson Hcls).
    unfold dispatch. cbn [among existsb] in Ha |- *.
    destruct (is_str (ev_action ev) "opened"); [discriminate |].
    destruct (is_str (ev_action ev) "synchronize"); [discriminate |].
    destruct (is_str (ev_action ev) "reopened"); [discriminate |].
    destruct (is_str (ev_action ev) "closed"); [discriminate |].
    reflexivity.
Qed.

Lemma C7_other_events_are_acknowledged_witness :
  let request := signed_request "s3cret" (sample_payload "edited" false) in
  let d := match sample_payload "edited" false with VDict d => d | _ => [] end in
  validly_signed sample_globals request /\
  json_body request = Ok (VDict d) /\
  (exists ev, classify (VDict d) = Some ev /\
              among (ev_action ev) ["opened"; "synchronize"; "reopened"; "closed"] = false) /\
  run (scripted all_well) (webhook sample_globals request) []
    = (Returned (mkReply 200 "No action taken"), []).
Proof.
  intros request d.
  assert (Hsig : validly_signed sample_globals request)
    by (apply signed_request_valid; reflexivity).
  assert (Hev : exists ev, classify (VDict d) = Some ev /\
                  among (ev_action ev) ["opened"; "synchronize"; "reopened"; "closed"] = false).
  { exists (mkEvent (VStr "edited") (VInt 42) (VStr "org/app") (VStr "feature-x") (VInt 7)).
    split; reflexivity. }
  split; [exact Hsig |]. split; [reflexivity |]. split; [exact Hev |].
  exact (C7_other_events_are_acknowledged (scripted all_well) sample_globals request d
           Hsig eq_refl (or_intror Hev)).
Defined.

(** C7 as stated fails: the four fields are read (lines 89-92) before the
    action is looked at (line 94) and outside any [try].  A validly signed
    [edited] event whose payload has a [pull_request] key but no
    [repository] key is not acknowledged: [data['repository']] raises
    [KeyError], which leaves the handler. *)
Lemma C7_unreadable_event_is_not_acknowledged :
  let payload := VDict [ ("action", VStr "edited");
                         ("pull_request", VDict [ ("number", VInt 42) ]) ] in
  let request := signed_request "s3cret" payload in
  validly_signed sample_globals request /\
  json_body request = Ok payload /\
  among (VStr "edited") ["opened"; "synchronize"; "reopened"; "closed"] = false /\
  run (scripted all_well) (webhook sample_globals request) []
    = (Raised (KeyError "repository"), []) /\
  run (scripted all_well) (webhook sample_globals request) []
    <> (Returned (mkReply 200 "No action taken"), []).
Proof.
  cbv zeta.
  assert (Hsig : validly_signed sample_globals
                   (signed_request "s3cret"
                      (VDict [ ("action", VStr "edited");
                               ("pull_request", VDict [ ("number", VInt 42) ]) ])))
    by (apply signed_request_valid; reflexivity).
  assert (Hrun : run (scripted all_well)
                   (webhook sample_globals
                      (signed_request "s3cret"
                         (VDict [ ("action", VStr "edited");
                                  ("pull_request", VDict [ ("number", VInt 42) ]) ]))) []
                 = (Raised (KeyError "repository"), [])).
  { unfold webhook, webhook_with. unfold validly_signed in Hsig. rewrite Hsig.
    reflexivity. }
  split; [exact Hsig |]. split; [reflexivity |]. split; [reflexivity |].
  split; [exact Hrun |]. rewrite Hrun. discriminate.
Qed.

(* ================================================================== *)
(** ** The identity assertion *)

Lemma load_module_wp :
  wp load_module []
     (fun tr out =>
        forall g, out = Returned g ->
          loaded_keys tr = [private_key g] /\
          In (Ev (Getenv "APP_ID") (APP_ID g)) tr).
Proof.
  unfold load_module, with_open. wp_go.
  all: try discriminate.
  all: match goal with H : Returned _ = Returned _ |- _ => injection H as <- end.
  all: split; [reflexivity | cbn; tauto].
Qed.

(** C9: [get_jwt_token] reads the clock once and has the claim set
    [{iat: t, exp: t + 600, iss: APP_ID}] signed under RS256 with the
    module's [private_key]; what the signing returns (or raises) is its
    outcome, and it makes no other call.  The key is the one that the
    module body loaded, once, when the module was imported, and [APP_ID]
    is the identifier read from the environment then. *)
Theorem C9_identity_assertion (o : Oracle) (g : Globals) (h : list event) :
  (let t := o Z h CurrentTime in
   let claims := [ ("iat", VInt t); ("exp", VInt (t + 600));
                   ("iss", opt_value (APP_ID g)) ] in
   let signed := o _ (h ++ [Ev CurrentTime t])
                   (JwtEncode claims (private_key g) "RS256") in
   run o (get_jwt_token g) h =
   (match signed with
    | Ok token => Returned token
    | Err e => Raised e
    end,
    [ Ev CurrentTime t; Ev (JwtEncode claims (private_key g) "RS256") signed ])) /\
  (fst (run o load_module []) = Returned g ->
   loaded_keys (snd (run o load_module [])) = [private_key g] /\
   In (Ev (Getenv "APP_ID") (APP_ID g)) (snd (run o load_module []))).
Proof.
  split.
  - unfold get_jwt_token, perform, call. cbn [bind run fst snd].
    change (10 * 60) with 600.
    destruct (o (result string) _ _); reflexivity.
  - intros Hg. exact (wp_run_at o load_module [] _ load_module_wp g Hg).
Qed.

Lemma C9_identity_assertion_witness :
  fst (run (scripted all_well) load_module []) = Returned sample_globals /\
  run (scripted all_well) (get_jwt_token sample_globals) [] =
  (Returned "jwt.for.app",
   [ Ev CurrentTime 1700000000;
     Ev (JwtEncode [ ("iat", VInt 1700000000); ("exp", VInt 1700000600);
                     ("iss", VStr "12345") ]
                   (PrivateKey "PEM") "RS256") (Ok "jwt.for.app") ]) /\
  loaded_keys (snd (run (scripted all_well) load_module [])) = [PrivateKey "PEM"].
Proof.
  assert (Hg : fst (run (scripted all_well) load_module []) = Returned sample_globals)
    by (vm_compute; reflexivity).
  destruct (C9_identity_assertion (scripted all_well) sample_globals []) as (Hjwt & Hkey).
  split; [exact Hg |]. split; [exact Hjwt |].
  exact (proj1 (Hkey Hg)).
Defined.

(* ================================================================== *)
(** ** The progress report of the deploy runner *)

Lemma deployment_details_all_success
    (branch_name : value) (container_name deployment_url : option string) :
  map (fun sd => (fst sd, status (snd sd)))
      (deployment_details branch_name container_name deployment_url) =
  [ ("Clone repository", "Success"); ("Checkout branch", "Success");
    ("Pull latest changes", "Success"); ("Build Docker image", "Success");
    ("Run Docker container", "Success") ].
Proof. reflexivity. Qed.

(** C3 (the defect): in the end-to-end scenario of the design (repo
    [org/app], PR 42, branch [feature-x], the script exits 0 and prints
    both lines) both patterns are found and the five-entry report is all
    [Success], but submitting it reads the unbound name [comment_url]:
    [run_deployment_script] raises [NameError], the handler answers 500
    [Deployment failed], and the only comment is the start notice: no
    final comment with the deployment URL, and no mail. *)
Theorem C3_success_path_ends_in_name_error :
  let o := scripted all_well in
  let request := signed_request "s3cret" (sample_payload "opened" false) in
  re_search "Container name: " "" sample_output = Some "app-42" /\
  re_search "Deployment complete: " "http://" sample_output = Some "http://host:8042" /\
  fst (run o (run_deployment_script sample_globals (VStr "feature-x") (VInt 42)) [])
    = Raised (NameError "comment_url") /\
  fst (run o (webhook sample_globals request) [])
    = Returned (mkReply 500 "Deployment failed") /\
  comments (snd (run o (webhook sample_globals request) []))
    = ["Deployment started for this pull request."] /\
  filter is_mail (snd (run o (webhook sample_globals request) [])) = [].
Proof.
  cbv zeta. unfold webhook. rewrite sample_webhook.
  do 5 (split; [vm_compute; reflexivity |]). vm_compute. reflexivity.
Qed.

(** C4 (the defect): when the deploy script exits 1 with [boom] on its
    error stream, the runner writes the error text to the log file and
    logs it, but submitting the one-entry report reads the unbound name
    [comment_url] inside the [except] block: the runner raises [NameError]
    instead of returning the log path, the handler answers 500
    [Deployment failed], and neither the generic failure notice nor the
    mail with the log follows.  Same defect as C3. *)
Theorem C4_failure_path_ends_in_name_error :
  let o := scripted (with_process (Ok (mkCompleted 1 (Some "") (Some "boom"))) all_well) in
  let request := signed_request "s3cret" (sample_payload "opened" false) in
  let path := "/tmp/deployment_log_feature-x_42.txt" in
  run o (run_deployment_script sample_globals (VStr "feature-x") (VInt 42)) [] =
  (Raised (NameError "comment_url"),
   [ Ev (FileOpen path "w") (Ok tt);
     Ev (SubprocessRun [VStr "./deploy.sh"; VStr "feature-x"; VStr "42"] CaptureText)
        (Ok (mkCompleted 1 (Some "") (Some "boom")));
     Ev (FileWrite path "Deployment script failed with error: boom") (Ok tt);
     Ev (LogError (mkLog "Deployment script failed with error: boom" None)) tt;
     Ev (FileClose path) (Ok tt) ]) /\
  fst (run o (webhook sample_globals request) [])
    = Returned (mkReply 500 "Deployment failed") /\
  comments (snd (run o (webhook sample_globals request) []))
    = ["Deployment started for this pull request."] /\
  filter is_mail (snd (run o (webhook sample_globals request) [])) = [].
Proof.
  cbv zeta. unfold webhook. rewrite sample_webhook.
  do 3 (split; [vm_compute; reflexivity |]). vm_compute. reflexivity.
Qed.

(* ================================================================== *)
(** ** Comments that are not created *)

(** When the body of a non-201 answer is JSON, the failure is logged and
    [notify_stakeholders] returns. *)
Lemma notify_non_201_logged (o : Oracle) (url tok : value) (text : string)
    (details : option Details) (h : list event) (response : Response) (body : value) :
  o _ h (HttpPost url [("Authorization", "token " +++ py_str tok); accept_header]
           (Some (VDict [("body", VStr (comment_body text details))]))) = Ok response ->
  status_code response <> 201 ->
  json response = Ok body ->
  run o (notify_stakeholders url text tok details) h =
  (Returned tt,
   [ Ev (HttpPost url [("Authorization", "token " +++ py_str tok); accept_header]
           (Some (VDict [("body", VStr (comment_body text details))]))) (Ok response);
     Ev (LogError (mkLog ("Failed to comment on PR: " +++ py_str body) None)) tt ]).
Proof.
  intros Ho Hs Hj. unfold notify_stakeholders, call. cbn [bind run fst snd].
  rewrite Ho. cbn [bind run fst snd].
  destruct (Z.eqb_spec (status_code response) 201) as [E | _]; [contradiction |].
  cbn [negb]. unfold response_json. rewrite Hj.
  cbn [bind perform run fst snd].
  destruct (o unit _ _). reflexivity.
Qed.

(** When the body is not JSON, nothing is logged: [response.json()]
    raises and the exception is the outcome. *)
Lemma notify_unparsable_raises (o : Oracle) (url tok : value) (text : string)
    (details : option Details) (h : list event) (response : Response) (e : exn) :
  o _ h (HttpPost url [("Authorization", "token " +++ py_str tok); accept_header]
           (Some (VDict [("body", VStr (comment_body text details))]))) = Ok response ->
  status_code response <> 201 ->
  json response = Err e ->
  run o (notify_stakeholders url text tok details) h =
  (Raised e,
   [ Ev (HttpPost url [("Authorization", "token " +++ py_str tok); accept_header]
           (Some (VDict [("body", VStr (comment_body text details))]))) (Ok response) ]).
Proof.
  intros Ho Hs Hj. unfold notify_stakeholders, call. cbn [bind run fst snd].
  rewrite Ho. cbn [bind run fst snd].
  destruct (Z.eqb_spec (status_code response) 201) as [E | _]; [contradiction |].
  cbn [negb]. unfold response_json. rewrite Hj. reflexivity.
Qed.

(** C6 (the defect): a non-201 answer whose body is not JSON (here a 502
    from a gateway) is not logged: building the log line calls
    [response.json()], which raises, and the exception leaves
    [notify_stakeholders].  In the handler the start notice of the deploy
    path then ends the request with 500 [Deployment failed] before the
    deploy script is run. *)
Theorem C6_non_json_answer_raises :
  let o := scripted (with_comment (fun _ => Ok bad_gateway) all_well) in
  let request := signed_request "s3cret" (sample_payload "opened" false) in
  let url := VStr "https://api.github.com/repos/org/app/issues/42/comments" in
  let tok := VStr "ghs_installation" in
  run o (notify_stakeholders url "Deployment started for this pull request." tok None) []
    = (Raised not_json,
       [ Ev (comment_request url tok "Deployment started for this pull request.")
            (Ok bad_gateway) ]) /\
  run o (webhook sample_globals request) [] =
  (Returned (mkReply 500 "Deployment failed"),
   [ Ev CurrentTime 1700000000;
     Ev (JwtEncode [ ("iat", VInt 1700000000); ("exp", VInt 1700000600);
                     ("iss", VStr "12345") ] (PrivateKey "PEM") "RS256")
        (Ok "jwt.for.app");
     Ev (HttpPost (VStr "https://api.github.com/app/installations/7/access_tokens")
           [("Authorization", "Bearer jwt.for.app"); accept_header] None)
        token_issued;
     Ev (comment_request url tok "Deployment started for this pull request.")
        (Ok bad_gateway);
     Ev (LogError (mkLog "Deployment failed: " (Some not_json))) tt ]).
Proof.
  cbv zeta. unfold webhook. rewrite !sample_webhook.
  split; vm_compute; reflexivity.
Qed.

(* ================================================================== *)
(** ** The [merged] flag *)

Lemma assoc_set_key (k k' : string) (v : value) (d : list (string * value)) :
  assoc k (set_key k' v d) = if String.eqb k k' then Some v else assoc k d.
Proof.
  induction d as [| [k0 v0] d IH]; cbn [set_key assoc].
  - destruct (String.eqb k k'); reflexivity.
  - destruct (String.eqb_spec k' k0) as [-> | Hne]; cbn [assoc].
    + destruct (String.eqb k k0); reflexivity.
    + rewrite IH. destruct (String.eqb_spec k k0) as [-> | Hne'].
      * destruct (String.eqb_spec k0 k') as [E | _]; [| reflexivity].
        exfalso. apply Hne. symmetry. exact E.
      * reflexivity.
Qed.

(** The handler never reads [pull_request.merged]. *)
Lemma classify_with_merged (m : bool) (payload : value) :
  classify (with_merged m payload) = classify payload.
Proof.
  destruct payload as [| | | | | d |]; try reflexivity.
  unfold with_merged.
  destruct (assoc "pull_request" d) as [pr |] eqn:Epr; [| reflexivity].
  destruct pr as [| | | | | dpr |]; try reflexivity.
  unfold classify, opt_bind. cbn [lookup].
  rewrite !assoc_set_key. cbn [String.eqb Ascii.eqb Bool.eqb]. rewrite Epr.
  cbn [lookup].
  rewrite !assoc_set_key. cbn [String.eqb Ascii.eqb Bool.eqb]. reflexivity.
Qed.

(** Two validly signed deliveries whose payloads differ in the [merged]
    flag only are handled by the same program. *)
Lemma webhook_ignores_merged (g : Globals) (request1 request2 : Request)
    (payload : value) (ev : PullRequestEvent) (m : bool) :
  validly_signed g request1 ->
  validly_signed g request2 ->
  json_body request1 = Ok payload ->
  json_body request2 = Ok (with_merged m payload) ->
  classify payload = Some ev ->
  webhook g request1 = webhook g request2.
Proof.
  intros Hs1 Hs2 Hj1 Hj2 Hcls. unfold webhook.
  rewrite (webhook_with_classified _ _ g request1 payload ev Hs1 Hj1 Hcls).
  rewrite (webhook_with_classified _ _ g request2 (with_merged m payload) ev Hs2 Hj2);
    [reflexivity |].
  rewrite classify_with_merged. exact Hcls.
Qed.

(** C8 (the defect): a [closed] event is handled the same whether the
    pull request was merged or not ([webhook_ignores_merged]), and the
    cleanup script is run in both cases; but the flow stops there.  After
    the script the runner reads the unbound name [comment_url], so no token
    is acquired, no [Cleanup completed] comment is submitted and no mail is
    sent: the reply is 500 [Cleanup failed].  Same defect as C3 and C4. *)
Theorem C8_cleanup_stops_after_the_script :
  let o := scripted (with_process (Ok (mkCompleted 0 None None)) all_well) in
  let merged := signed_request "s3cret" (sample_payload "closed" true) in
  let unmerged := signed_request "s3cret" (sample_payload "closed" false) in
  let path := "/tmp/cleanup_log_feature-x_42.txt" in
  run o (webhook sample_globals merged) [] = run o (webhook sample_globals unmerged) [] /\
  run o (webhook sample_globals merged) [] =
  (Returned (mkReply 500 "Cleanup failed"),
   [ Ev (FileOpen path "w") (Ok tt);
     Ev (SubprocessRun [VStr "./cleanup.sh"; VStr "feature-x"; VStr "42"] (ToFile path))
        (Ok (mkCompleted 0 None None));
     Ev (LogInfo (mkLog "Cleanup script executed successfully." None)) tt;
     Ev (FileClose path) (Ok tt);
     Ev (LogError (mkLog "Cleanup failed: " (Some (NameError "comment_url")))) tt ]).
Proof.
  cbv zeta. unfold webhook. rewrite !sample_webhook.
  split; vm_compute; reflexivity.
Qed.

(* ################################################################## *)
(** * Further properties of the code *)

(* ================================================================== *)
(** ** [verify_signature] and the first lines of [webhook] *)

(** X1: with a configured secret, [verify_signature] on an ASCII header
    decides exactly whether the header is ['sha256='] followed by the hex
    HMAC-SHA256 of the body under the secret. *)
Theorem X1_verify_signature_decides
    (g : Globals) (secret payload sig : string) :
  WEBHOOK_SECRET g = Some secret ->
  is_ascii sig = true ->
  verify_signature g payload (Some sig) =
  Ret (String.eqb sig (expected_signature secret payload)).
Proof.
  intros Hs Ha. unfold verify_signature. rewrite Hs.
  destruct sig as [| c sig]; [reflexivity |].
  cbn [truthy String.eqb negb]. unfold compare_digest.
  rewrite expected_signature_ascii, Ha. cbn [andb].
  rewrite String.eqb_sym. reflexivity.
Qed.

Lemma X1_verify_signature_decides_witness :
  WEBHOOK_SECRET sample_globals = Some "s3cret" /\
  is_ascii "sha256=00" = true /\
  verify_signature sample_globals "{}" (Some "sha256=00") =
  Ret (String.eqb "sha256=00" (expected_signature "s3cret" "{}")).
Proof.
  split; [reflexivity |]. split; [reflexivity |].
  apply (X1_verify_signature_decides sample_globals "s3cret" "{}" "sha256=00");
    reflexivity.
Defined.

(** X2: when [WEBHOOK_SECRET] is not set, a request with a non-empty
    signature header is not answered 401: [WEBHOOK_SECRET.encode()] raises
    [AttributeError], which leaves [webhook] before anything else is
    done. *)
Theorem X2_unset_secret_raises
    (o : Oracle) (g : Globals) (request : Request) (sig : string) (h : list event) :
  WEBHOOK_SECRET g = None ->
  signature_header request = Some sig ->
  sig <> "" ->
  run o (webhook g request) h =
  (Raised (AttributeError "'NoneType' object has no attribute 'encode'"), []).
Proof.
  intros Hs Hh Hne. unfold webhook, webhook_with, verify_signature.
  rewrite Hh, Hs. destruct sig as [| c sig]; [contradiction |]. reflexivity.
Qed.

Lemma X2_unset_secret_raises_witness :
  let g := mkGlobals None (Some "12345") (Some "/etc/bot/key.pem") None None None None
                     None (PrivateKey "PEM") in
  let request := mkRequest (Some "sha256=00") "{}" (Ok (VDict [])) in
  WEBHOOK_SECRET g = None /\
  signature_header request = Some "sha256=00" /\
  "sha256=00" <> "" /\
  run (scripted all_well) (webhook g request) [] =
  (Raised (AttributeError "'NoneType' object has no attribute 'encode'"), []).
Proof.
  intros g request.
  assert (Hne : "sha256=00" <> "") by discriminate.
  split; [reflexivity |]. split; [reflexivity |]. split; [exact Hne |].
  exact (X2_unset_secret_raises (scripted all_well) g request "sha256=00" []
           eq_refl eq_refl Hne).
Defined.

(** X3: a request without signature header, or with an empty one, is
    answered 401 [Invalid signature] and nothing else happens: the secret
    is not read, the body is not parsed (it need not be JSON), and no
    external call is made. *)
Theorem X3_missing_signature_is_refused
    (o : Oracle) (g : Globals) (request : Request) (h : list event) :
  signature_header request = None \/ signature_header request = Some "" ->
  run o (webhook g request) h = (Returned (mkReply 401 "Invalid signature"), []).
Proof.
  intros [H | H]; unfold webhook, webhook_with, verify_signature; rewrite H;
    reflexivity.
Qed.

Lemma X3_missing_signature_is_refused_witness :
  let request := mkRequest None "not json" (Err (OtherError "BadRequest" "400")) in
  (signature_header request = None \/ signature_header request = Some "") /\
  run (scripted all_well) (webhook sample_globals request) [] =
  (Returned (mkReply 401 "Invalid signature"), []).
Proof.
  intros request. split; [left; reflexivity |].
  exact (X3_missing_signature_is_refused (scripted all_well) sample_globals request []
           (or_introl eq_refl)).
Defined.

(** Symbolic execution that keeps the equations of its case splits. *)
Ltac wp_cases :=
  repeat first
    [ progress cbn
    | intro
    | match goal with
      | x : Completed |- _ => destruct x
      | x : Response |- _ => destruct x
      | x : unit |- _ => destruct x
      | |- context [match ?x with _ => _ end] => destruct x eqn:?
      end ].

(* ================================================================== *)
(** ** Token exchange *)

Lemma token_wp (g : Globals) (i : value) :
  wp (get_installation_access_token g i) []
     (fun tr out =>
        (forall tok, out = Returned tok ->
           exists t jwt response d,
             tr = [ Ev CurrentTime t;
                    Ev (JwtEncode [ ("iat", VInt t); ("exp", VInt (t + 10 * 60));
                                    ("iss", opt_value (APP_ID g)) ]
                                  (private_key g) "RS256") (Ok jwt);
                    Ev (HttpPost
                          (VStr ("https://api.github.com/app/installations/"
                                 +++ py_str i +++ "/access_tokens"))
                          [ ("Authorization", "Bearer " +++ jwt); accept_header ]
                          None) (Ok response) ] /\
             ((400 <=? status_code response) && (status_code response <? 600)) = false /\
             json response = Ok (VDict d) /\
             assoc "token" d = Some tok) /\
        (exists n, map call_name tr =
                   firstn n ["time.time"; "jwt.encode"; "requests.post"]) /\
        match responses tr with
        | [] => exists e, out = Raised e
        | [response] =>
            if (400 <=? status_code response) && (status_code response <? 600)
            then out = Raised (HTTPError (status_code response))
            else match json response with
                 | Err e => out = Raised e
                 | Ok (VDict d) =>
                     match assoc "token" d with
                     | Some tok => out = Returned tok
                     | None => out = Raised (KeyError "token")
                     end
                 | Ok _ => exists msg, out = Raised (TypeError msg)
                 end
        | _ => False
        end).
Proof.
  unfold_program. wp_cases.
  all: split; [intros tok Htok; try discriminate |].
  all: try (injection Htok as <-; do 4 eexists;
            split; [reflexivity |]; split; [cbn; congruence |];
            split; [reflexivity | congruence]).
  all: try congruence.
  all: split; [first [ exists 2%nat; reflexivity | exists 3%nat; reflexivity ] |].
  all: first [ congruence | reflexivity | eexists; reflexivity ].
Qed.

(** X4: [get_installation_access_token] returns a token only after exactly
    three calls: the clock, the signing of the assertion, and one POST to
    the installation's [access_tokens] endpoint that carries the assertion
    as bearer credential and no body; the answer had a status outside
    400..599 and a JSON object as body, and the token is its [token]
    entry. *)
Theorem X4_token_comes_from_the_exchange
    (o : Oracle) (g : Globals) (i tok : value) (h : list event) :
  fst (run o (get_installation_access_token g i) h) = Returned tok ->
  exists t jwt response d,
    snd (run o (get_installation_access_token g i) h) =
    [ Ev CurrentTime t;
      Ev (JwtEncode [ ("iat", VInt t); ("exp", VInt (t + 10 * 60));
                      ("iss", opt_value (APP_ID g)) ]
                    (private_key g) "RS256") (Ok jwt);
      Ev (HttpPost
            (VStr ("https://api.github.com/app/installations/"
                   +++ py_str i +++ "/access_tokens"))
            [ ("Authorization", "Bearer " +++ jwt); accept_header ]
            None) (Ok response) ] /\
    ((400 <=? status_code response) && (status_code response <? 600)) = false /\
    json response = Ok (VDict d) /\
    assoc "token" d = Some tok.
Proof.
  intros H.
  exact (proj1 (wp_run_at o _ h _ (token_wp g i)) tok H).
Qed.

Lemma X4_token_comes_from_the_exchange_witness :
  fst (run (scripted all_well) (get_installation_access_token sample_globals (VInt 7)) [])
    = Returned (VStr "ghs_installation") /\
  exists t jwt response d,
    snd (run (scripted all_well) (get_installation_access_token sample_globals (VInt 7)) []) =
    [ Ev CurrentTime t;
      Ev (JwtEncode [ ("iat", VInt t); ("exp", VInt (t + 10 * 60));
                      ("iss", opt_value (APP_ID sample_globals)) ]
                    (private_key sample_globals) "RS256") (Ok jwt);
      Ev (HttpPost
            (VStr ("https://api.github.com/app/installations/"
                   +++ py_str (VInt 7) +++ "/access_tokens"))
            [ ("Authorization", "Bearer " +++ jwt); accept_header ]
            None) (Ok response) ] /\
    ((400 <=? status_code response) && (status_code response <? 600)) = false /\
    json response = Ok (VDict d) /\
    assoc "token" d = Some (VStr "ghs_installation").
Proof.
  assert (H : fst (run (scripted all_well)
                     (get_installation_access_token sample_globals (VInt 7)) [])
              = Returned (VStr "ghs_installation")) by (vm_compute; reflexivity).
  split; [exact H |].
  exact (X4_token_comes_from_the_exchange (scripted all_well) sample_globals (VInt 7)
           (VStr "ghs_installation") [] H).
Defined.

(** X5: the token exchange makes at most one request and never retries:
    its calls are a prefix of clock, signing, POST.  When the request was
    answered, the answer alone decides the outcome: a status in 400..599
    raises [HTTPError] even if the body holds a token, a body that is not
    JSON raises what [.json()] raises, a JSON object without [token] raises
    [KeyError], any other JSON value raises [TypeError]; when no request
    was answered the outcome is an exception. *)
Theorem X5_token_exchange_errors
    (o : Oracle) (g : Globals) (i : value) (h : list event) :
  let tr := snd (run o (get_installation_access_token g i) h) in
  let out := fst (run o (get_installation_access_token g i) h) in
  (exists n, map call_name tr = firstn n ["time.time"; "jwt.encode"; "requests.post"]) /\
  match responses tr with
  | [] => exists e, out = Raised e
  | [response] =>
      if (400 <=? status_code response) && (status_code response <? 600)
      then out = Raised (HTTPError (status_code response))
      else match json response with
           | Err e => out = Raised e
           | Ok (VDict d) =>
               match assoc "token" d with
               | Some tok => out = Returned tok
               | None => out = Raised (KeyError "token")
               end
           | Ok _ => exists msg, out = Raised (TypeError msg)
           end
  | _ => False
  end.
Proof.
  cbv zeta. exact (proj2 (wp_run_at o _ h _ (token_wp g i))).
Qed.

(* ================================================================== *)
(** ** Comments *)

(** X6: [notify_stakeholders] submits exactly one request, to the URL it
    was given, with the token in the [Authorization] header and the
    message (and table) as [body]; it never retries.  A failed request is
    the outcome; an answer with status 201 ends the call with nothing
    logged; any other answer leads to at most one more call, the error
    log. *)
Theorem X6_notify_posts_once
    (o : Oracle) (url tok : value) (text : string) (details : option Details)
    (h : list event) :
  let tr := snd (run o (notify_stakeholders url text tok details) h) in
  let out := fst (run o (notify_stakeholders url text tok details) h) in
  exists r rest,
    tr = Ev (HttpPost url
               [ ("Authorization", "token " +++ py_str tok); accept_header ]
               (Some (VDict [ ("body", VStr (comment_body text details)) ]))) r
         :: rest /\
    match r with
    | Err e => rest = [] /\ out = Raised e
    | Ok response =>
        if status_code response =? 201
        then rest = [] /\ out = Returned tt
        else match json response with
             | Ok body =>
                 rest = [ Ev (LogError (mkLog ("Failed to comment on PR: "
                                               +++ py_str body) None)) tt ] /\
                 out = Returned tt
             | Err e => rest = [] /\ out = Raised e
             end
    end.
Proof.
  cbv zeta. unfold notify_stakeholders, call, response_json, perform.
  cbn [bind run fst snd].
  destruct (o (result Response) h _) as [response | e]; cbn [bind run fst snd].
  - destruct (status_code response =? 201) eqn:E; cbn [negb bind run fst snd].
    + exists (Ok response), []. rewrite E. repeat split.
    + destruct (json response) as [body | e] eqn:Ej; cbn [bind run fst snd].
      * destruct (o unit _ _). eexists (Ok response), _. rewrite E, Ej.
        repeat split.
      * exists (Ok response), []. rewrite E, Ej. repeat split.
  - exists (Err e), []. repeat split.
Qed.

Lemma append_assoc (a b c : string) : (a +++ b) +++ c = a +++ (b +++ c).
Proof. induction a as [| x a IH]; cbn; [reflexivity | rewrite IH; reflexivity]. Qed.

Lemma append_nil_r (a : string) : a +++ "" = a.
Proof. induction a as [| x a IH]; cbn; [reflexivity | rewrite IH; reflexivity]. Qed.

Lemma fold_rows (details : Details) (acc : string) :
  fold_left (fun table sd => table +++ table_row (fst sd) (snd sd)) details acc =
  acc +++ table_rows details.
Proof.
  revert acc; induction details as [| [step detail] details IH]; intros acc;
    cbn [fold_left table_rows fst snd].
  - rewrite append_nil_r. reflexivity.
  - rewrite IH, append_assoc. reflexivity.
Qed.

Lemma table_rows_app (d1 d2 : Details) :
  table_rows (d1 ++ d2) = table_rows d1 +++ table_rows d2.
Proof.
  induction d1 as [| [step detail] d1 IH]; cbn [app table_rows]; [reflexivity |].
  rewrite IH, append_assoc. reflexivity.
Qed.

(** X7: the table that [notify_stakeholders] appends is the two header
    lines followed by one row per entry of [details], in insertion order,
    so the table of a report extended by further entries is the old table
    followed by the new rows; without [details], or with an empty dict, the
    comment is the message alone. *)
Theorem X7_table_has_one_row_per_entry (text : string) (d1 d2 : Details) :
  render_table (d1 ++ d2) = render_table d1 +++ table_rows d2 /\
  render_table d1 =
    ("| Step | Status | Details |" +++ nl +++ "|------|--------|---------|" +++ nl)
    +++ table_rows d1 /\
  comment_body text None = text /\
  comment_body text (Some []) = text /\
  (d1 <> [] -> comment_body text (Some d1) = text +++ nl +++ nl +++ render_table d1).
Proof.
  split; [| split; [| split; [| split]]].
  - unfold render_table. rewrite !fold_rows, table_rows_app, append_assoc. reflexivity.
  - unfold render_table. rewrite fold_rows. reflexivity.
  - reflexivity.
  - reflexivity.
  - intros Hne. destruct d1; [contradiction | reflexivity].
Qed.

Lemma X7_table_has_one_row_per_entry_witness :
  let d1 := [ ("Cleanup script", mkDetail "Failed" None) ] in
  d1 <> [] /\
  comment_body "Cleanup process details:" (Some d1) =
  "Cleanup process details:" +++ nl +++ nl +++ render_table d1.
Proof.
  intros d1. assert (Hne : d1 <> []) by discriminate.
  split; [exact Hne |].
  exact (proj2 (proj2 (proj2 (proj2
           (X7_table_has_one_row_per_entry "Cleanup process details:" d1 [])))) Hne).
Defined.

(* ================================================================== *)
(** ** Pattern extraction from the script output *)

Lemma strip_prefix_sound (p s rest : string) :
  strip_prefix p s = Some rest -> s = p +++ rest.
Proof.
  revert s; induction p as [| a p IH]; intros s H; cbn in *.
  - injection H as <-. reflexivity.
  - destruct s as [| b s]; [discriminate |].
    destruct (Ascii.eqb_spec a b) as [<- | _]; [| discriminate].
    rewrite (IH _ H). reflexivity.
Qed.

Lemma strip_prefix_append (p rest : string) :
  strip_prefix p (p +++ rest) = Some rest.
Proof.
  induction p as [| a p IH]; cbn; [reflexivity |].
  rewrite Ascii.eqb_refl. exact IH.
Qed.

Lemma take_non_space_split (s : string) :
  exists rest,
    s = take_non_space s +++ rest /\
    no_space (take_non_space s) = true /\
    (rest = "" \/ exists c r, rest = String c r /\ is_space c = true).
Proof.
  induction s as [| c s (rest & Hs & Hn & Hr)]; cbn [take_non_space].
  - exists "". repeat split. left. reflexivity.
  - destruct (is_space c) eqn:E.
    + exists (String c s). repeat split. right. exists c, s. split; [reflexivity | exact E].
    + exists rest. cbn [String.append no_space]. rewrite E, Hn, <- Hs.
      repeat split. exact Hr.
Qed.

Lemma match_here_sound (lit glit s grp : string) :
  match_here lit glit s = Some grp ->
  exists tok rest,
    s = lit +++ glit +++ tok +++ rest /\
    grp = glit +++ tok /\
    tok <> "" /\
    no_space tok = true /\
    (rest = "" \/ exists c r, rest = String c r /\ is_space c = true).
Proof.
  unfold match_here. intros H.
  destruct (strip_prefix (lit +++ glit) s) as [after |] eqn:Ep; [| discriminate].
  apply strip_prefix_sound in Ep.
  destruct (take_non_space_split after) as (rest & Hs & Hn & Hr).
  destruct (take_non_space after) as [| c tok] eqn:Et; [discriminate |].
  injection H as <-.
  exists (String c tok), rest. rewrite Ep, Hs, append_assoc.
  repeat split; [discriminate | exact Hn | exact Hr].
Qed.

(** X8: what the runner extracts from the script output really stands
    there: a value found by the pattern [lit(glit[^\s]+)] is [glit]
    followed by a non-empty run of non-whitespace characters, it occurs in
    the output right after [lit], and it is the whole run (it is followed
    by whitespace or by the end of the output).  In particular every
    deployment URL starts with [http://] and has at least one more
    character. *)
Theorem X8_extracted_value_occurs_in_output (lit glit s grp : string) :
  re_search lit glit s = Some grp ->
  exists before tok rest,
    s = before +++ lit +++ glit +++ tok +++ rest /\
    grp = glit +++ tok /\
    tok <> "" /\
    no_space tok = true /\
    (rest = "" \/ exists c r, rest = String c r /\ is_space c = true).
Proof.
  induction s as [| a s IH]; cbn [re_search]; intros H.
  - destruct (match_here lit glit "") as [g |] eqn:Em; [| discriminate].
    injection H as <-.
    destruct (match_here_sound _ _ _ _ Em) as (tok & rest & H1 & H2 & H3 & H4 & H5).
    exists "", tok, rest. repeat split; assumption.
  - destruct (match_here lit glit (String a s)) as [g |] eqn:Em.
    + injection H as <-.
      destruct (match_here_sound _ _ _ _ Em) as (tok & rest & H1 & H2 & H3 & H4 & H5).
      exists "", tok, rest. repeat split; assumption.
    + destruct (IH H) as (before & tok & rest & H1 & H2 & H3 & H4 & H5).
      exists (String a before), tok, rest. cbn [String.append]. rewrite <- H1.
      repeat split; assumption.
Qed.

Lemma X8_extracted_value_occurs_in_output_witness :
  re_search "Deployment complete: " "http://" sample_output = Some "http://host:8042" /\
  exists before tok rest,
    sample_output = before +++ "Deployment complete: " +++ "http://" +++ tok +++ rest /\
    "http://host:8042" = "http://" +++ tok /\
    tok <> "" /\
    no_space tok = true /\
    (rest = "" \/ exists c r, rest = String c r /\ is_space c = true).
Proof.
  assert (H : re_search "Deployment complete: " "http://" sample_output
              = Some "http://host:8042") by (vm_compute; reflexivity).
  split; [exact H |].
  exact (X8_extracted_value_occurs_in_output _ _ _ _ H).
Defined.

Lemma take_non_space_cons (c : ascii) (r : string) :
  is_space c = false -> take_non_space (String c r) <> "".
Proof. intros E. cbn. rewrite E. discriminate. Qed.

(** X9: the extraction misses nothing: whenever the output holds [lit],
    [glit] and then a character that is not whitespace, a value is found.
    So the deployment link is absent only when the output has no
    [Deployment complete: http://] followed by a non-whitespace
    character. *)
Theorem X9_extraction_finds_every_occurrence
    (lit glit before rest : string) (c : ascii) :
  is_space c = false ->
  exists grp,
    re_search lit glit (before +++ lit +++ glit +++ String c rest) = Some grp.
Proof.
  intros Hc. induction before as [| a before IH]; cbn [String.append].
  - assert (Hm : exists grp,
               match_here lit glit (lit +++ glit +++ String c rest) = Some grp).
    { unfold match_here. rewrite <- append_assoc, strip_prefix_append.
      destruct (take_non_space (String c rest)) eqn:E.
      - exfalso. exact (take_non_space_cons c rest Hc E).
      - eexists. reflexivity. }
    destruct Hm as (grp & Hm).
    destruct (lit +++ glit +++ String c rest) as [| x y] eqn:Es;
      cbn [re_search]; rewrite Hm; eexists; reflexivity.
  - cbn [re_search].
    destruct (match_here lit glit (String a (before +++ lit +++ glit +++ String c rest))).
    + eexists. reflexivity.
    + exact IH.
Qed.

Lemma X9_extraction_finds_every_occurrence_witness :
  is_space "h" = false /\
  exists grp,
    re_search "Container name: " ""
      ("log line" +++ "Container name: " +++ "" +++ String "h" "ost and more") = Some grp.
Proof.
  split; [reflexivity |].
  exact (X9_extraction_finds_every_occurrence "Container name: " "" "log line"
           "ost and more" "h" eq_refl).
Defined.

(* ================================================================== *)
(** ** The attachment name *)

Lemma contains_char_append (c : ascii) (a b : string) :
  contains_char c (a +++ b) = contains_char c a || contains_char c b.
Proof.
  induction a as [| x a IH]; cbn; [reflexivity |].
  rewrite IH, orb_assoc. reflexivity.
Qed.

Lemma basename_from_no_slash (s acc : string) :
  contains_char "/" s = false -> basename_from s acc = acc.
Proof.
  revert acc; induction s as [| c s IH]; intros acc H; cbn in *; [reflexivity |].
  apply orb_false_elim in H. destruct H as [Hc Hs]. rewrite Hc. apply IH. exact Hs.
Qed.

Lemma basename_from_slash (dir name acc : string) :
  basename_from (dir +++ String "/" name) acc = basename_from name name.
Proof.
  revert acc; induction dir as [| c dir IH]; intros acc; cbn.
  - reflexivity.
  - destruct (Ascii.eqb c "/"); apply IH.
Qed.

Lemma basename_from_clean (s before : string) :
  contains_char "/" before = false ->
  contains_char "/" (basename_from s (before +++ s)) = false.
Proof.
  revert before; induction s as [| c s IH]; intros before Hb; cbn [basename_from].
  - rewrite append_nil_r. exact Hb.
  - destruct (Ascii.eqb c "/") eqn:E.
    + apply (IH ""). reflexivity.
    + replace (before +++ String c s) with ((before +++ String c "") +++ s)
        by (rewrite append_assoc; reflexivity).
      apply IH. rewrite contains_char_append, Hb. cbn. rewrite E. reflexivity.
Qed.

(** X10: the file name that [send_email] puts into the
    [Content-Disposition] header never holds a slash; it is the path itself
    when the path has none, and what follows the last slash otherwise.  So
    for a branch name with a slash the attachment is named after the part
    behind it only. *)
Theorem X10_basename_is_the_last_component (dir name : string) :
  contains_char "/" (basename dir) = false /\
  (contains_char "/" name = false ->
   basename name = name /\ basename (dir +++ String "/" name) = name).
Proof.
  split.
  - exact (basename_from_clean dir "" eq_refl).
  - intros Hn. unfold basename. rewrite basename_from_slash.
    rewrite !(basename_from_no_slash name name Hn). split; reflexivity.
Qed.

Lemma X10_basename_is_the_last_component_witness :
  contains_char "/" "x_42.txt" = false /\
  basename (deployment_log_path (VStr "feature/x") (VInt 42)) = "x_42.txt".
Proof.
  split; [reflexivity |].
  exact (proj2 (proj2 (X10_basename_is_the_last_component
                         "/tmp/deployment_log_feature" "x_42.txt") eq_refl)).
Defined.

(* ================================================================== *)
(** ** The calls of [send_email] *)

Ltac prefix_at n :=
  exists n; split; [lia |];
  split; [reflexivity | first [left; reflexivity | right; eexists; reflexivity]].

Ltac prefix_length :=
  first [ prefix_at 1%nat | prefix_at 2%nat | prefix_at 3%nat | prefix_at 4%nat
        | prefix_at 5%nat | prefix_at 6%nat | prefix_at 7%nat | prefix_at 8%nat ].

Lemma send_email_order_wp (g : Globals) (to : option string)
    (subject body path : string) :
  wp (send_email g to subject body path) []
     (fun tr out =>
        (exists n, (1 <= n <= 8)%nat /\
                   map call_name tr = firstn n send_email_steps /\
                   (n = 8%nat \/ exists e, out = Raised e)) /\
        closed tr = [] /\
        (out = Returned tt ->
         exists payload text,
           tr = [ Ev (FileOpen path "rb") (Ok tt);
                  Ev (FileRead path) (Ok payload);
                  Ev (SmtpConnect (SMTP_SERVER g) (SMTP_PORT g)) (Ok tt);
                  Ev SmtpStartTls (Ok tt);
                  Ev (SmtpLogin (SMTP_USERNAME g) (SMTP_PASSWORD g)) (Ok tt);
                  Ev (MimeAsString
                        (mkEmail (SMTP_USERNAME g) to subject body
                           ("attachment; filename= " +++ basename path) payload))
                     (Ok text);
                  Ev (SmtpSendmail (SMTP_USERNAME g) to text) (Ok tt);
                  Ev SmtpQuit (Ok tt) ])).
Proof.
  unfold_program. wp_go.
  all: split; [prefix_length | split; [reflexivity |]].
  all: intros H; try discriminate.
  eexists. eexists. reflexivity.
Qed.

(** X11: when [send_email] returns, it has done exactly eight things, in
    this order: opened the attachment for reading, read it, connected to
    [SMTP_SERVER]:[SMTP_PORT], started TLS, logged in as [SMTP_USERNAME]
    with [SMTP_PASSWORD], composed the message (sender [SMTP_USERNAME],
    the given recipient, subject and body, the content read as attachment
    named by the path's base name), sent that text from [SMTP_USERNAME] to
    the recipient, and quit. *)
Theorem X11_send_email_delivers_the_file
    (o : Oracle) (g : Globals) (to : option string) (subject body path : string)
    (h : list event) :
  fst (run o (send_email g to subject body path) h) = Returned tt ->
  exists payload text,
    snd (run o (send_email g to subject body path) h) =
    [ Ev (FileOpen path "rb") (Ok tt);
      Ev (FileRead path) (Ok payload);
      Ev (SmtpConnect (SMTP_SERVER g) (SMTP_PORT g)) (Ok tt);
      Ev SmtpStartTls (Ok tt);
      Ev (SmtpLogin (SMTP_USERNAME g) (SMTP_PASSWORD g)) (Ok tt);
      Ev (MimeAsString
            (mkEmail (SMTP_USERNAME g) to subject body
               ("attachment; filename= " +++ basename path) payload))
         (Ok text);
      Ev (SmtpSendmail (SMTP_USERNAME g) to text) (Ok tt);
      Ev SmtpQuit (Ok tt) ].
Proof.
  intros H.
  exact (proj2 (proj2 (wp_run_at o _ h _ (send_email_order_wp g to subject body path))) H).
Qed.

Lemma X11_send_email_delivers_the_file_witness :
  let o := scripted all_well in
  let path := "/tmp/cleanup_log_feature-x_42.txt" in
  fst (run o (send_email sample_globals (Some "team@example.org") "Cleanup Log"
                "Please find the attached cleanup log." path) []) = Returned tt /\
  exists payload text,
    snd (run o (send_email sample_globals (Some "team@example.org") "Cleanup Log"
                  "Please find the attached cleanup log." path) []) =
    [ Ev (FileOpen path "rb") (Ok tt);
      Ev (FileRead path) (Ok payload);
      Ev (SmtpConnect (SMTP_SERVER sample_globals) (SMTP_PORT sample_globals)) (Ok tt);
      Ev SmtpStartTls (Ok tt);
      Ev (SmtpLogin (SMTP_USERNAME sample_globals) (SMTP_PASSWORD sample_globals)) (Ok tt);
      Ev (MimeAsString
            (mkEmail (SMTP_USERNAME sample_globals) (Some "team@example.org")
               "Cleanup Log" "Please find the attached cleanup log."
               ("attachment; filename= " +++ basename path) payload))
         (Ok text);
      Ev (SmtpSendmail (SMTP_USERNAME sample_globals) (Some "team@example.org") text)
         (Ok tt);
      Ev SmtpQuit (Ok tt) ].
Proof.
  intros o path.
  assert (H : fst (run o (send_email sample_globals (Some "team@example.org")
                            "Cleanup Log" "Please find the attached cleanup log." path) [])
              = Returned tt) by (vm_compute; reflexivity).
  split; [exact H |].
  exact (X11_send_email_delivers_the_file o sample_globals (Some "team@example.org")
           "Cleanup Log" "Please find the attached cleanup log." path [] H).
Defined.

Ltac stopped_at n :=
  right; exists n; eexists; split; [lia | split; reflexivity].

Ltac stopped :=
  first [ stopped_at 0%nat | stopped_at 1%nat | stopped_at 2%nat | stopped_at 3%nat
        | stopped_at 4%nat | stopped_at 5%nat | stopped_at 6%nat | stopped_at 7%nat ].

Ltac no_sendmail :=
  let ev := fresh "ev" in
  let Hin := fresh "Hin" in
  let Hs := fresh "Hs" in
  intros ev Hin Hs; cbn [In] in Hin;
  repeat (destruct Hin as [Hin | Hin]; [subst ev; try discriminate Hs |]);
  try contradiction.

Lemma send_email_results_wp (g : Globals) (to : option string)
    (subject body path : string) :
  wp (send_email g to subject body path) []
     (fun tr out =>
        (exists payload text,
           let steps := send_email_events g to subject body path payload text in
           (tr = steps /\ out = Returned tt) \/
           (exists n e, (n < 8)%nat /\
              tr = firstn n steps ++ [fail_with e (nth n steps (Ev SmtpQuit (Ok tt)))] /\
              out = Raised e)) /\
        (forall ev, In ev tr -> is_sendmail ev = true ->
           exists payload text,
             firstn 6 tr =
             firstn 6 (send_email_events g to subject body path payload text))).
Proof.
  unfold_program. wp_go.
  all: split;
    [ first [ exists "", ""; cbv zeta; stopped
            | eexists; exists ""; cbv zeta; stopped
            | eexists; eexists; cbv zeta; first [left; split; reflexivity | stopped] ]
    | no_sendmail; eexists; eexists; reflexivity ].
Qed.

(** X12: whatever the environment answers, [send_email] makes its eight
    calls (open, read, connect, starttls, login, compose, sendmail, quit)
    in this order, each only after every earlier one was answered without
    an exception, and it stops at the first call that fails, whose
    exception is its outcome.  So the message is handed to [sendmail] only
    after the attachment was opened and read, the connection made, TLS
    started and the login accepted, and composing it succeeded.  Nothing
    is tried twice, and the attachment file is never closed. *)
Theorem X12_send_email_order
    (o : Oracle) (g : Globals) (to : option string) (subject body path : string)
    (h : list event) :
  let tr := snd (run o (send_email g to subject body path) h) in
  let out := fst (run o (send_email g to subject body path) h) in
  (exists payload text,
     let steps := send_email_events g to subject body path payload text in
     (tr = steps /\ out = Returned tt) \/
     (exists n e, (n < 8)%nat /\
        tr = firstn n steps ++ [fail_with e (nth n steps (Ev SmtpQuit (Ok tt)))] /\
        out = Raised e)) /\
  (forall ev, In ev tr -> is_sendmail ev = true ->
     exists payload text,
       firstn 6 tr = firstn 6 (send_email_events g to subject body path payload text)) /\
  (exists n, (1 <= n <= 8)%nat /\
             map call_name tr = firstn n send_email_steps /\
             (n = 8%nat \/ exists e, out = Raised e)) /\
  closed tr = [].
Proof.
  cbv zeta.
  destruct (wp_run_at o _ h _ (send_email_results_wp g to subject body path))
    as (H1 & H2).
  destruct (wp_run_at o _ h _ (send_email_order_wp g to subject body path))
    as (H3 & H4 & _).
  split; [exact H1 |]. split; [exact H2 |]. split; assumption.
Qed.

Lemma X12_send_email_order_witness :
  let refused := OtherError "SMTPRecipientsRefused" "team@example.org" in
  let o := scripted (with_sendmail (Err refused) all_well) in
  let path := "/tmp/cleanup_log_feature-x_42.txt" in
  let tr := snd (run o (send_email sample_globals (Some "team@example.org") "Cleanup Log"
                          "Please find the attached cleanup log." path) []) in
  let ev := Ev (SmtpSendmail (Some "bot@example.org") (Some "team@example.org")
                  "Cleanup Log") (Err refused) in
  In ev tr /\ is_sendmail ev = true /\
  exists payload text,
    firstn 6 tr =
    firstn 6 (send_email_events sample_globals (Some "team@example.org") "Cleanup Log"
                "Please find the attached cleanup log." path payload text).
Proof.
  intros refused o path tr ev.
  assert (Hin : In ev tr) by (vm_compute; tauto).
  split; [exact Hin |]. split; [reflexivity |].
  exact (proj1 (proj2 (X12_send_email_order o sample_globals (Some "team@example.org")
                         "Cleanup Log" "Please find the attached cleanup log." path []))
           ev Hin eq_refl).
Defined.

(* ================================================================== *)
(** ** The module body *)

Lemma load_module_full_wp :
  wp load_module []
     (fun tr out =>
        (forall g, out = Returned g ->
           exists path pem,
             PRIVATE_KEY_PATH g = Some path /\
             tr = [ Ev (Getenv "WEBHOOK_SECRET") (WEBHOOK_SECRET g);
                    Ev (Getenv "APP_ID") (APP_ID g);
                    Ev (Getenv "PRIVATE_KEY_PATH") (PRIVATE_KEY_PATH g);
                    Ev (Getenv "SMTP_SERVER") (SMTP_SERVER g);
                    Ev (Getenv "SMTP_PORT") (SMTP_PORT g);
                    Ev (Getenv "SMTP_USERNAME") (SMTP_USERNAME g);
                    Ev (Getenv "SMTP_PASSWORD") (SMTP_PASSWORD g);
                    Ev (Getenv "RECIPIENT_EMAIL") (RECIPIENT_EMAIL g);
                    Ev (FileOpen path "r") (Ok tt);
                    Ev (FileRead path) (Ok pem);
                    Ev (LoadPem (string_of_bytes (utf8_encode pem))) (Ok (private_key g));
                    Ev (FileClose path) (Ok tt) ]) /\
        closed tr = opened tr /\
        (assoc "PRIVATE_KEY_PATH" (getenvs tr) = Some None ->
         out = Raised (TypeError "expected str, bytes or os.PathLike object, not NoneType")
         /\ filter is_file_access tr = [] /\ loaded_keys tr = [])).
Proof.
  unfold load_module, with_open. wp_go.
  all: split; [intros g0 Hg; try discriminate | split; [reflexivity |]].
  all: try (intros Hp; try discriminate Hp; repeat split; reflexivity).
  all: injection Hg as <-; eexists; eexists; split; reflexivity.
Qed.

(** X13: when the module body completes, every configuration global holds
    what [os.getenv] returned for its variable, each read once and in the
    order of the source; [PRIVATE_KEY_PATH] was set, and [private_key] is
    what [load_pem_private_key] made of the UTF-8 bytes of that file, which
    was opened for reading once and closed again. *)
Theorem X13_module_globals_come_from_the_environment (o : Oracle) (g : Globals) :
  fst (run o load_module []) = Returned g ->
  exists path pem,
    PRIVATE_KEY_PATH g = Some path /\
    snd (run o load_module []) =
    [ Ev (Getenv "WEBHOOK_SECRET") (WEBHOOK_SECRET g);
      Ev (Getenv "APP_ID") (APP_ID g);
      Ev (Getenv "PRIVATE_KEY_PATH") (PRIVATE_KEY_PATH g);
      Ev (Getenv "SMTP_SERVER") (SMTP_SERVER g);
      Ev (Getenv "SMTP_PORT") (SMTP_PORT g);
      Ev (Getenv "SMTP_USERNAME") (SMTP_USERNAME g);
      Ev (Getenv "SMTP_PASSWORD") (SMTP_PASSWORD g);
      Ev (Getenv "RECIPIENT_EMAIL") (RECIPIENT_EMAIL g);
      Ev (FileOpen path "r") (Ok tt);
      Ev (FileRead path) (Ok pem);
      Ev (LoadPem (string_of_bytes (utf8_encode pem))) (Ok (private_key g));
      Ev (FileClose path) (Ok tt) ].
Proof.
  intros H. exact (proj1 (wp_run_at o _ [] _ load_module_full_wp) g H).
Qed.

Lemma X13_module_globals_come_from_the_environment_witness :
  fst (run (scripted all_well) load_module []) = Returned sample_globals /\
  exists path pem,
    PRIVATE_KEY_PATH sample_globals = Some path /\
    snd (run (scripted all_well) load_module []) =
    [ Ev (Getenv "WEBHOOK_SECRET") (WEBHOOK_SECRET sample_globals);
      Ev (Getenv "APP_ID") (APP_ID sample_globals);
      Ev (Getenv "PRIVATE_KEY_PATH") (PRIVATE_KEY_PATH sample_globals);
      Ev (Getenv "SMTP_SERVER") (SMTP_SERVER sample_globals);
      Ev (Getenv "SMTP_PORT") (SMTP_PORT sample_globals);
      Ev (Getenv "SMTP_USERNAME") (SMTP_USERNAME sample_globals);
      Ev (Getenv "SMTP_PASSWORD") (SMTP_PASSWORD sample_globals);
      Ev (Getenv "RECIPIENT_EMAIL") (RECIPIENT_EMAIL sample_globals);
      Ev (FileOpen path "r") (Ok tt);
      Ev (FileRead path) (Ok pem);
      Ev (LoadPem (string_of_bytes (utf8_encode pem))) (Ok (private_key sample_globals));
      Ev (FileClose path) (Ok tt) ].
Proof.
  assert (H : fst (run (scripted all_well) load_module []) = Returned sample_globals)
    by (vm_compute; reflexivity).
  split; [exact H |].
  exact (X13_module_globals_come_from_the_environment (scripted all_well)
           sample_globals H).
Defined.

(** X14: the only variable whose absence stops the module body is
    [PRIVATE_KEY_PATH]: without it the import fails with [TypeError] after
    the eight reads, before any file is touched and before any key is
    parsed (a missing [WEBHOOK_SECRET] or [APP_ID] is not noticed here).
    On every path, a key file that was opened is closed again. *)
Theorem X14_module_body_needs_the_key_path (o : Oracle) :
  let tr := snd (run o load_module []) in
  let out := fst (run o load_module []) in
  closed tr = opened tr /\
  (assoc "PRIVATE_KEY_PATH" (getenvs tr) = Some None ->
   out = Raised (TypeError "expected str, bytes or os.PathLike object, not NoneType") /\
   filter is_file_access tr = [] /\
   loaded_keys tr = []).
Proof.
  cbv zeta. exact (proj2 (wp_run_at o _ [] _ load_module_full_wp)).
Qed.

Lemma X14_module_body_needs_the_key_path_witness :
  let o := scripted (mkScenario [] 0 token_issued (fun _ => created)
                       (Ok (mkCompleted 0 None None)) (fun _ => "") (Ok tt)) in
  assoc "PRIVATE_KEY_PATH" (getenvs (snd (run o load_module []))) = Some None /\
  fst (run o load_module []) =
  Raised (TypeError "expected str, bytes or os.PathLike object, not NoneType").
Proof.
  intros o.
  assert (H : assoc "PRIVATE_KEY_PATH" (getenvs (snd (run o load_module []))) = Some None)
    by (vm_compute; reflexivity).
  split; [exact H |].
  exact (proj1 (proj2 (X14_module_body_needs_the_key_path o) H)).
Defined.

(* ================================================================== *)
(** ** The runners and their log file *)

Lemma run_deployment_script_files_wp (g : Globals) (b n : value) :
  wp (run_deployment_script g b n) []
     (fun tr out =>
        ((opened tr = [] /\ closed tr = [] /\ commands tr = [] /\ writes tr = []) \/
         (opened tr = [deployment_log_path b n] /\
          closed tr = [deployment_log_path b n] /\
          commands tr = [([VStr "./deploy.sh"; b; VStr (py_str n)], CaptureText)])) /\
        (no_stray_process_error tr = true ->
        match process_results tr with
        | [] => writes tr = []
        | [p] =>
            if returncode p =? 0 then
              match stdout p with
              | Some text => writes tr = [(deployment_log_path b n, text)]
              | None => writes tr = []
              end
            else
              writes tr = [(deployment_log_path b n,
                            "Deployment script failed with error: "
                            +++ py_str (opt_value (stderr p)))]
        | _ => False
        end)).
Proof.
  unfold_program. wp_cases.
  all: split; [first [left; repeat split; reflexivity | right; repeat split; reflexivity] |].
  all: intros Hsane; first [discriminate Hsane | reflexivity | congruence].
Qed.

Lemma run_cleanup_script_files_wp (g : Globals) (b n : value) :
  wp (run_cleanup_script g b n) []
     (fun tr out =>
        ((opened tr = [] /\ closed tr = [] /\ commands tr = [] /\ writes tr = []) \/
         (opened tr = [cleanup_log_path b n] /\
          closed tr = [cleanup_log_path b n] /\
          commands tr = [([VStr "./cleanup.sh"; b; VStr (py_str n)],
                          ToFile (cleanup_log_path b n))])) /\
        (no_stray_process_error tr = true ->
        match process_results tr with
        | [] => writes tr = []
        | [p] =>
            if returncode p =? 0 then writes tr = []
            else
              writes tr = [(cleanup_log_path b n,
                            "Cleanup script failed with error: "
                            +++ py_str (opt_value (stderr p)))]
        | _ => False
        end)).
Proof.
  unfold_program. wp_cases.
  all: split; [first [left; repeat split; reflexivity | right; repeat split; reflexivity] |].
  all: intros Hsane; first [discriminate Hsane | reflexivity | congruence].
Qed.

(** Instantiates the shape of a session from the trace at hand: the
    events but the first two and the last are the middle. *)
Ltac session_shape :=
  unfold log_session;
  first
    [ left; eexists; split; reflexivity
    | right;
      lazymatch goal with
      | |- exists r mid rc, _ :: Ev _ ?r0 :: ?rest = _ /\ _ =>
          let mid0 := eval cbn in (removelast rest) in
          exists r0, mid0; eexists; split; reflexivity
      end ].

Lemma run_deployment_script_session_wp (g : Globals) (b n : value) :
  wp (run_deployment_script g b n) []
     (log_session (deployment_log_path b n)
        [VStr "./deploy.sh"; b; VStr (py_str n)] CaptureText).
Proof. unfold_program. wp_go. all: session_shape. Qed.

Lemma run_cleanup_script_session_wp (g : Globals) (b n : value) :
  wp (run_cleanup_script g b n) []
     (log_session (cleanup_log_path b n)
        [VStr "./cleanup.sh"; b; VStr (py_str n)] (ToFile (cleanup_log_path b n))).
Proof. unfold_program. wp_go. all: session_shape. Qed.

(** X15: every run of a runner has the shape of [log_session].  Its first
    call opens the log file for writing; when that fails the exception is
    the outcome and nothing else happens (no script, no write).  When the
    file is open, the very next call starts the script, [./deploy.sh] with
    captured text output or [./cleanup.sh] with both streams sent to the
    log file, with the branch and [str(pr_number)] as arguments; the last
    call closes the log file, on every path, also when the script cannot
    be started and when [NameError] ends the runner; and between the two
    no process is started and no file is opened or closed, so the script
    runs exactly once and whatever is written is written while the file
    is open. *)
Theorem X15_runners_open_run_once_and_close
    (o : Oracle) (g : Globals) (b n : value) (h : list event) :
  log_session (deployment_log_path b n)
    [VStr "./deploy.sh"; b; VStr (py_str n)] CaptureText
    (snd (run o (run_deployment_script g b n) h))
    (fst (run o (run_deployment_script g b n) h)) /\
  log_session (cleanup_log_path b n)
    [VStr "./cleanup.sh"; b; VStr (py_str n)] (ToFile (cleanup_log_path b n))
    (snd (run o (run_cleanup_script g b n) h))
    (fst (run o (run_cleanup_script g b n) h)).
Proof.
  split.
  - exact (wp_run_at o _ h _ (run_deployment_script_session_wp g b n)).
  - exact (wp_run_at o _ h _ (run_cleanup_script_session_wp g b n)).
Qed.

(** X16: what the runners write to the log file themselves, in an
    environment where [CalledProcessError] comes from the exit status of
    the script only.  The deploy runner writes the captured standard
    output when the script exits 0; when it exits with another status it
    writes only [Deployment script failed with error: ] and the captured
    error stream, so the standard output of a failed script is lost.  The
    cleanup runner writes nothing on success (the script's streams go to
    the file directly) and on failure [Cleanup script failed with error: ]
    followed by [str] of the error stream the exception carries. *)
Theorem X16_what_is_written_to_the_log
    (o : Oracle) (g : Globals) (b n : value) (h : list event) :
  let d := snd (run o (run_deployment_script g b n) h) in
  let c := snd (run o (run_cleanup_script g b n) h) in
  (no_stray_process_error d = true ->
   match process_results d with
   | [] => writes d = []
   | [p] =>
       if returncode p =? 0 then
         match stdout p with
         | Some text => writes d = [(deployment_log_path b n, text)]
         | None => writes d = []
         end
       else
         writes d = [(deployment_log_path b n,
                      "Deployment script failed with error: "
                      +++ py_str (opt_value (stderr p)))]
   | _ => False
   end) /\
  (no_stray_process_error c = true ->
   match process_results c with
   | [] => writes c = []
   | [p] =>
       if returncode p =? 0 then writes c = []
       else
         writes c = [(cleanup_log_path b n,
                      "Cleanup script failed with error: "
                      +++ py_str (opt_value (stderr p)))]
   | _ => False
   end).
Proof.
  cbv zeta. split.
  - exact (proj2 (wp_run_at o _ h _ (run_deployment_script_files_wp g b n))).
  - exact (proj2 (wp_run_at o _ h _ (run_cleanup_script_files_wp g b n))).
Qed.

Lemma X16_what_is_written_to_the_log_witness :
  let o := scripted (with_process (Ok (mkCompleted 2 None None)) all_well) in
  let c := snd (run o (run_cleanup_script sample_globals (VStr "feature-x") (VInt 42)) []) in
  no_stray_process_error c = true /\
  writes c = [("/tmp/cleanup_log_feature-x_42.txt",
               "Cleanup script failed with error: None")].
Proof.
  intros o c.
  assert (H : no_stray_process_error c = true) by (vm_compute; reflexivity).
  split; [exact H |].
  exact (proj2 (X16_what_is_written_to_the_log o sample_globals (VStr "feature-x")
                  (VInt 42) []) H).
Defined.

(* ================================================================== *)
(** ** Payloads the handler cannot read *)

(** X17: after the signature check the body is parsed before anything
    else.  When [request.json] raises, that exception leaves [webhook];
    when the body is JSON but not an object (a list, a string, a number,
    [null]), [data.get] raises an [AttributeError].  In both cases no
    external call was made, and the exception is not turned into one of
    the handler's own replies. *)
Theorem X17_body_must_be_a_json_object
    (o : Oracle) (g : Globals) (request : Request) (h : list event) :
  validly_signed g request ->
  (forall e, json_body request = Err e ->
     run o (webhook g request) h = (Raised e, [])) /\
  (forall payload, json_body request = Ok payload ->
     (forall d, payload <> VDict d) ->
     exists msg,
       run o (webhook g request) h = (Raised (AttributeError msg), [])).
Proof.
  unfold validly_signed. intros Hsig. unfold webhook, webhook_with. rewrite Hsig.
  split.
  - intros e He. rewrite He. reflexivity.
  - intros payload Hp Hnd. rewrite Hp.
    destruct payload as [| | | | | d |]; try (eexists; reflexivity).
    exfalso. exact (Hnd d eq_refl).
Qed.

Lemma X17_body_must_be_a_json_object_witness :
  let payload := VList [sample_payload "opened" false] in
  let request := signed_request "s3cret" payload in
  validly_signed sample_globals request /\
  json_body request = Ok payload /\
  (forall d, payload <> VDict d) /\
  exists msg,
    run (scripted all_well) (webhook sample_globals request) [] =
    (Raised (AttributeError msg), []).
Proof.
  intros payload request.
  assert (Hsig : validly_signed sample_globals request)
    by (apply signed_request_valid; reflexivity).
  assert (Hnd : forall d, payload <> VDict d) by (intros d; discriminate).
  split; [exact Hsig |]. split; [reflexivity |]. split; [exact Hnd |].
  exact (proj2 (X17_body_must_be_a_json_object (scripted all_well) sample_globals
                  request [] Hsig) payload eq_refl Hnd).
Defined.

Lemma incomplete_payload_raises
    (o : Oracle) (deploy : DeployRunner) (cleanup : CleanupRunner) (g : Globals)
    (request : Request) (d : list (string * value)) (pr : value) (h : list event) :
  validly_signed g request ->
  json_body request = Ok (VDict d) ->
  assoc "pull_request" d = Some pr ->
  classify (VDict d) = None ->
  exists e, run o (webhook_with deploy cleanup g request) h = (Raised e, []) /\
            match e with
            | KeyError _ | TypeError _ => True
            | _ => False
            end.
Proof.
  unfold validly_signed. intros Hsig Hjson Hpr Hcls.
  unfold webhook_with. rewrite Hsig, Hjson. cbn [bind negb].
  unfold classify, opt_bind in Hcls. cbn [lookup] in Hcls. rewrite Hpr in Hcls.
  unfold dict_get, has_key. rewrite Hpr.
  assert (Hact : forall k : value -> Prog Reply,
            (action <- match assoc "action" d with
                       | Some x => Ret x
                       | None => Ret VNone
                       end ;; k action) =
            k (match assoc "action" d with Some x => x | None => VNone end)).
  { intros k. destruct (assoc "action" d); reflexivity. }
  rewrite Hact. clear Hact.
  unfold subscript at 1. rewrite Hpr. cbn [bind].
  destruct pr as [| | | | | dpr |];
    try (eexists; split; [reflexivity | exact I]).
  cbn [lookup subscript bind] in Hcls |- *.
  destruct (assoc "number" dpr) as [number |];
    [| eexists; split; [reflexivity | exact I]].
  cbn [bind]. unfold subscript at 1.
  destruct (assoc "repository" d) as [repo |];
    [| eexists; split; [reflexivity | exact I]].
  cbn [bind].
  destruct repo as [| | | | | drepo |];
    try (eexists; split; [reflexivity | exact I]).
  cbn [lookup subscript bind] in Hcls |- *.
  destruct (assoc "full_name" drepo) as [full_name |];
    [| eexists; split; [reflexivity | exact I]].
  cbn [bind]. unfold subscript at 1. rewrite Hpr. cbn [bind subscript].
  destruct (assoc "head" dpr) as [head |];
    [| eexists; split; [reflexivity | exact I]].
  cbn [bind].
  destruct head as [| | | | | dhead |];
    try (eexists; split; [reflexivity | exact I]).
  cbn [lookup subscript bind] in Hcls |- *.
  destruct (assoc "ref" dhead) as [ref |];
    [| eexists; split; [reflexivity | exact I]].
  cbn [bind]. unfold subscript at 1.
  destruct (assoc "installation" d) as [inst |];
    [| eexists; split; [reflexivity | exact I]].
  cbn [bind].
  destruct inst as [| | | | | dinst |];
    try (eexists; split; [reflexivity | exact I]).
  cbn [lookup subscript bind] in Hcls |- *.
  destruct (assoc "id" dinst) as [id |];
    [discriminate | eexists; split; [reflexivity | exact I]].
Qed.


(** X18: the four fields are read before the action is looked at.  A
    validly signed payload that has a [pull_request] key but lacks one of
    [pull_request.number], [repository.full_name], [pull_request.head.ref],
    [installation.id] makes [webhook] raise ([KeyError], or [TypeError] when
    a value on the way is not an object), whatever its action is, even one
    the handler would only acknowledge; no external call is made. *)
Theorem X18_incomplete_pull_request_payload_raises
    (o : Oracle) (g : Globals) (request : Request) (d : list (string * value))
    (pr : value) (h : list event) :
  validly_signed g request ->
  json_body request = Ok (VDict d) ->
  assoc "pull_request" d = Some pr ->
  classify (VDict d) = None ->
  exists e, run o (webhook g request) h = (Raised e, []) /\
            match e with
            | KeyError _ | TypeError _ => True
            | _ => False
            end.
Proof.
  intros Hsig Hjson Hpr Hcls.
  exact (incomplete_payload_raises o _ _ g request d pr h Hsig Hjson Hpr Hcls).
Qed.

Lemma X18_incomplete_pull_request_payload_raises_witness :
  let d := [ ("action", VStr "edited");
             ("pull_request", VDict [ ("number", VInt 42) ]) ] in
  let request := signed_request "s3cret" (VDict d) in
  validly_signed sample_globals request /\
  json_body request = Ok (VDict d) /\
  assoc "pull_request" d = Some (VDict [ ("number", VInt 42) ]) /\
  classify (VDict d) = None /\
  exists e, run (scripted all_well) (webhook sample_globals request) [] = (Raised e, []) /\
            match e with
            | KeyError _ | TypeError _ => True
            | _ => False
            end.
Proof.
  intros d request.
  assert (Hsig : validly_signed sample_globals request)
    by (apply signed_request_valid; reflexivity).
  split; [exact Hsig |]. split; [reflexivity |]. split; [reflexivity |].
  split; [reflexivity |].
  exact (X18_incomplete_pull_request_payload_raises (scripted all_well) sample_globals
           request d (VDict [ ("number", VInt 42) ]) [] Hsig eq_refl eq_refl eq_refl).
Defined.

(* ================================================================== *)
(** ** The replies of the handler *)

Lemma verify_signature_pure (g : Globals) (payload : string) (sig : option string) :
  (exists b, verify_signature g payload sig = Ret b) \/
  (exists e, verify_signature g payload sig = Raise e).
Proof.
  unfold verify_signature, compare_digest.
  destruct sig as [sig |]; [| left; eexists; reflexivity].
  destruct (negb (truthy (VStr sig))); [left; eexists; reflexivity |].
  destruct (WEBHOOK_SECRET g); [| right; eexists; reflexivity].
  destruct (is_ascii _ && is_ascii _);
    [left; eexists; reflexivity | right; eexists; reflexivity].
Qed.

Lemma classified_or_not (o : Oracle) (deploy : DeployRunner) (cleanup : CleanupRunner)
    (g : Globals) (request : Request) (h : list event) (reply : Reply) :
  fst (run o (webhook_with deploy cleanup g request) h) = Returned reply ->
  reply = mkReply 401 "Invalid signature" \/
  reply = mkReply 200 "No action taken" \/
  exists payload ev,
    validly_signed g request /\ json_body request = Ok payload /\
    classify payload = Some ev.
Proof.
  intros H.
  destruct (verify_signature_pure g (data request) (signature_header request))
    as [[b Hv] | [e Hv]].
  - destruct b.
    + destruct (json_body request) as [payload | e] eqn:Hj.
      * destruct payload as [| | | | | d |];
          try (unfold webhook_with in H; rewrite Hv, Hj in H; discriminate H).
        destruct (assoc "pull_request" d) as [pr |] eqn:Hpr.
        -- destruct (classify (VDict d)) as [ev |] eqn:Hc.
           ++ right. right. exists (VDict d), ev. repeat split; assumption.
           ++ destruct (incomplete_payload_raises o deploy cleanup g request d pr h
                          Hv Hj Hpr Hc) as (e & He & _).
              rewrite He in H. discriminate H.
        -- right. left. unfold webhook_with in H. rewrite Hv, Hj in H.
           cbn [bind negb] in H. unfold dict_get, has_key in H. rewrite Hpr in H.
           destruct (assoc "action" d); cbn in H; injection H as <-; reflexivity.
      * unfold webhook_with in H. rewrite Hv, Hj in H. discriminate H.
    + left. unfold webhook_with in H. rewrite Hv in H. cbn in H.
      injection H as <-. reflexivity.
  - unfold webhook_with in H. rewrite Hv in H. discriminate H.
Qed.

(** X19: every reply that [webhook] returns is one of four: 401 [Invalid
    signature], 200 [No action taken], 500 [Deployment failed], 500
    [Cleanup failed].  It never answers 200 [Deployment processed] or 200
    [Cleanup processed]: the two runners read unbound names, so the success
    replies of lines 116 and 134 are out of reach. *)
Theorem X19_replies_of_the_handler
    (o : Oracle) (g : Globals) (request : Request) (h : list event) (reply : Reply) :
  fst (run o (webhook g request) h) = Returned reply ->
  In reply [ mkReply 401 "Invalid signature"; mkReply 200 "No action taken";
             mkReply 500 "Deployment failed"; mkReply 500 "Cleanup failed" ].
Proof.
  intros H. unfold webhook in H.
  destruct (classified_or_not o _ _ g request h reply H)
    as [-> | [-> | (payload & ev & Hsig & Hjson & Hcls)]].
  - left. reflexivity.
  - right. left. reflexivity.
  - rewrite (webhook_with_classified _ _ g request payload ev Hsig Hjson Hcls) in H.
    unfold dispatch in H.
    destruct (among (ev_action ev) ["opened"; "synchronize"; "reopened"]).
    + destruct (wp_run_at o _ h _
                  (deploy_blanket_wp g (ev_repo ev) (ev_number ev) (ev_branch ev)
                                     (ev_installation ev))) as ((Hr & _) & _).
      rewrite Hr in H. injection H as <-. right. right. left. reflexivity.
    + destruct (is_str (ev_action ev) "closed").
      * destruct (wp_run_at o _ h _
                    (cleanup_blanket_wp g (ev_repo ev) (ev_number ev) (ev_branch ev)
                                        (ev_installation ev))) as ((Hr & _) & _).
        rewrite Hr in H. injection H as <-. right. right. right. left. reflexivity.
      * cbn in H. injection H as <-. right. left. reflexivity.
Qed.

Lemma X19_replies_of_the_handler_witness :
  let request := signed_request "s3cret" (sample_payload "reopened" false) in
  fst (run (scripted all_well) (webhook sample_globals request) [])
    = Returned (mkReply 500 "Deployment failed") /\
  In (mkReply 500 "Deployment failed")
     [ mkReply 401 "Invalid signature"; mkReply 200 "No action taken";
       mkReply 500 "Deployment failed"; mkReply 500 "Cleanup failed" ].
Proof.
  intros request.
  assert (H : fst (run (scripted all_well) (webhook sample_globals request) [])
              = Returned (mkReply 500 "Deployment failed")).
  { unfold request, webhook. rewrite sample_webhook. vm_compute. reflexivity. }
  split; [exact H |].
  exact (X19_replies_of_the_handler (scripted all_well) sample_globals request []
           (mkReply 500 "Deployment failed") H).
Defined.







(* ================================================================== *)
(** ** The order of the steps *)

(** X21: on the deploy path nothing is started without a token and a
    submitted start notice.  When the token exchange raises, or when the
    start notice raises, the request ends there with 500 [Deployment
    failed]: the trace is that of the steps so far followed by the error
    log, whatever runner is bound to [run_deployment_script], so the
    runner is not called, no further comment is submitted and no mail is
    sent. *)
Theorem X21_deploy_needs_token_and_start_notice
    (o : Oracle) (deploy : DeployRunner) (cleanup : CleanupRunner) (g : Globals)
    (request : Request) (payload : value) (ev : PullRequestEvent) :
  validly_signed g request ->
  json_body request = Ok payload ->
  classify payload = Some ev ->
  among (ev_action ev) ["opened"; "synchronize"; "reopened"] = true ->
  (forall e tr1,
     run o (get_installation_access_token g (ev_installation ev)) [] = (Raised e, tr1) ->
     run o (webhook_with deploy cleanup g request) [] =
     (Returned (mkReply 500 "Deployment failed"),
      tr1 ++ [Ev (LogError (mkLog "Deployment failed: " (Some e))) tt])) /\
  (forall tok tr1 e tr2,
     run o (get_installation_access_token g (ev_installation ev)) [] = (Returned tok, tr1) ->
     run o (notify_stakeholders (VStr (comment_url_of (ev_repo ev) (ev_number ev)))
              "Deployment started for this pull request." tok None) tr1 = (Raised e, tr2) ->
     run o (webhook_with deploy cleanup g request) [] =
     (Returned (mkReply 500 "Deployment failed"),
      (tr1 ++ tr2) ++ [Ev (LogError (mkLog "Deployment failed: " (Some e))) tt])).
Proof.
  intros Hsig Hjson Hcls Ha.
  rewrite (webhook_with_classified deploy cleanup g request payload ev Hsig Hjson Hcls).
  unfold dispatch. rewrite Ha. split.
  - intros e tr1 H1. apply (blanket_converts o "Deployment failed" _ [] tr1 e).
    unfold deploy_path. apply run_bind_raised. exact H1.
  - intros tok tr1 e tr2 H1 H2.
    apply (blanket_converts o "Deployment failed" _ [] (tr1 ++ tr2) e).
    unfold deploy_path. rewrite (run_bind_returned o _ _ [] tr1 tok H1). cbn [app].
    rewrite (run_bind_raised o _ _ tr1 tr2 e H2). reflexivity.
Qed.

Lemma X21_deploy_needs_token_and_start_notice_witness :
  let refused := Ok (mkResponse 401 (Ok (VDict [("message", VStr "Bad credentials")]))) in
  let o := scripted (mkScenario [] 1700000000 refused (fun _ => created)
                       (Ok (mkCompleted 0 (Some sample_output) (Some "")))
                       (fun _ => "log") (Ok tt)) in
  let request := signed_request "s3cret" (sample_payload "opened" false) in
  let ev := mkEvent (VStr "opened") (VInt 42) (VStr "org/app") (VStr "feature-x")
                    (VInt 7) in
  let tr1 := snd (run o (get_installation_access_token sample_globals (VInt 7)) []) in
  validly_signed sample_globals request /\
  json_body request = Ok (sample_payload "opened" false) /\
  classify (sample_payload "opened" false) = Some ev /\
  among (ev_action ev) ["opened"; "synchronize"; "reopened"] = true /\
  run o (get_installation_access_token sample_globals (ev_installation ev)) []
    = (Raised (HTTPError 401), tr1) /\
  run o (webhook_with (stub_deploy (Some "http://host:8042")) stub_cleanup
           sample_globals request) [] =
  (Returned (mkReply 500 "Deployment failed"),
   tr1 ++ [Ev (LogError (mkLog "Deployment failed: " (Some (HTTPError 401)))) tt]).
Proof.
  intros refused o request ev tr1.
  assert (Hsig : validly_signed sample_globals request)
    by (apply signed_request_valid; reflexivity).
  assert (H1 : run o (get_installation_access_token sample_globals (ev_installation ev)) []
               = (Raised (HTTPError 401), tr1)) by (vm_compute; reflexivity).
  split; [exact Hsig |]. split; [reflexivity |]. split; [reflexivity |].
  split; [reflexivity |]. split; [exact H1 |].
  exact (proj1 (X21_deploy_needs_token_and_start_notice o
                  (stub_deploy (Some "http://host:8042")) stub_cleanup sample_globals
                  request (sample_payload "opened" false) ev
                  Hsig eq_refl eq_refl eq_refl) (HTTPError 401) tr1 H1).
Defined.

(** X22: on the cleanup path the runner comes first, before any
    credential is asked for.  When the runner raises, the request ends with
    500 [Cleanup failed] and no token request is made.  When the runner
    returns and the token exchange then raises, the reply is 500 [Cleanup
    failed] as well, although the cleanup has been carried out; no comment
    is submitted and no mail is sent. *)
Theorem X22_cleanup_runs_before_the_token
    (o : Oracle) (deploy : DeployRunner) (cleanup : CleanupRunner) (g : Globals)
    (request : Request) (payload : value) (ev : PullRequestEvent) :
  validly_signed g request ->
  json_body request = Ok payload ->
  classify payload = Some ev ->
  among (ev_action ev) ["opened"; "synchronize"; "reopened"] = false ->
  is_str (ev_action ev) "closed" = true ->
  (forall e tr0,
     run o (cleanup (ev_branch ev) (ev_number ev)) [] = (Raised e, tr0) ->
     run o (webhook_with deploy cleanup g request) [] =
     (Returned (mkReply 500 "Cleanup failed"),
      tr0 ++ [Ev (LogError (mkLog "Cleanup failed: " (Some e))) tt])) /\
  (forall lp tr0 e tr1,
     run o (cleanup (ev_branch ev) (ev_number ev)) [] = (Returned lp, tr0) ->
     run o (get_installation_access_token g (ev_installation ev)) tr0 = (Raised e, tr1) ->
     run o (webhook_with deploy cleanup g request) [] =
     (Returned (mkReply 500 "Cleanup failed"),
      (tr0 ++ tr1) ++ [Ev (LogError (mkLog "Cleanup failed: " (Some e))) tt])).
Proof.
  intros Hsig Hjson Hcls Ha Hc.
  rewrite (webhook_with_classified deploy cleanup g request payload ev Hsig Hjson Hcls).
  unfold dispatch. rewrite Ha, Hc. split.
  - intros e tr0 H0. apply (blanket_converts o "Cleanup failed" _ [] tr0 e).
    unfold cleanup_path. apply run_bind_raised. exact H0.
  - intros lp tr0 e tr1 H0 H1.
    apply (blanket_converts o "Cleanup failed" _ [] (tr0 ++ tr1) e).
    unfold cleanup_path. rewrite (run_bind_returned o _ _ [] tr0 lp H0). cbn [app].
    rewrite (run_bind_raised o _ _ tr0 tr1 e H1). reflexivity.
Qed.

Lemma X22_cleanup_runs_before_the_token_witness :
  let refused := Ok (mkResponse 401 (Ok (VDict [("message", VStr "Bad credentials")]))) in
  let o := scripted (mkScenario [] 1700000000 refused (fun _ => created)
                       (Ok (mkCompleted 0 None None)) (fun _ => "log") (Ok tt)) in
  let request := signed_request "s3cret" (sample_payload "closed" true) in
  let ev := mkEvent (VStr "closed") (VInt 42) (VStr "org/app") (VStr "feature-x")
                    (VInt 7) in
  let lp := cleanup_log_path (VStr "feature-x") (VInt 42) in
  let tr1 := snd (run o (get_installation_access_token sample_globals (VInt 7)) []) in
  validly_signed sample_globals request /\
  json_body request = Ok (sample_payload "closed" true) /\
  classify (sample_payload "closed" true) = Some ev /\
  among (ev_action ev) ["opened"; "synchronize"; "reopened"] = false /\
  is_str (ev_action ev) "closed" = true /\
  run o (stub_cleanup (ev_branch ev) (ev_number ev)) [] = (Returned lp, []) /\
  run o (get_installation_access_token sample_globals (ev_installation ev)) []
    = (Raised (HTTPError 401), tr1) /\
  run o (webhook_with (stub_deploy None) stub_cleanup sample_globals request) [] =
  (Returned (mkReply 500 "Cleanup failed"),
   ([] ++ tr1) ++ [Ev (LogError (mkLog "Cleanup failed: " (Some (HTTPError 401)))) tt]).
Proof.
  intros refused o request ev lp tr1.
  assert (Hsig : validly_signed sample_globals request)
    by (apply signed_request_valid; reflexivity).
  assert (H0 : run o (stub_cleanup (ev_branch ev) (ev_number ev)) [] = (Returned lp, []))
    by reflexivity.
  assert (H1 : run o (get_installation_access_token sample_globals (ev_installation ev)) []
               = (Raised (HTTPError 401), tr1)) by (vm_compute; reflexivity).
  split; [exact Hsig |]. split; [reflexivity |]. split; [reflexivity |].
  split; [reflexivity |]. split; [reflexivity |]. split; [exact H0 |].
  split; [exact H1 |].
  exact (proj2 (X22_cleanup_runs_before_the_token o (stub_deploy None) stub_cleanup
                  sample_globals request (sample_payload "closed" true) ev
                  Hsig eq_refl eq_refl eq_refl eq_refl) lp [] (HTTPError 401) tr1 H0 H1).
Defined.

Lemma deploy_mail_success (o : Oracle) (deploy : DeployRunner) (g : Globals)
    (repo n b i : value) (h tr1 tr2 : list event) (lp : string) :
  run o (deploy_until_mail deploy g repo n b i) h = (Returned lp, tr1) ->
  run o (send_email g (RECIPIENT_EMAIL g) "Deployment Log"
           "Please find the attached deployment log." lp) (h ++ tr1) = (Returned tt, tr2) ->
  run o (deploy_path deploy g repo n b i) h =
  (Returned (mkReply 200 "Deployment processed"), tr1 ++ tr2).
Proof.
  intros H1 H2. unfold deploy_until_mail in H1. unfold deploy_path.
  run_step H1. run_step H1. run_step H1.
  match goal with x : (option string * option string * string)%type |- _ =>
    destruct x as [[c link] lp'] end.
  run_step H1. cbn [run fst snd] in H1. injection H1 as -> <-.
  rewrite ?app_nil_r in H2 |- *. rewrite ?app_assoc in H2 |- *.
  rewrite run_bind, H2. cbn [run fst snd]. rewrite ?app_nil_r, ?app_assoc. reflexivity.
Qed.

Lemma cleanup_mail_success (o : Oracle) (cleanup : CleanupRunner) (g : Globals)
    (repo n b i : value) (h tr1 tr2 : list event) (lp : string) :
  run o (cleanup_until_mail cleanup g repo n b i) h = (Returned lp, tr1) ->
  run o (send_email g (RECIPIENT_EMAIL g) "Cleanup Log"
           "Please find the attached cleanup log." lp) (h ++ tr1) = (Returned tt, tr2) ->
  run o (cleanup_path cleanup g repo n b i) h =
  (Returned (mkReply 200 "Cleanup processed"), tr1 ++ tr2).
Proof.
  intros H1 H2. unfold cleanup_until_mail in H1. unfold cleanup_path.
  run_step H1. run_step H1. run_step H1.
  cbn [run fst snd] in H1. injection H1 as -> <-.
  rewrite ?app_nil_r in H2 |- *. rewrite ?app_assoc in H2 |- *.
  rewrite run_bind, H2. cbn [run fst snd]. rewrite ?app_nil_r, ?app_assoc. reflexivity.
Qed.

(** X23: with runners that return, the handler completes a request: when
    the steps up to the final comment have returned the log path and
    [send_email] then returns, the reply is 200 [Deployment processed] (or
    200 [Cleanup processed] on the cleanup path), nothing is logged by the
    handler and nothing happens after the mail: the trace is that of the
    steps followed by that of [send_email]. *)
Theorem X23_a_completed_request_is_processed
    (o : Oracle) (deploy : DeployRunner) (cleanup : CleanupRunner) (g : Globals)
    (request : Request) (payload : value) (ev : PullRequestEvent)
    (tr1 tr2 : list event) (lp : string) :
  validly_signed g request ->
  json_body request = Ok payload ->
  classify payload = Some ev ->
  (among (ev_action ev) ["opened"; "synchronize"; "reopened"] = true ->
   run o (deploy_until_mail deploy g (ev_repo ev) (ev_number ev) (ev_branch ev)
            (ev_installation ev)) [] = (Returned lp, tr1) ->
   run o (send_email g (RECIPIENT_EMAIL g) "Deployment Log"
            "Please find the attached deployment log." lp) tr1 = (Returned tt, tr2) ->
   run o (webhook_with deploy cleanup g request) [] =
   (Returned (mkReply 200 "Deployment processed"), tr1 ++ tr2)) /\
  (among (ev_action ev) ["opened"; "synchronize"; "reopened"] = false ->
   is_str (ev_action ev) "closed" = true ->
   run o (cleanup_until_mail cleanup g (ev_repo ev) (ev_number ev) (ev_branch ev)
            (ev_installation ev)) [] = (Returned lp, tr1) ->
   run o (send_email g (RECIPIENT_EMAIL g) "Cleanup Log"
            "Please find the attached cleanup log." lp) tr1 = (Returned tt, tr2) ->
   run o (webhook_with deploy cleanup g request) [] =
   (Returned (mkReply 200 "Cleanup processed"), tr1 ++ tr2)).
Proof.
  intros Hsig Hjson Hcls.
  rewrite (webhook_with_classified deploy cleanup g request payload ev Hsig Hjson Hcls).
  unfold dispatch. split.
  - intros Ha H1 H2. rewrite Ha. unfold blanket. rewrite run_try_except.
    rewrite (deploy_mail_success o deploy g _ _ _ _ [] tr1 tr2 lp H1 H2). reflexivity.
  - intros Ha Hc H1 H2. rewrite Ha, Hc. unfold blanket. rewrite run_try_except.
    rewrite (cleanup_mail_success o cleanup g _ _ _ _ [] tr1 tr2 lp H1 H2). reflexivity.
Qed.

Lemma X23_a_completed_request_is_processed_witness :
  let o := scripted all_well in
  let request := signed_request "s3cret" (sample_payload "opened" false) in
  let deploy := stub_deploy (Some "http://host:8042") in
  let ev := mkEvent (VStr "opened") (VInt 42) (VStr "org/app") (VStr "feature-x")
                    (VInt 7) in
  let lp := "/tmp/deployment_log_feature-x_42.txt" in
  let tr1 := snd (run o (deploy_until_mail deploy sample_globals (ev_repo ev)
                           (ev_number ev) (ev_branch ev) (ev_installation ev)) []) in
  let tr2 := snd (run o (send_email sample_globals (RECIPIENT_EMAIL sample_globals)
                           "Deployment Log" "Please find the attached deployment log."
                           lp) tr1) in
  validly_signed sample_globals request /\
  json_body request = Ok (sample_payload "opened" false) /\
  classify (sample_payload "opened" false) = Some ev /\
  among (ev_action ev) ["opened"; "synchronize"; "reopened"] = true /\
  run o (deploy_until_mail deploy sample_globals (ev_repo ev) (ev_number ev)
           (ev_branch ev) (ev_installation ev)) [] = (Returned lp, tr1) /\
  run o (send_email sample_globals (RECIPIENT_EMAIL sample_globals) "Deployment Log"
           "Please find the attached deployment log." lp) tr1 = (Returned tt, tr2) /\
  run o (webhook_with deploy stub_cleanup sample_globals request) [] =
  (Returned (mkReply 200 "Deployment processed"), tr1 ++ tr2) /\
  comments (tr1 ++ tr2) =
  [ "Deployment started for this pull request.";
    "Deployment successful. [Deployed application](http://host:8042)." ].
Proof.
  intros o request deploy ev lp tr1 tr2.
  assert (Hsig : validly_signed sample_globals request)
    by (apply signed_request_valid; reflexivity).
  assert (H1 : run o (deploy_until_mail deploy sample_globals (ev_repo ev) (ev_number ev)
                        (ev_branch ev) (ev_installation ev)) [] = (Returned lp, tr1))
    by (vm_compute; reflexivity).
  assert (H2 : run o (send_email sample_globals (RECIPIENT_EMAIL sample_globals)
                        "Deployment Log" "Please find the attached deployment log." lp)
                 tr1 = (Returned tt, tr2))
    by (vm_compute; reflexivity).
  split; [exact Hsig |]. split; [reflexivity |]. split; [reflexivity |].
  split; [reflexivity |]. split; [exact H1 |]. split; [exact H2 |].
  split.
  - exact (proj1 (X23_a_completed_request_is_processed o deploy stub_cleanup
                    sample_globals request (sample_payload "opened" false) ev tr1 tr2 lp
                    Hsig eq_refl eq_refl) eq_refl H1 H2).
  - vm_compute. reflexivity.
Defined.

(* ================================================================== *)
(** ** What the handler reads from the payload *)

(** X24: the handler reads five things from a pull-request payload and
    nothing else: two validly signed deliveries whose payloads agree on
    [action], [pull_request.number], [repository.full_name],
    [pull_request.head.ref] and [installation.id] are handled by the same
    program, so they get the same reply and make the same calls in every
    environment, whatever else differs (the [merged] flag, the sender,
    the title, the raw bytes). *)
Theorem X24_only_five_fields_matter
    (o : Oracle) (deploy : DeployRunner) (cleanup : CleanupRunner) (g : Globals)
    (request1 request2 : Request) (payload1 payload2 : value) (ev : PullRequestEvent)
    (h : list event) :
  validly_signed g request1 ->
  validly_signed g request2 ->
  json_body request1 = Ok payload1 ->
  json_body request2 = Ok payload2 ->
  classify payload1 = Some ev ->
  classify payload2 = Some ev ->
  run o (webhook_with deploy cleanup g request1) h =
  run o (webhook_with deploy cleanup g request2) h.
Proof.
  intros Hs1 Hs2 Hj1 Hj2 Hc1 Hc2.
  rewrite (webhook_with_classified deploy cleanup g request1 payload1 ev Hs1 Hj1 Hc1).
  rewrite (webhook_with_classified deploy cleanup g request2 payload2 ev Hs2 Hj2 Hc2).
  reflexivity.
Qed.

Lemma X24_only_five_fields_matter_witness :
  let p1 := sample_payload "closed" true in
  let p2 := VDict [ ("installation", VDict [("id", VInt 7); ("node_id", VStr "MDI=")]);
                    ("sender", VDict [("login", VStr "octocat")]);
                    ("repository", VDict [("full_name", VStr "org/app")]);
                    ("pull_request",
                     VDict [ ("title", VStr "Fix"); ("merged", VBool false);
                             ("head", VDict [("sha", VStr "abc"); ("ref", VStr "feature-x")]);
                             ("number", VInt 42) ]);
                    ("action", VStr "closed") ] in
  let ev := mkEvent (VStr "closed") (VInt 42) (VStr "org/app") (VStr "feature-x") (VInt 7) in
  validly_signed sample_globals (signed_request "s3cret" p1) /\
  validly_signed sample_globals (signed_request "s3cret" p2) /\
  classify p1 = Some ev /\
  classify p2 = Some ev /\
  run (scripted all_well)
      (webhook_with (run_deployment_script sample_globals)
                    (run_cleanup_script sample_globals) sample_globals
                    (signed_request "s3cret" p1)) [] =
  run (scripted all_well)
      (webhook_with (run_deployment_script sample_globals)
                    (run_cleanup_script sample_globals) sample_globals
                    (signed_request "s3cret" p2)) [].
Proof.
  intros p1 p2 ev.
  assert (Hs1 : validly_signed sample_globals (signed_request "s3cret" p1))
    by (apply signed_request_valid; reflexivity).
  assert (Hs2 : validly_signed sample_globals (signed_request "s3cret" p2))
    by (apply signed_request_valid; reflexivity).
  split; [exact Hs1 |]. split; [exact Hs2 |]. split; [reflexivity |].
  split; [reflexivity |].
  exact (X24_only_five_fields_matter (scripted all_well) _ _ sample_globals
           (signed_request "s3cret" p1) (signed_request "s3cret" p2) p1 p2 ev []
           Hs1 Hs2 eq_refl eq_refl eq_refl eq_refl).
Defined.

(* ================================================================== *)
(** ** Log file names *)

Lemma digits_no_underscore (d : Decimal.uint) :
  contains_char "_" (NilEmpty.string_of_uint d) = false.
Proof. induction d; cbn; auto. Qed.

Lemma dec_no_underscore (n : Z) : contains_char "_" (dec n) = false.
Proof.
  unfold dec, NilZero.string_of_int, NilZero.string_of_uint.
  destruct (Z.to_int n) as [d | d]; destruct d; cbn;
    rewrite ?digits_no_underscore; reflexivity.
Qed.

Lemma to_int_not_nil (n : Z) :
  Z.to_int n <> Decimal.Pos Decimal.Nil /\ Z.to_int n <> Decimal.Neg Decimal.Nil.
Proof.
  destruct n as [| p | p]; cbn; split; try discriminate.
  - intros H. injection H as H. exact (DecimalPos.Unsigned.to_uint_nonnil p H).
  - intros H. injection H as H. exact (DecimalPos.Unsigned.to_uint_nonnil p H).
Qed.

Lemma dec_inj (n m : Z) : dec n = dec m -> n = m.
Proof.
  unfold dec. intros H. apply DecimalZ.to_int_inj.
  destruct (to_int_not_nil n) as [Hn1 Hn2]. destruct (to_int_not_nil m) as [Hm1 Hm2].
  pose proof (NilZero.isi (Z.to_int n) Hn1 Hn2) as En.
  pose proof (NilZero.isi (Z.to_int m) Hm1 Hm2) as Em.
  rewrite H in En. rewrite En in Em. injection Em as Em. exact Em.
Qed.

Lemma split_at_last_underscore (a b x y : string) :
  contains_char "_" x = false ->
  contains_char "_" y = false ->
  a +++ String "_" x = b +++ String "_" y ->
  a = b /\ x = y.
Proof.
  intros Hx Hy. revert b; induction a as [| c a IH]; intros b H.
  - destruct b as [| c' b]; cbn in H.
    + injection H as H. split; [reflexivity | exact H].
    + injection H as Hc Hr. exfalso.
      rewrite Hr, contains_char_append in Hx. cbn in Hx.
      rewrite orb_true_r in Hx. discriminate.
  - destruct b as [| c' b]; cbn in H.
    + injection H as Hc Hr. exfalso.
      rewrite <- Hr, contains_char_append in Hy. cbn in Hy.
      rewrite orb_true_r in Hy. discriminate.
    + injection H as Hc Hr. destruct (IH b Hr) as [Ha Hxy].
      subst. split; reflexivity.
Qed.

Lemma append_cancel_r (a b s : string) : a +++ s = b +++ s -> a = b.
Proof.
  assert (Hlen : forall u v : string,
            String.length (u +++ v) = (String.length u + String.length v)%nat).
  { intros u v. induction u as [| c u IHu]; cbn; [reflexivity | rewrite IHu; reflexivity]. }
  revert b; induction a as [| c a IH]; intros b H.
  - destruct b as [| c' b]; [reflexivity |].
    apply (f_equal String.length) in H. rewrite !Hlen in H. cbn in H. lia.
  - destruct b as [| c' b].
    + apply (f_equal String.length) in H. rewrite !Hlen in H. cbn in H. lia.
    + cbn in H. injection H as Hc Hr. rewrite (IH b Hr), Hc. reflexivity.
Qed.

Lemma append_cancel_l (p a b : string) : p +++ a = p +++ b -> a = b.
Proof.
  induction p as [| c p IH]; cbn; intros H; [exact H |].
  injection H as H. exact (IH H).
Qed.

(** X25: the log file name tells the branch and the pull request apart:
    for branch names that are strings and pull-request numbers that are
    integers, two deploy logs (or two cleanup logs) have the same path only
    for the same branch and the same number, and a deploy log and a cleanup
    log never share a path. *)
Theorem X25_log_paths_do_not_collide (b1 b2 : string) (n1 n2 : Z) :
  (deployment_log_path (VStr b1) (VInt n1) = deployment_log_path (VStr b2) (VInt n2) ->
   b1 = b2 /\ n1 = n2) /\
  (cleanup_log_path (VStr b1) (VInt n1) = cleanup_log_path (VStr b2) (VInt n2) ->
   b1 = b2 /\ n1 = n2) /\
  deployment_log_path (VStr b1) (VInt n1) <> cleanup_log_path (VStr b2) (VInt n2).
Proof.
  assert (Hkey : forall x y : string,
            x +++ "_" +++ dec n1 +++ ".txt" = y +++ "_" +++ dec n2 +++ ".txt" ->
            x = y /\ n1 = n2).
  { intros x y H.
    apply split_at_last_underscore in H.
    - destruct H as [Hxy Hd]. split; [exact Hxy |].
      apply dec_inj. exact (append_cancel_r _ _ _ Hd).
    - rewrite contains_char_append, dec_no_underscore. reflexivity.
    - rewrite contains_char_append, dec_no_underscore. reflexivity. }
  unfold deployment_log_path, cleanup_log_path. cbn [py_str py_repr].
  split; [| split].
  - intros H. apply append_cancel_l in H. exact (Hkey _ _ H).
  - intros H. apply append_cancel_l in H. exact (Hkey _ _ H).
  - intros H. cbn [String.append] in H. discriminate H.
Qed.

Lemma X25_log_paths_do_not_collide_witness :
  deployment_log_path (VStr "feature-x") (VInt 42)
    = deployment_log_path (VStr "feature-x") (VInt 42) /\
  "feature-x" = "feature-x" /\ 42 = 42.
Proof.
  split; [reflexivity |].
  exact (proj1 (X25_log_paths_do_not_collide "feature-x" "feature-x" 42 42) eq_refl).
Defined.

(* ================================================================== *)
(** ** The final comment, for a runner that returns *)

(** X26: lines 104-111 for whatever function is bound to the name
    [run_deployment_script] (the repository's own never returns).  Once
    the token is acquired, the start notice is submitted and the runner has
    returned [(container_name, deployment_link, log_file_path)], the next
    call of the handler submits the comment [deployment_message_of
    deployment_link], chosen from the link alone: the generic failure
    notice whenever the link is null, and the success message around the
    link for every link the URL pattern can extract. *)
Theorem X26_final_comment_follows_link
    (o : Oracle) (deploy : DeployRunner) (cleanup : CleanupRunner) (g : Globals)
    (request : Request) (payload : value) (ev : PullRequestEvent)
    (tok : value) (tr1 tr2 tr3 : list event)
    (container_name deployment_link : option string) (log_file_path : string) :
  let comment_url := VStr (comment_url_of (ev_repo ev) (ev_number ev)) in
  validly_signed g request ->
  json_body request = Ok payload ->
  classify payload = Some ev ->
  among (ev_action ev) ["opened"; "synchronize"; "reopened"] = true ->
  run o (get_installation_access_token g (ev_installation ev)) [] = (Returned tok, tr1) ->
  run o (notify_stakeholders comment_url "Deployment started for this pull request."
           tok None) tr1 = (Returned tt, tr2) ->
  run o (deploy (ev_branch ev) (ev_number ev)) (tr1 ++ tr2)
    = (Returned (container_name, deployment_link, log_file_path), tr3) ->
  (exists r rest,
     snd (run o (webhook_with deploy cleanup g request) []) =
     tr1 ++ tr2 ++ tr3
       ++ Ev (comment_request comment_url tok (deployment_message_of deployment_link)) r
       :: rest) /\
  (deployment_link = None ->
   deployment_message_of deployment_link = "Deployment failed. Please check the logs.") /\
  (forall out link,
     re_search "Deployment complete: " "http://" out = Some link ->
     deployment_link = Some link ->
     deployment_message_of deployment_link =
     "Deployment successful. [Deployed application](" +++ link +++ ").").
Proof.
  intros comment_url Hsig Hjson Hcls Ha H1 H2 H3.
  rewrite (webhook_with_classified deploy cleanup g request payload ev Hsig Hjson Hcls).
  unfold dispatch. rewrite Ha. split; [| split].
  - unfold blanket.
    destruct (try_trace_prefix o
                (deploy_path deploy g (ev_repo ev) (ev_number ev) (ev_branch ev)
                             (ev_installation ev))
                (fun e => perform (LogError (mkLog ("Deployment failed" +++ ": ") (Some e))) ;;
                          Ret (mkReply 500 "Deployment failed")) [])
      as [rest0 E0].
    rewrite E0. unfold deploy_path. fold comment_url.
    rewrite (bind_trace_returned o _ _ [] tr1 tok H1). cbn [app].
    rewrite (bind_trace_returned o _ _ tr1 tr2 tt H2).
    rewrite (bind_trace_returned o _ _ (tr1 ++ tr2) tr3 _ H3).
    match goal with
    | |- context [run o (bind ?p ?f) ?h] =>
        destruct (bind_trace_prefix o p f h) as [rest1 E1]; rewrite E1
    end.
    destruct (notify_first_event o comment_url tok
                (deployment_message_of deployment_link) ((tr1 ++ tr2) ++ tr3))
      as (r & rest2 & E2).
    rewrite E2. exists r, (rest2 ++ rest1 ++ rest0).
    repeat rewrite <- app_assoc. reflexivity.
  - intros ->. reflexivity.
  - intros out link Hre ->. unfold deployment_message_of.
    rewrite (re_search_nonempty _ _ _ _ Hre). reflexivity.
Qed.

Lemma X26_final_comment_follows_link_witness :
  let o := scripted all_well in
  let request := signed_request "s3cret" (sample_payload "synchronize" false) in
  let comment_url := VStr (comment_url_of (VStr "org/app") (VInt 42)) in
  let tok := VStr "ghs_installation" in
  let tr1 := snd (run o (get_installation_access_token sample_globals (VInt 7)) []) in
  let tr2 := snd (run o (notify_stakeholders comment_url
                           "Deployment started for this pull request." tok None) tr1) in
  validly_signed sample_globals request /\
  among (VStr "synchronize") ["opened"; "synchronize"; "reopened"] = true /\
  run o (stub_deploy None (VStr "feature-x") (VInt 42)) (tr1 ++ tr2)
    = (Returned (None, None, "/tmp/deployment_log_feature-x_42.txt"), []) /\
  exists r rest,
    snd (run o (webhook_with (stub_deploy None) stub_cleanup sample_globals request) [])
    = tr1 ++ tr2 ++ []
        ++ Ev (comment_request comment_url tok
                 "Deployment failed. Please check the logs.") r
        :: rest.
Proof.
  intros o request comment_url tok tr1 tr2.
  assert (Hsig : validly_signed sample_globals request)
    by (apply signed_request_valid; reflexivity).
  assert (H1 : run o (get_installation_access_token sample_globals (VInt 7)) []
               = (Returned tok, tr1)) by (vm_compute; reflexivity).
  assert (H2 : run o (notify_stakeholders comment_url
                        "Deployment started for this pull request." tok None) tr1
               = (Returned tt, tr2)) by (vm_compute; reflexivity).
  assert (H3 : run o (stub_deploy None (VStr "feature-x") (VInt 42)) (tr1 ++ tr2)
               = (Returned (None, None, "/tmp/deployment_log_feature-x_42.txt"), []))
    by (vm_compute; reflexivity).
  split; [exact Hsig |]. split; [reflexivity |]. split; [exact H3 |].
  destruct (X26_final_comment_follows_link o (stub_deploy None) stub_cleanup
              sample_globals request (sample_payload "synchronize" false)
              (mkEvent (VStr "synchronize") (VInt 42) (VStr "org/app")
                       (VStr "feature-x") (VInt 7))
              tok tr1 tr2 [] None None "/tmp/deployment_log_feature-x_42.txt"
              Hsig eq_refl eq_refl eq_refl H1 H2 H3) as (H & Hnone & _).
  rewrite (Hnone eq_refl) in H. exact H.
Defined.
